(** * Rubric import: the sheet parser and the reconciliation engine

    A shallow embedding of [rubric/sheet_to_rubric_names.py].  The script
    reads a rubric from the worksheets of a Google Sheet
    ([get_assignment_rubric], [get_all_rubric_comments]) and brings the
    rubric of a codePost assignment in line with it
    ([create_assignment_rubric], [wipe_and_create_assignment_rubric],
    [create_all_rubrics]).

    Python values are dynamically typed, so the cells of a record are
    kept as a small sum type; dictionaries are association lists in
    insertion order, as Python dictionaries are; calls of the codePost
    client are recorded one by one, and their effect on the remote
    rubric is written out. *)

From Stdlib Require Import ZArith Ascii String DecimalString.
From stdpp Require Import base decidable option list strings.

(** ** Python values and exceptions *)

(** The values a record of [get_records] can hold: a cell read as text
    (the empty text for a blank cell), a cell read as a whole number, and
    [None], which only a [dict.get] default produces.  Cells holding a
    fraction are outside the model. *)
Inductive pyval :=
  | PyNone
  | PyStr (s : string)
  | PyInt (z : Z).

#[global] Instance pyval_eq_dec : EqDecision pyval.
Proof. solve_decision. Defined.

Inductive exn := ValueError | TypeError | AttributeError | KeyError.

(** A computation that returns or raises. *)
Inductive res (A : Type) :=
  | Ok (a : A)
  | Raise (e : exn).
Arguments Ok {A} a.
Arguments Raise {A} e.

#[global] Instance res_bind : MBind res := λ A B f m,
  match m with
  | Ok a => f a
  | Raise e => Raise e
  end.

(** ** Dictionaries

    A Python [dict] keeps its keys in insertion order; assigning to a key
    that is present replaces the value where it stands. *)
Abbreviation dict K V := (list (K * V)).

Section dict.
Context {K V : Type} `{EqDecision K}.

Fixpoint dict_get (k : K) (d : dict K V) : option V :=
  match d with
  | [] => None
  | (k', v) :: d' => if decide (k = k') then Some v else dict_get k d'
  end.

Definition dict_mem (k : K) (d : dict K V) : bool :=
  match dict_get k d with Some _ => true | None => false end.

Fixpoint dict_set (k : K) (v : V) (d : dict K V) : dict K V :=
  match d with
  | [] => [(k, v)]
  | (k', v') :: d' =>
      if decide (k = k') then (k, v) :: d' else (k', v') :: dict_set k v d'
  end.

Fixpoint dict_pop (k : K) (d : dict K V) : dict K V :=
  match d with
  | [] => []
  | (k', v') :: d' =>
      if decide (k = k') then dict_pop k d' else (k', v') :: dict_pop k d'
  end.

Definition dict_keys (d : dict K V) : list K := d.*1.
Definition dict_values (d : dict K V) : list V := d.*2.

(** [d.get(k, dflt)] *)
Definition dict_get_default (k : K) (dflt : V) (d : dict K V) : V :=
  default dflt (dict_get k d).

(** [d[k]] *)
Definition dict_index (k : K) (d : dict K V) : res V :=
  match dict_get k d with
  | Some v => Ok v
  | None => Raise KeyError
  end.
End dict.

(** ** Built-ins used by the parser *)

(** [str.isspace] on the ASCII range. *)
Definition is_space (a : ascii) : bool :=
  let n := nat_of_ascii a in
  ((9 <=? n) && (n <=? 13)) || ((28 <=? n) && (n <=? 32)).

Definition digit_of (a : ascii) : option Z :=
  let n := nat_of_ascii a in
  if (48 <=? n) && (n <=? 57) then Some (Z.of_nat (n - 48)) else None.

Fixpoint lstrip (s : string) : string :=
  match s with
  | String a s' => if is_space a then lstrip s' else s
  | EmptyString => EmptyString
  end.

Fixpoint rstrip (s : string) : string :=
  match s with
  | String a s' =>
      match rstrip s' with
      | EmptyString => if is_space a then EmptyString else String a EmptyString
      | r => String a r
      end
  | EmptyString => EmptyString
  end.

(** The digits of an integer literal: at least one digit, single
    underscores allowed between digits.  [after_digit] tells whether the
    previous character was a digit. *)
Fixpoint digits_value (acc : Z) (after_digit : bool) (s : string) : option Z :=
  match s with
  | EmptyString => if after_digit then Some acc else None
  | String a s' =>
      match digit_of a with
      | Some d => digits_value (10 * acc + d)%Z true s'
      | None =>
          if (Ascii.eqb a "_"%char) && after_digit then digits_value acc false s'
          else None
      end
  end.

(** [int(s)] for a string: surrounding white space, an optional sign, a
    decimal literal. *)
Definition int_of_string (s : string) : option Z :=
  match lstrip (rstrip s) with
  | String "-"%char s' => Z.opp <$> digits_value 0 false s'
  | String "+"%char s' => digits_value 0 false s'
  | s' => digits_value 0 false s'
  end.

(** [int(v)] *)
Definition py_int (v : pyval) : res Z :=
  match v with
  | PyInt z => Ok z
  | PyStr s => match int_of_string s with Some z => Ok z | None => Raise ValueError end
  | PyNone => Raise TypeError
  end.

(** [-1 * v]: a number is negated; a string repeated a negative number of
    times is the empty string. *)
Definition py_neg (v : pyval) : res pyval :=
  match v with
  | PyInt z => Ok (PyInt (-1 * z))
  | PyStr _ => Ok (PyStr "")
  | PyNone => Raise TypeError
  end.

Definition lower_ascii (a : ascii) : ascii :=
  let n := nat_of_ascii a in
  if (65 <=? n) && (n <=? 90) then ascii_of_nat (n + 32) else a.

Fixpoint lower (s : string) : string :=
  match s with
  | EmptyString => EmptyString
  | String a s' => String (lower_ascii a) (lower s')
  end.

(** [v.lower()]: only strings have the method. *)
Definition py_lower (v : pyval) : res string :=
  match v with
  | PyStr s => Ok (lower s)
  | _ => Raise AttributeError
  end.

(** [str(v)], as [str.format] applies it to its arguments. *)
Definition py_str (v : pyval) : string :=
  match v with
  | PyNone => "None"
  | PyStr s => s
  | PyInt z => NilZero.string_of_int (Z.to_int z)
  end.

(** ** The sheet parser *)

Definition SHEET_HEADERS : dict string string :=
  [ ("category", "Category");
    ("max points", "Max");
    ("name", "Name");
    ("tier", "Tier");
    ("point delta", "Points");
    ("caption", "Grader Caption");
    ("explanation", "Explanation");
    ("instructions", "Instructions");
    ("is template", "Template?") ].

Definition header (info : string) : string :=
  dict_get_default info "" SHEET_HEADERS.

(** [TIER_FMT.format(tier=tier, text=text)] with
    [TIER_FMT = '\\[T{tier}\\] {text}']. *)
Definition TIER_FMT (tier text : pyval) : string :=
  "\[T" +:+ py_str tier +:+ "\] " +:+ py_str text.

Definition TEMPLATE_YES : list string := ["x"; "yes"].

(** The keyword arguments of a rubric comment. *)
Record comment_t := {
  name : pyval;
  text : pyval;
  pointDelta : pyval;
  explanation : pyval;
  instructionText : pyval;
  templateTextOn : bool;
}.

#[global] Instance comment_t_eq_dec : EqDecision comment_t.
Proof. solve_decision. Defined.

(** [{ category: (max_points, [comments]) }] *)
Abbreviation rubric_t := (dict pyval (option Z * list comment_t)).
Abbreviation row_t := (dict string pyval).

(** Lines 78-82: the point cap read from the Max cell of the row that
    introduces a category. *)
Definition max_points_of (row : row_t) : res (option Z) :=
  let max_points := dict_get_default (header "max points") PyNone row in
  if decide (max_points = PyStr "") then Ok None
  else z ← py_int max_points; Ok (Some (-1 * z)%Z).

(** One turn of the loop over the records.  [continue] returns the rubric
    as it stands; an exception leaves the loop and the function. *)
Definition process_row (rubric : rubric_t) (row : row_t) : res rubric_t :=
  let category := dict_get_default (header "category") PyNone row in
  if decide (category = PyNone ∨ category = PyStr "") then Ok rubric else
  rubric ← (if dict_mem category rubric then Ok rubric else
              max_points ← max_points_of row;
              Ok (dict_set category (max_points, []) rubric));
  let name := dict_get_default (header "name") PyNone row in
  let tier := dict_get_default (header "tier") PyNone row in
  points ← py_neg (dict_get_default (header "point delta") (PyInt 0) row);
  let text := dict_get_default (header "caption") PyNone row in
  if decide (text = PyNone) then Ok rubric else
  let explanation := dict_get_default (header "explanation") PyNone row in
  let instructions := dict_get_default (header "instructions") PyNone row in
  let template := dict_get_default (header "is template") (PyStr "") row in
  lowered ← py_lower template;
  let is_template := bool_decide (lowered ∈ TEMPLATE_YES) in
  let text := if decide (tier ≠ PyNone ∧ tier ≠ PyStr "")
              then PyStr (TIER_FMT tier text) else text in
  let comment := {| name := name; text := text; pointDelta := points;
                    explanation := explanation; instructionText := instructions;
                    templateTextOn := is_template |} in
  entry ← dict_index category rubric;
  Ok (dict_set category (entry.1, entry.2 ++ [comment]) rubric).

Fixpoint process_rows (rubric : rubric_t) (rows : list row_t) : res rubric_t :=
  match rows with
  | [] => Ok rubric
  | row :: rows' => rubric' ← process_row rubric row; process_rows rubric' rows'
  end.

(** A worksheet: the value of cell A1 and the records below the header. *)
Record Worksheet := {
  A1 : pyval;
  get_records : list row_t;
}.

Definition get_assignment_rubric (worksheet : Worksheet) : res rubric_t :=
  process_rows [] (get_records worksheet).

(** [get_all_rubric_comments]: the worksheets [start_sheet .. end_sheet]
    are scanned in order.  [a_ids] is the set of assignments still looked
    for; [except ValueError: continue] catches that exception alone. *)
Fixpoint scan_worksheets (sheet : Z → Worksheet) (indices : list Z)
    (a_ids : list Z) (data : dict Z rubric_t) : res (dict Z rubric_t) :=
  match indices with
  | [] => Ok data
  | index :: indices' =>
      let worksheet := sheet index in
      match py_int (A1 worksheet) with
      | Raise ValueError => scan_worksheets sheet indices' a_ids data
      | Raise e => Raise e
      | Ok a_id =>
          if decide (a_id ∉ a_ids) then scan_worksheets sheet indices' a_ids data
          else
            rubric ← get_assignment_rubric worksheet;
            scan_worksheets sheet indices'
              (filter (λ a, a ≠ a_id) a_ids) (dict_set a_id rubric data)
      end
  end.

Definition get_all_rubric_comments (course_assignments : list Z)
    (sheet : Z → Worksheet) (start_sheet : Z) (end_sheet : option Z)
    : res (dict Z rubric_t) :=
  let end_sheet := default start_sheet end_sheet in
  let a_ids := remove_dups course_assignments in
  scan_worksheets sheet (seqZ start_sheet (end_sheet + 1 - start_sheet)) a_ids [].

(** ** The remote rubric

    What codePost holds: rubric categories, each bound to an assignment,
    and rubric comments, each bound to a category by the category's id.
    Ids are handed out by the server from a counter.  The server is taken
    to accept every call; a call that names an id it does not hold changes
    nothing. *)
Record RubricCategory := {
  cat_id : Z;
  cat_name : pyval;
  assignment : Z;
  pointLimit : option Z;
  sortKey : option nat;
}.

Record RubricComment := {
  com_id : Z;
  category : Z;
  info : comment_t;
}.

Record codepost := {
  db_categories : list RubricCategory;
  db_comments : list RubricComment;
  db_submissions : list Z;
  db_next_id : Z;
}.

(** The calls of the client that change the remote rubric, with their
    keyword arguments. *)
Inductive op :=
  | category_delete (id : Z)
  | rubric_category_create (name : pyval) (assignment : Z)
      (pointLimit : option Z) (sortKey : option nat)
  | rubric_comment_create (category : Z) (info : comment_t)
  | comment_update (id : Z) (info : comment_t)
  | comment_delete (id : Z).

#[global] Instance op_eq_dec : EqDecision op.
Proof. solve_decision. Defined.

(** The effect of a call on the server.  Deleting a category deletes its
    comments with it. *)
Definition exec (o : op) (db : codepost) : codepost :=
  match o with
  | category_delete i =>
      {| db_categories := filter (λ c, cat_id c ≠ i) (db_categories db);
         db_comments := filter (λ m, category m ≠ i) (db_comments db);
         db_submissions := db_submissions db;
         db_next_id := db_next_id db |}
  | rubric_category_create n a pl sk =>
      {| db_categories := db_categories db ++
           [{| cat_id := db_next_id db; cat_name := n; assignment := a;
               pointLimit := pl; sortKey := sk |}];
         db_comments := db_comments db;
         db_submissions := db_submissions db;
         db_next_id := db_next_id db + 1 |}
  | rubric_comment_create c inf =>
      {| db_categories := db_categories db;
         db_comments := db_comments db ++
           [{| com_id := db_next_id db; category := c; info := inf |}];
         db_submissions := db_submissions db;
         db_next_id := db_next_id db + 1 |}
  | comment_update i inf =>
      {| db_categories := db_categories db;
         db_comments :=
           (λ m, if decide (com_id m = i)
                 then {| com_id := com_id m; category := category m; info := inf |}
                 else m) <$> db_comments db;
         db_submissions := db_submissions db;
         db_next_id := db_next_id db |}
  | comment_delete i =>
      {| db_categories := db_categories db;
         db_comments := filter (λ m, com_id m ≠ i) (db_comments db);
         db_submissions := db_submissions db;
         db_next_id := db_next_id db |}
  end.

Definition exec_all (plan : list op) (db : codepost) : codepost :=
  foldl (λ db o, exec o db) db plan.

(** [assignment.rubricCategories], [category.rubricComments] and
    [assignment.list_submissions()] *)
Definition rubricCategories (a_id : Z) (db : codepost) : list RubricCategory :=
  filter (λ c, assignment c = a_id) (db_categories db).

Definition rubricComments (db : codepost) (c : RubricCategory) : list RubricComment :=
  filter (λ m, category m = cat_id c) (db_comments db).

Definition list_submissions (a_id : Z) (db : codepost) : list Z :=
  filter (λ a, a = a_id) (db_submissions db).

(** ** Computations that call the client

    A computation starts from the remote state and gives back its result
    or the exception it raised, the remote state it left, and the calls it
    made, in order.  An exception does not undo the calls made before
    it. *)
Definition M (A : Type) : Type := codepost → res A * codepost * list op.

#[global] Instance M_ret : MRet M := λ A a db, (Ok a, db, []).

#[global] Instance M_bind : MBind M := λ A B f m db,
  match m db with
  | (Ok a, db1, l1) =>
      match f a db1 with
      | (r, db2, l2) => (r, db2, l1 ++ l2)
      end
  | (Raise e, db1, l1) => (Raise e, db1, l1)
  end.

Definition call (o : op) : M Z := λ db, (Ok (db_next_id db), exec o db, [o]).

Definition fetch : M codepost := λ db, (Ok db, db, []).

Definition lift {A} (r : res A) : M A := λ db, (r, db, []).

Fixpoint for_each {A} (l : list A) (body : A → M unit) : M unit :=
  match l with
  | [] => mret tt
  | x :: l' => _ ← body x; for_each l' body
  end.

Fixpoint fold_each {A S} (l : list A) (s : S) (body : S → A → M S) : M S :=
  match l with
  | [] => mret s
  | x :: l' => s' ← body s x; fold_each l' s' body
  end.

(** [[d.pop(k) for k in keys]] *)
Fixpoint pop_each {K V} `{EqDecision K} (keys : list K) (d : dict K V)
    : res (list V * dict K V) :=
  match keys with
  | [] => Ok ([], d)
  | k :: keys' =>
      v ← dict_index k d;
      r ← pop_each keys' (dict_pop k d);
      Ok (v :: r.1, r.2)
  end.

(** ** The reconciliation engine *)

Section engine.
(** The order in which a Python [set] with the given members is
    iterated; the language leaves it open. *)
Variable set_iter : list pyval → list pyval.

(** Whether [category.rubricComments], read after comments were
    deleted, shows the comments as they are now on the server ([true])
    or as they were when the category was fetched ([false]).  The client
    library decides this; the engine is modelled for both. *)
Variable refetch : bool.

(** Lines 288-293: the comments and categories found on the server, by
    name. *)
Definition existing_rubric (a_id : Z) (db : codepost)
    : dict pyval RubricComment * dict pyval RubricCategory :=
  foldl (λ acc category,
           (foldl (λ old_comments comment,
                     dict_set (name (info comment)) comment old_comments)
                  acc.1 (rubricComments db category),
            dict_set (cat_name category) category acc.2))
        ([], []) (rubricCategories a_id db).

(** Lines 296-301: the comments of the sheet and their categories, by
    name. *)
Definition sheet_rubric (rubric : rubric_t)
    : dict pyval pyval * dict pyval comment_t :=
  foldl (λ acc entry,
           foldl (λ acc comment,
                    (dict_set (name comment) entry.1 acc.1,
                     dict_set (name comment) comment acc.2))
                 acc entry.2.2)
        ([], []) rubric.

(** Lines 322-328: categories that show no comments are deleted and
    dropped from [categories].  [db0] is the server as it was when the
    categories were fetched. *)
Definition delete_empty_categories (db0 : codepost)
    (categories : dict pyval RubricCategory) : M (dict pyval RubricCategory) :=
  fold_each (dict_keys categories) categories (λ categories c_name,
    category ← lift (dict_index c_name categories);
    db ← fetch;
    if decide (length (rubricComments (if refetch then db else db0) category) = 0)
    then _ ← call (category_delete (cat_id category));
         mret (dict_pop c_name categories)
    else mret categories).

Definition create_assignment_rubric (a_id : Z) (rubric : rubric_t)
    (override_rubric delete_missing : bool) : M unit :=
  db0 ← fetch;
  let has_submissions := bool_decide (0 < length (list_submissions a_id db0)) in
  if has_submissions && negb override_rubric then mret tt else
  let '(old_comments, categories) := existing_rubric a_id db0 in
  let '(comment_categories, rubric_comments) := sheet_rubric rubric in
  let existing_names := dict_keys old_comments in
  let sheet_names := dict_keys rubric_comments in
  let missing_names := set_iter (list_difference existing_names sheet_names) in
  popped ← lift (pop_each missing_names old_comments);
  let '(missing_comments, old_comments) := popped in
  let new_names := set_iter (list_difference sheet_names existing_names) in
  categories ←
    (if decide (0 < length missing_comments) then
       if delete_missing then
         _ ← for_each missing_comments (λ comment,
               _ ← call (comment_delete (com_id comment)); mret tt);
         delete_empty_categories db0 categories
       else mret categories
     else mret categories);
  let existing_categories := dict_keys categories in
  let new_categories := dict_keys rubric in
  let missing_categories :=
    set_iter (list_difference new_categories existing_categories) in
  categories ← fold_each missing_categories categories (λ categories c_name,
    entry ← lift (dict_index c_name rubric);
    let max_points := entry.1 in
    c_id ← call (rubric_category_create c_name a_id max_points None);
    mret (dict_set c_name
            {| cat_id := c_id; cat_name := c_name; assignment := a_id;
               pointLimit := max_points; sortKey := None |} categories));
  _ ← for_each old_comments (λ item,
        comment_info ← lift (dict_index item.1 rubric_comments);
        _ ← call (comment_update (com_id item.2) comment_info); mret tt);
  for_each new_names (λ name,
    c_name ← lift (dict_index name comment_categories);
    category ← lift (dict_index c_name categories);
    comment_info ← lift (dict_index name rubric_comments);
    _ ← call (rubric_comment_create (cat_id category) comment_info); mret tt).

Definition wipe_and_create_assignment_rubric (a_id : Z) (rubric : rubric_t)
    (override_rubric : bool) : M unit :=
  db0 ← fetch;
  let has_submissions := bool_decide (0 < length (list_submissions a_id db0)) in
  if has_submissions && negb override_rubric then mret tt else
  _ ← for_each (rubricCategories a_id db0) (λ category,
        _ ← call (category_delete (cat_id category)); mret tt);
  for_each (imap (λ sort_key entry, (sort_key, entry)) rubric) (λ item,
    let '(sort_key, (c_name, (max_points, comments))) := item in
    c_id ← call (rubric_category_create c_name a_id max_points (Some sort_key));
    for_each comments (λ comment,
      _ ← call (rubric_comment_create c_id comment); mret tt)).

(** A call with positional arguments only: Python binds the arguments
    to the parameters of the callee before its body runs, and raises
    [TypeError] when there are more arguments than parameters. *)
Definition call_positional {A} (parameters arguments : nat) (body : M A) : M A :=
  if decide (arguments ≤ parameters) then body else lift (Raise TypeError).

(** [def create_assignment_rubric(a_id, rubric, override_rubric=False,
    delete_missing=False)] *)
Definition create_assignment_rubric_parameters : nat := 4.

(** Line 385 passes [a_id, rubric, override_rubric, delete_missing,
    wipe_existing]: five arguments. *)
Definition create_all_rubrics (rubrics : dict Z rubric_t)
    (override_rubric delete_missing wipe_existing : bool) : M unit :=
  for_each rubrics (λ item,
    call_positional create_assignment_rubric_parameters 5
      (create_assignment_rubric item.1 item.2 override_rubric delete_missing)).
End engine.

(** * Vocabulary of the statements *)

(** A category cell that starts or continues a category. *)
Definition names_category (row : row_t) (c : pyval) : Prop :=
  dict_get "Category" row = Some c ∧ c ≠ PyNone ∧ c ≠ PyStr "".

(** The cells of a record are text or numbers, never [None]. *)
Definition cells_are_values (row : row_t) : Prop :=
  ∀ h, dict_get h row ≠ Some PyNone.


(** Text that is neither blank nor an integer literal. *)
Definition garbage (v : pyval) : Prop :=
  ∃ s, v = PyStr s ∧ s ≠ "" ∧ int_of_string s = None.

(** All comments of a rubric, category after category. *)
Definition all_comments (rubric : rubric_t) : list comment_t :=
  mjoin ((λ entry, entry.2.2) <$> rubric).

(** The caption cell is empty, or the record has no caption at all. *)
Definition caption_empty_or_missing (row : row_t) : Prop :=
  dict_get "Grader Caption" row = Some (PyStr "") ∨
  dict_get "Grader Caption" row = None.

(** "Garbage in Points or Max makes the parser fail", for every row. *)
Definition rejects_garbage_cells : Prop :=
  ∀ worksheet row,
    row ∈ get_records worksheet →
    (∃ v, dict_get "Points" row = Some v ∧ garbage v) ∨
    (∃ v, dict_get "Max" row = Some v ∧ garbage v) →
    ∃ e, get_assignment_rubric worksheet = Raise e.

(** "A row whose caption is empty or missing adds no comment." *)
Definition skips_rows_without_caption : Prop :=
  ∀ rubric row rubric',
    caption_empty_or_missing row →
    process_row rubric row = Ok rubric' →
    all_comments rubric' = all_comments rubric.

(** A record as [get_records] gives it, every header present. *)
Definition record (cat : pyval) (mx : pyval) (nm : string) (pts : pyval)
    (caption : pyval) : row_t :=
  [("Category", cat); ("Max", mx); ("Name", PyStr nm); ("Tier", PyStr "");
   ("Points", pts); ("Grader Caption", caption); ("Explanation", PyStr "");
   ("Instructions", PyStr ""); ("Template?", PyStr "")].

Definition comment (nm : string) (caption : pyval) (pts : pyval) : comment_t :=
  {| name := PyStr nm; text := caption; pointDelta := pts;
     explanation := PyStr ""; instructionText := PyStr "";
     templateTextOn := false |}.

(** [index] is the first of [indices] whose worksheet has [a_id] in cell
    A1. *)
Definition first_with_id (sheet : Z → Worksheet) (indices : list Z)
    (a_id index : Z) : Prop :=
  ∃ before after,
    indices = before ++ index :: after ∧
    py_int (A1 (sheet index)) = Ok a_id ∧
    ∀ j, j ∈ before → py_int (A1 (sheet j)) ≠ Ok a_id.

(** [m], started on [db], returns [a] after making the calls of [plan],
    and leaves the server as those calls leave it. *)
Definition runs {A} (m : M A) (db : codepost) (a : A) (plan : list op) : Prop :=
  m db = (Ok a, exec_all plan db, plan).

(** The guard of lines 277-284 lets the run proceed. *)
Definition proceeds (a_id : Z) (override_rubric : bool) (db : codepost) : Prop :=
  length (list_submissions a_id db) = 0 ∨ override_rubric = true.

(** The five loops of [create_assignment_rubric], each with the calls it
    makes. *)
Record phases := {
  deleted_comments : list op;
  deleted_categories : list op;
  created_categories : list op;
  updated_comments : list op;
  created_comments : list op;
}.

Definition plan_of (ph : phases) : list op :=
  deleted_comments ph ++ deleted_categories ph ++ created_categories ph ++
  updated_comments ph ++ created_comments ph.

Section plan_shape.
Variable set_iter : list pyval → list pyval.
Variable refetch : bool.
Variables (a_id : Z) (rubric : rubric_t) (delete_missing : bool) (db : codepost).

Let old_comments := (existing_rubric a_id db).1.
Let categories := (existing_rubric a_id db).2.
Let comment_categories := (sheet_rubric rubric).1.
Let rubric_comments := (sheet_rubric rubric).2.

(** Names on the server and not in the sheet, and the other way
    round. *)
Definition missing_names : list pyval :=
  set_iter (list_difference (dict_keys old_comments) (dict_keys rubric_comments)).
Definition new_names : list pyval :=
  set_iter (list_difference (dict_keys rubric_comments) (dict_keys old_comments)).

(** Lines 311 and 315: comments are deleted, and empty categories
    looked for, only if some comment is missing and the flag is set. *)
Definition deleting : bool :=
  bool_decide (missing_names ≠ []) && delete_missing.

(** The server as the emptiness test of line 325 sees it, after the
    calls [deleted] were made. *)
Definition seen (deleted : list op) : codepost :=
  if refetch then exec_all deleted db else db.

(** [categories] after line 328. *)
Definition kept_categories (deleted : list op) : dict pyval RubricCategory :=
  if deleting
  then filter (λ item, rubricComments (seen deleted) item.2 ≠ []) categories
  else categories.

Definition missing_categories (deleted : list op) : list pyval :=
  set_iter (list_difference (dict_keys rubric) (dict_keys (kept_categories deleted))).

Definition plan_shape (ph : phases) : Prop :=
  (if deleting
   then Forall2 (λ n o, ∃ m, dict_get n old_comments = Some m ∧
                             o = comment_delete (com_id m))
          missing_names (deleted_comments ph)
   else deleted_comments ph = []) ∧
  deleted_categories ph =
    (if deleting
     then (λ c, category_delete (cat_id c)) <$>
            filter (λ c, rubricComments (seen (deleted_comments ph)) c = [])
              (dict_values categories)
     else []) ∧
  Forall2 (λ c o, ∃ entry, dict_get c rubric = Some entry ∧
                           o = rubric_category_create c a_id entry.1 None)
    (missing_categories (deleted_comments ph)) (created_categories ph) ∧
  Forall2 (λ item o, ∃ inf, dict_get item.1 rubric_comments = Some inf ∧
                            o = comment_update (com_id item.2) inf)
    (filter (λ item, item.1 ∈ dict_keys rubric_comments) old_comments)
    (updated_comments ph) ∧
  Forall2 (λ n o, ∃ c_name c inf,
                    dict_get n comment_categories = Some c_name ∧
                    cat_name c = c_name ∧
                    c ∈ rubricCategories a_id
                          (exec_all (deleted_comments ph ++ deleted_categories ph ++
                                     created_categories ph) db) ∧
                    dict_get n rubric_comments = Some inf ∧
                    o = rubric_comment_create (cat_id c) inf)
    new_names (created_comments ph).
End plan_shape.

(** The calls [wipe_and_create_assignment_rubric] makes for the sheet once
    the old categories are gone: category after category, each followed
    by its comments.  [next] is the id the server hands out next. *)
Fixpoint wipe_creations (a_id : Z) (next : Z) (sort_key : nat) (rubric : rubric_t)
    : list op :=
  match rubric with
  | [] => []
  | (c_name, (max_points, comments)) :: rubric' =>
      rubric_category_create c_name a_id max_points (Some sort_key) ::
      (rubric_comment_create next <$> comments) ++
      wipe_creations a_id (next + 1 + Z.of_nat (length comments)) (S sort_key) rubric'
  end.

(** A server with three categories of assignment 7, the last one empty,
    and a sheet for that assignment. *)
Definition demo_category (i : Z) (n : string) : RubricCategory :=
  {| cat_id := i; cat_name := PyStr n; assignment := 7;
     pointLimit := None; sortKey := None |}.

Definition demo_comment (i c : Z) (n : string) : RubricComment :=
  {| com_id := i; category := c; info := comment n (PyStr "old text") (PyInt 0) |}.

Definition demo_db : codepost :=
  {| db_categories := [demo_category 1 "Style"; demo_category 2 "Tests";
                       demo_category 3 "Unused"];
     db_comments := [demo_comment 10 1 "A"; demo_comment 11 2 "B";
                     demo_comment 12 2 "C"];
     db_submissions := [];
     db_next_id := 100 |}.

Definition demo_rubric : rubric_t :=
  [(PyStr "Tests",
    (Some (-3)%Z, [comment "B" (PyStr "b") (PyInt (-1));
                   comment "C" (PyStr "c") (PyInt (-2));
                   comment "D" (PyStr "d") (PyInt 0)]))].

(** The same server with a submission handed in for assignment 7. *)
Definition demo_db_graded : codepost :=
  {| db_categories := db_categories demo_db;
     db_comments := db_comments demo_db;
     db_submissions := [7%Z];
     db_next_id := db_next_id demo_db |}.

(** The remote rubric of an assignment agrees with the sheet: the
    comments on the server and the comments of the sheet have the same
    names, each comment on the server has the fields the sheet gives it,
    and every category of the sheet is on the server. *)
Definition rubric_in_place (a_id : Z) (rubric : rubric_t) (db : codepost) : Prop :=
  (∀ n, n ∈ dict_keys (existing_rubric a_id db).1 ↔
        n ∈ dict_keys (sheet_rubric rubric).2) ∧
  (∀ c, c ∈ dict_keys rubric → c ∈ dict_keys (existing_rubric a_id db).2) ∧
  (∀ n m, dict_get n (existing_rubric a_id db).1 = Some m →
          dict_get n (sheet_rubric rubric).2 = Some (info m)).

(** "A run on a rubric that is in place makes no call." *)
Definition rerun_makes_no_call : Prop :=
  ∀ set_iter refetch a_id rubric override_rubric delete_missing db,
    (∀ l, set_iter l ≡ₚ l) →
    rubric_in_place a_id rubric db →
    (create_assignment_rubric set_iter refetch a_id rubric
       override_rubric delete_missing db).2 = [].

(** The server after a first run of the engine on [demo_db]. *)
Definition demo_db_imported : codepost :=
  (create_assignment_rubric (λ l, l) true 7 demo_rubric false true demo_db).1.2.

Definition is_comment_delete (o : op) : bool :=
  match o with comment_delete _ => true | _ => false end.

Definition is_category_delete (o : op) : bool :=
  match o with category_delete _ => true | _ => false end.

(** The comment deletions of a plan. *)
Definition comment_deletions (plan : list op) : list op :=
  filter (λ o, is_comment_delete o = true) plan.

(** "With [delete_missing] set, a category is deleted exactly if it had
    comments before the run and has none once the comments missing from
    the sheet are deleted." *)
Definition deletes_exactly_emptied (refetch : bool) : Prop :=
  ∀ set_iter a_id rubric override_rubric db c,
    (∀ l, set_iter l ≡ₚ l) →
    proceeds a_id override_rubric db →
    c ∈ rubricCategories a_id db →
    let plan := (create_assignment_rubric set_iter refetch a_id rubric
                   override_rubric true db).2 in
    category_delete (cat_id c) ∈ plan ↔
    rubricComments db c ≠ [] ∧
    rubricComments (exec_all (comment_deletions plan) db) c = [].

(** A server where the comments A, B and C of assignment 7 share one
    category, which the sheet [demo_rubric] has too. *)
Definition one_category_db : codepost :=
  {| db_categories := [demo_category 2 "Tests"];
     db_comments := [demo_comment 10 2 "A"; demo_comment 11 2 "B";
                     demo_comment 12 2 "C"];
     db_submissions := [];
     db_next_id := 100 |}.

(** A sheet that lists the comment B, which the server has under
    "Tests", under "Style". *)
Definition moved_rubric : rubric_t :=
  [(PyStr "Style",
    (None, [comment "A" (PyStr "a") (PyInt 0); comment "B" (PyStr "b") (PyInt (-1))]));
   (PyStr "Tests", (None, [comment "C" (PyStr "c") (PyInt (-2))]))].

(** The comment [m] of the server once it holds the fields [inf]: its id
    and its category are those of [m]. *)
Definition with_fields (m : RubricComment) (inf : comment_t) : RubricComment :=
  {| com_id := com_id m; category := category m; info := inf |}.

(** A sheet of four worksheets; the first and the third both carry the id
    7 in cell A1, the second carries text. *)
Definition demo_sheet (index : Z) : Worksheet :=
  if decide (index = 1%Z) then
    {| A1 := PyStr "7";
       get_records := [record (PyStr "Style") (PyInt 10) "indent" (PyInt 1) (PyStr "a")] |}
  else if decide (index = 2%Z) then
    {| A1 := PyStr "Overview"; get_records := [] |}
  else if decide (index = 3%Z) then
    {| A1 := PyStr "7";
       get_records := [record (PyStr "Tests") (PyStr "") "naming" (PyInt 2) (PyStr "b")] |}
  else
    {| A1 := PyStr "8"; get_records := [] |}.

(** A comment found on an assignment: it is bound to one of the
    categories of the assignment. *)
Definition observed (a_id : Z) (db : codepost) (m : RubricComment) : Prop :=
  m ∈ db_comments db ∧ ∃ c, c ∈ rubricCategories a_id db ∧ category m = cat_id c.

(** The ids of the comments are distinct, and the ids the comments carry
    were handed out before. *)
Definition ids_in_order (db : codepost) : Prop :=
  NoDup (com_id <$> db_comments db) ∧
  ∀ m, m ∈ db_comments db →
       (com_id m < db_next_id db)%Z ∧ (category m < db_next_id db)%Z.

(** No two comments found on the assignment bear the same name. *)
Definition names_distinct (a_id : Z) (db : codepost) : Prop :=
  ∀ m m', observed a_id db m → observed a_id db m' →
          name (info m) = name (info m') → m = m'.

(** ** Vocabulary of the further properties *)

(** The cells of a record that decide what becomes of it: lines 73, 89
    and 95. *)
Definition category_cell (row : row_t) : pyval :=
  dict_get_default (header "category") PyNone row.

Definition name_cell (row : row_t) : pyval :=
  dict_get_default (header "name") PyNone row.

Definition caption_cell (row : row_t) : pyval :=
  dict_get_default (header "caption") PyNone row.

(** The record starts or continues a category: the test of line 74
    fails. *)
Definition has_category (row : row_t) : Prop :=
  category_cell row ≠ PyNone ∧ category_cell row ≠ PyStr "".

#[global] Instance has_category_dec row : Decision (has_category row).
Proof. unfold has_category. apply _. Defined.

(** The record gives a comment to the category [c]: it names [c] and has
    a caption (line 96). *)
Definition gives_comment_to (c : pyval) (row : row_t) : Prop :=
  category_cell row = c ∧ caption_cell row ≠ PyNone.

#[global] Instance gives_comment_to_dec c row : Decision (gives_comment_to c row).
Proof. unfold gives_comment_to. apply _. Defined.

(** [cm] is the comment the record gives when it is parsed on its own, its
    category being there already. *)
Definition comment_of (row : row_t) (cm : comment_t) : Prop :=
  process_row [(category_cell row, (None, []))] row =
  Ok [(category_cell row, (None, [cm]))].

(** The members of a list in the order in which they first appear. *)
Definition first_appearances {A} `{EqDecision A} (l : list A) : list A :=
  foldl (λ acc x, if decide (x ∈ acc) then acc else acc ++ [x]) [] l.

(** A computation that returns. *)
Definition succeeds {A} (r : res A) : Prop := ∃ a, r = Ok a.

(** A worksheet whose categories alternate, with a record that names no
    category in between. *)
Definition mixed_worksheet : Worksheet :=
  {| A1 := PyStr "7";
     get_records :=
       [record (PyStr "Style") (PyInt 10) "indent" (PyInt 1) (PyStr "a");
        record (PyStr "Tests") (PyStr "") "passes" (PyInt 2) (PyStr "b");
        record (PyStr "") (PyStr "ten") "note" (PyStr "n/a") (PyStr "c");
        record (PyStr "Style") (PyInt 3) "naming" (PyInt 4) (PyStr "d")] |}.

Definition mixed_rubric : rubric_t :=
  [(PyStr "Style", (Some (-10)%Z, [comment "indent" (PyStr "a") (PyInt (-1));
                                   comment "naming" (PyStr "d") (PyInt (-4))]));
   (PyStr "Tests", (None, [comment "passes" (PyStr "b") (PyInt (-2))]))].

Definition points_cell (row : row_t) : pyval :=
  dict_get_default (header "point delta") (PyInt 0) row.

Definition template_cell (row : row_t) : pyval :=
  dict_get_default (header "is template") (PyStr "") row.

(** Lines 93 and 104 go through on the record: the point delta can be
    negated and, if the record has a caption, the template cell can be
    put in lower case. *)
Definition cells_parse (row : row_t) : Prop :=
  succeeds (py_neg (points_cell row)) ∧
  (caption_cell row ≠ PyNone → succeeds (py_lower (template_cell row))).

(** [demo_sheet] with other records on the third worksheet, which repeats
    the id of the first, and on the second, which bears no id. *)
Definition demo_sheet_changed (index : Z) : Worksheet :=
  if decide (index = 2%Z) then
    {| A1 := PyStr "Overview";
       get_records := [record (PyStr "Notes") (PyStr "ten") "n" (PyInt 0) (PyStr "x")] |}
  else if decide (index = 3%Z) then
    {| A1 := PyStr "7";
       get_records := [record (PyStr "Tests") (PyStr "three") "naming" (PyInt 2) (PyStr "b")] |}
  else demo_sheet index.

(** A sheet that lists the comment B twice, under two categories and
    with different fields. *)
Definition doubled_rubric : rubric_t :=
  [(PyStr "Style", (None, [comment "B" (PyStr "first") (PyInt 0)]));
   (PyStr "Tests", (None, [comment "B" (PyStr "second") (PyInt (-1))]))].

(** [demo_db] with a second assignment, 8, that has a category and a
    comment of its own. *)
Definition two_assignments_db : codepost :=
  {| db_categories := db_categories demo_db ++
       [{| cat_id := 4; cat_name := PyStr "Tests"; assignment := 8;
           pointLimit := None; sortKey := None |}];
     db_comments := db_comments demo_db ++ [demo_comment 13 4 "B"];
     db_submissions := [];
     db_next_id := 100 |}.

(** ** The command line *)

Section main.
Variable set_iter : list pyval → list pyval.
Variable refetch : bool.

(** [main], from line 456 on.  What comes before (logging in, the
    service account, the course and the sheet) is done by the module
    [shared]; [course_assignments] and [sheet] stand for the course and
    the sheet it hands over.  [start_sheet] and [end_sheet] are [None]
    when the argument is left out.  With [start_sheet] left as [None],
    [range(start_sheet, end_sheet + 1)] at line 150 raises [TypeError],
    whether [end_sheet] is a number or not. *)
Definition main (course_assignments : list Z) (sheet : Z → Worksheet)
    (start_sheet end_sheet : option Z) (testing override delete wipe : bool) : M unit :=
  let start_sheet :=
    if testing && bool_decide (start_sheet = None) && bool_decide (end_sheet = None)
    then Some 1%Z else start_sheet in
  rubrics ← lift (match start_sheet with
                  | Some start_sheet =>
                      get_all_rubric_comments course_assignments sheet start_sheet end_sheet
                  | None => Raise TypeError
                  end);
  create_all_rubrics set_iter refetch rubrics override delete wipe.
End main.

(** The comments of a rubric in the order of the sheet, each with the
    category that lists it. *)
Definition listed (rubric : rubric_t) : list (pyval * comment_t) :=
  entry ← rubric; (λ cm, (entry.1, cm)) <$> entry.2.2.

(** The kinds of call, for the order in which they are made. *)
Definition is_category_create (o : op) : bool :=
  match o with rubric_category_create _ _ _ _ => true | _ => false end.

Definition is_comment_update (o : op) : bool :=
  match o with comment_update _ _ => true | _ => false end.

Definition is_comment_create (o : op) : bool :=
  match o with rubric_comment_create _ _ => true | _ => false end.

(** A server where two comments of assignment 7 bear the name B. *)
Definition shadowed_db : codepost :=
  {| db_categories := [demo_category 1 "Style"; demo_category 2 "Tests"];
     db_comments := [demo_comment 10 1 "B"; demo_comment 11 2 "B"];
     db_submissions := [];
     db_next_id := 100 |}.
(** * Properties *)

(** ** Dictionaries *)

Section dict_facts.
Context {K V : Type} `{EqDecision K}.
Implicit Types (d : dict K V) (k : K) (v : V).

Lemma dict_get_set_eq d k v : dict_get k (dict_set k v d) = Some v.
Proof.
  induction d as [|[k' v'] d IH]; simpl.
  - by rewrite decide_True.
  - destruct (decide (k = k')) as [->|Hne]; simpl.
    + by rewrite decide_True.
    + by rewrite decide_False.
Qed.

Lemma dict_get_set_ne d k k' v :
  k ≠ k' → dict_get k' (dict_set k v d) = dict_get k' d.
Proof.
  intros Hne. induction d as [|[k1 v1] d IH]; simpl.
  - by rewrite decide_False.
  - destruct (decide (k = k1)) as [->|Hne1]; simpl.
    + by rewrite !decide_False.
    + destruct (decide (k' = k1)); [done | apply IH].
Qed.

Lemma dict_get_set_inv d k k' v v' :
  dict_get k' (dict_set k v d) = Some v' →
  (k' = k ∧ v' = v) ∨ (k' ≠ k ∧ dict_get k' d = Some v').
Proof.
  destruct (decide (k = k')) as [->|Hne].
  - rewrite dict_get_set_eq. intros [= ->]. by left.
  - rewrite dict_get_set_ne by done. intros Hg. right. split; [congruence | done].
Qed.

Lemma dict_get_None d k : dict_get k d = None ↔ k ∉ dict_keys d.
Proof.
  unfold dict_keys. induction d as [|[k' v'] d IH]; simpl.
  - split; [intros _; apply not_elem_of_nil | done].
  - rewrite not_elem_of_cons. destruct (decide (k = k')) as [->|Hne].
    + split; [done | intros [? _]; done].
    + rewrite IH. tauto.
Qed.

Lemma dict_get_is_Some d k : is_Some (dict_get k d) ↔ k ∈ dict_keys d.
Proof.
  rewrite <- not_eq_None_Some, dict_get_None.
  destruct (decide (k ∈ dict_keys d)); tauto.
Qed.

Lemma dict_get_elem d k v : dict_get k d = Some v → (k, v) ∈ d.
Proof.
  induction d as [|[k' v'] d IH]; simpl; [done |].
  destruct (decide (k = k')) as [->|Hne].
  - intros [= ->]. apply list_elem_of_here.
  - intros Hg. apply list_elem_of_further, IH, Hg.
Qed.

Lemma dict_elem_get d k v :
  NoDup (dict_keys d) → (k, v) ∈ d → dict_get k d = Some v.
Proof.
  unfold dict_keys. induction d as [|[k' v'] d IH]; simpl.
  - intros _ Hin. by apply elem_of_nil in Hin.
  - intros Hnd Hin. apply NoDup_cons in Hnd as [Hk Hnd].
    apply elem_of_cons in Hin as [[= -> ->]|Hin].
    + by rewrite decide_True.
    + rewrite decide_False; [by apply IH |].
      intros ->. apply Hk. apply list_elem_of_fmap. by exists (k', v).
Qed.

Lemma dict_set_fresh d k v :
  dict_get k d = None → dict_set k v d = d ++ [(k, v)].
Proof.
  induction d as [|[k' v'] d IH]; simpl; [done |].
  destruct (decide (k = k')); [done |]. intros Hg. by rewrite IH.
Qed.

Lemma dict_keys_set_present d k v :
  is_Some (dict_get k d) → dict_keys (dict_set k v d) = dict_keys d.
Proof.
  unfold dict_keys. induction d as [|[k' v'] d IH]; simpl.
  - by intros [? ?].
  - destruct (decide (k = k')) as [->|Hne]; simpl; [done |].
    intros Hs. f_equal. by apply IH.
Qed.

Lemma dict_keys_set d k v :
  dict_keys (dict_set k v d) =
  if dict_mem k d then dict_keys d else dict_keys d ++ [k].
Proof.
  unfold dict_mem. destruct (dict_get k d) as [v0|] eqn:Hg.
  - apply dict_keys_set_present. by rewrite Hg.
  - rewrite dict_set_fresh by done. unfold dict_keys. by rewrite fmap_app.
Qed.

Lemma dict_set_NoDup d k v :
  NoDup (dict_keys d) → NoDup (dict_keys (dict_set k v d)).
Proof.
  intros Hnd. rewrite dict_keys_set. unfold dict_mem.
  destruct (dict_get k d) eqn:Hg; [done |].
  apply NoDup_app. split_and!; [done | | apply NoDup_singleton].
  intros x Hx Hx'. apply list_elem_of_singleton in Hx' as ->.
  by apply dict_get_None in Hg.
Qed.

Lemma dict_elem_set d k v k' v' :
  (k', v') ∈ dict_set k v d → (k' = k ∧ v' = v) ∨ (k', v') ∈ d.
Proof.
  induction d as [|[k1 v1] d IH]; simpl.
  - intros Hin. apply list_elem_of_singleton in Hin as [= -> ->]. by left.
  - destruct (decide (k = k1)) as [->|Hne].
    + intros Hin. apply elem_of_cons in Hin as [[= -> ->]|Hin]; [by left |].
      right. by apply list_elem_of_further.
    + intros Hin. apply elem_of_cons in Hin as [[= -> ->]|Hin].
      * right. apply list_elem_of_here.
      * destruct (IH Hin) as [?|?]; [by left |].
        right. by apply list_elem_of_further.
Qed.

Lemma dict_pop_filter d k : dict_pop k d = filter (λ kv, kv.1 ≠ k) d.
Proof.
  induction d as [|[k' v'] d IH]; simpl; [done |].
  destruct (decide (k = k')) as [->|Hne].
  - rewrite filter_cons_False by (simpl; tauto). done.
  - rewrite filter_cons_True by (simpl; congruence). by rewrite IH.
Qed.
Lemma dict_keys_set_decide d k v :
  dict_keys (dict_set k v d) =
  if decide (k ∈ dict_keys d) then dict_keys d else dict_keys d ++ [k].
Proof.
  rewrite dict_keys_set. unfold dict_mem.
  destruct (dict_get k d) eqn:Hg.
  - rewrite decide_True; [done |]. apply dict_get_is_Some. by rewrite Hg.
  - rewrite decide_False; [done |]. by apply dict_get_None.
Qed.

Lemma dict_get_pop_ne d k k' :
  k ≠ k' → dict_get k' (dict_pop k d) = dict_get k' d.
Proof.
  intros Hne. induction d as [|[k1 v1] d IH]; simpl; [done |].
  destruct (decide (k = k1)) as [->|Hne1]; simpl.
  - by rewrite decide_False.
  - destruct (decide (k' = k1)); [done | apply IH].
Qed.

Lemma dict_get_pop_Some d k k' v :
  dict_get k' (dict_pop k d) = Some v → dict_get k' d = Some v.
Proof.
  induction d as [|[k1 v1] d IH]; simpl; [done |].
  destruct (decide (k = k1)) as [->|Hne]; simpl.
  - intros Hg. destruct (decide (k' = k1)) as [->|Hne']; [| by apply IH].
    apply IH in Hg as Hg'. exfalso.
    apply dict_get_elem in Hg. rewrite dict_pop_filter in Hg.
    apply list_elem_of_filter in Hg as [Hk _]. done.
  - destruct (decide (k' = k1)); [done | apply IH].
Qed.

Lemma dict_keys_filter_NoDup d (P : K * V → Prop) `{∀ x, Decision (P x)} :
  NoDup (dict_keys d) → NoDup (dict_keys (filter P d)).
Proof.
  unfold dict_keys. induction d as [|[k1 v1] d IH]; simpl; [done |].
  intros Hnd. apply NoDup_cons in Hnd as [Hk Hnd].
  destruct (decide (P (k1, v1))).
  - rewrite filter_cons_True by done. simpl. apply NoDup_cons. split; [| by apply IH].
    intros Hin. apply Hk. apply list_elem_of_fmap in Hin as ([k2 v2] & -> & Hin).
    apply list_elem_of_filter in Hin as [_ Hin].
    apply list_elem_of_fmap. by exists (k2, v2).
  - rewrite filter_cons_False by done. by apply IH.
Qed.

Lemma pop_each_spec (names : list K) :
  ∀ d, NoDup names → (∀ n, n ∈ names → n ∈ dict_keys d) →
       ∃ vs, pop_each names d = Ok (vs, filter (λ kv, kv.1 ∉ names) d) ∧
             Forall2 (λ n v, dict_get n d = Some v) names vs.
Proof.
  induction names as [|n names IH]; intros d Hnd Hin; simpl.
  - exists []. split; [| constructor]. f_equal. f_equal.
    clear. induction d as [|kv d IHd]; [done |].
    rewrite filter_cons_True by (simpl; apply not_elem_of_nil). by rewrite <- IHd.
  - apply NoDup_cons in Hnd as [Hn Hnd].
    destruct (dict_get n d) as [v|] eqn:Hg.
    2:{ apply dict_get_None in Hg. exfalso. apply Hg, Hin, list_elem_of_here. }
    destruct (IH (dict_pop n d) Hnd) as (vs & Hpop & HF).
    { intros n' Hn'. apply dict_get_is_Some.
      assert (n' ∈ dict_keys d) as Hd by (apply Hin; by apply list_elem_of_further).
      apply dict_get_is_Some in Hd as [v' Hv']. exists v'.
      rewrite dict_get_pop_ne; [done |]. intros ->. done. }
    unfold dict_index. rewrite Hg. simpl. rewrite Hpop. simpl.
    exists (v :: vs). split.
    + f_equal. f_equal. rewrite dict_pop_filter, list_filter_filter.
      apply list_filter_iff. intros [k1 v1]. simpl.
      rewrite not_elem_of_cons. tauto.
    + constructor; [done |].
      eapply Forall2_impl; [apply HF |]. intros n' v' Hv'.
      by apply dict_get_pop_Some in Hv'.
Qed.
End dict_facts.

Lemma filter_ext_elem {A} (P Q : A → Prop) `{∀ x, Decision (P x)} `{∀ x, Decision (Q x)}
    (l : list A) :
  (∀ x, x ∈ l → P x ↔ Q x) → filter P l = filter Q l.
Proof.
  induction l as [|x l IH]; intros Hext; [done |].
  assert (filter P l = filter Q l) as Hl.
  { apply IH. intros y Hy. apply Hext. by apply list_elem_of_further. }
  destruct (decide (P x)) as [HP|HP].
  - rewrite !filter_cons_True; [by rewrite Hl | | done].
    apply Hext; [apply list_elem_of_here | done].
  - rewrite !filter_cons_False; [done | | done].
    intros HQ. apply HP. apply Hext; [apply list_elem_of_here | done].
Qed.

Lemma filter_all_elem {A} (P : A → Prop) `{∀ x, Decision (P x)} (l : list A) :
  (∀ x, x ∈ l → P x) → filter P l = l.
Proof.
  induction l as [|x l IH]; intros Hall; [done |].
  rewrite filter_cons_True by (apply Hall, list_elem_of_here).
  rewrite IH; [done |]. intros y Hy. apply Hall. by apply list_elem_of_further.
Qed.

Lemma foldl_invariant {A B} (P : A → Prop) (f : A → B → A) (l : list B) (a : A) :
  P a → (∀ a x, x ∈ l → P a → P (f a x)) → P (foldl f a l).
Proof.
  revert a. induction l as [|x l IH]; intros a Ha Hstep; simpl; [done |].
  apply IH.
  - apply Hstep; [apply list_elem_of_here | done].
  - intros a' y Hy. apply Hstep. by apply list_elem_of_further.
Qed.


(** ** The sheet parser *)

Lemma process_rows_app rubric rows1 rows2 :
  process_rows rubric (rows1 ++ rows2) =
  rubric' ← process_rows rubric rows1; process_rows rubric' rows2.
Proof.
  revert rubric. induction rows1 as [|row rows1 IH]; intros rubric; simpl; [done |].
  destruct (process_row rubric row) as [rubric'|e]; simpl; [apply IH | done].
Qed.

Lemma names_category_default row c :
  names_category row c → dict_get_default "Category" PyNone row = c.
Proof. intros (Hc & _). unfold dict_get_default. by rewrite Hc. Qed.

Ltac unfold_process_row :=
  unfold process_row;
  change (header "category") with "Category";
  change (header "max points") with "Max";
  change (header "name") with "Name";
  change (header "tier") with "Tier";
  change (header "point delta") with "Points";
  change (header "caption") with "Grader Caption";
  change (header "explanation") with "Explanation";
  change (header "instructions") with "Instructions";
  change (header "is template") with "Template?";
  cbv zeta.

(** The first row of a category registers it and is then handled like any
    later row of that category. *)
Lemma process_row_registers rubric row c cap :
  names_category row c →
  dict_get c rubric = None →
  max_points_of row = Ok cap →
  process_row rubric row = process_row (dict_set c (cap, []) rubric) row.
Proof.
  intros Hcat Hfresh Hmax. pose proof Hcat as (_ & Hn & Hb).
  apply names_category_default in Hcat. unfold_process_row.
  rewrite !Hcat, Hmax.
  rewrite !(decide_False (P := c = PyNone ∨ c = PyStr "")) by (intros [?|?]; done).
  unfold dict_mem. by rewrite Hfresh, dict_get_set_eq.
Qed.

(** A row of a registered category whose caption is there appends one
    comment to that category. *)
Lemma process_row_comment rubric row c cap cs pts txt low :
  names_category row c →
  dict_get c rubric = Some (cap, cs) →
  py_neg (dict_get_default "Points" (PyInt 0) row) = Ok pts →
  dict_get "Grader Caption" row = Some txt → txt ≠ PyNone →
  py_lower (dict_get_default "Template?" (PyStr "") row) = Ok low →
  process_row rubric row =
  Ok (dict_set c
        (cap, cs ++ [{| name := dict_get_default "Name" PyNone row;
                        text := (if decide (dict_get_default "Tier" PyNone row ≠ PyNone
                                            ∧ dict_get_default "Tier" PyNone row ≠ PyStr "")
                                 then PyStr (TIER_FMT (dict_get_default "Tier" PyNone row) txt)
                                 else txt);
                        pointDelta := pts;
                        explanation := dict_get_default "Explanation" PyNone row;
                        instructionText := dict_get_default "Instructions" PyNone row;
                        templateTextOn := bool_decide (low ∈ TEMPLATE_YES) |}])
        rubric).
Proof.
  intros Hcat Hreg Hpts Htxt Htn Hlow. pose proof Hcat as (_ & Hn & Hb).
  apply names_category_default in Hcat.
  assert (dict_get_default "Grader Caption" PyNone row = txt) as Hcap
    by (unfold dict_get_default; by rewrite Htxt).
  unfold_process_row.
  rewrite !Hcat, Hpts, !Hcap, Hlow. rewrite decide_False by (intros [?|?]; done).
  unfold dict_mem, dict_index. rewrite Hreg. simpl.
  rewrite decide_False by done. by rewrite Hreg.
Qed.

(** Line 93 never raises on a cell: a number is negated and text is
    "repeated" minus one times. *)
Lemma points_cell_never_raises row :
  cells_are_values row →
  ∃ pts, py_neg (dict_get_default "Points" (PyInt 0) row) = Ok pts.
Proof.
  intros Hcells. unfold dict_get_default.
  destruct (dict_get "Points" row) as [[|s|z]|] eqn:Hp; simpl; eauto.
  by apply Hcells in Hp.
Qed.

(** A row of a registered category that has no caption leaves the rubric
    as it is. *)
Lemma process_row_no_caption rubric row c :
  names_category row c → cells_are_values row →
  is_Some (dict_get c rubric) →
  dict_get "Grader Caption" row = None →
  process_row rubric row = Ok rubric.
Proof.
  intros Hcat Hcells [entry Hreg] Htxt. pose proof Hcat as (_ & Hn & Hb).
  apply names_category_default in Hcat.
  assert (dict_get_default "Grader Caption" PyNone row = PyNone) as Hcap
    by (unfold dict_get_default; by rewrite Htxt).
  destruct (points_cell_never_raises row Hcells) as [pts Hpts].
  unfold_process_row.
  rewrite !Hcat, Hpts, !Hcap. rewrite decide_False by (intros [?|?]; done).
  unfold dict_mem. by rewrite Hreg.
Qed.

(** The sign convention, where it holds: a number in Points is negated, a
    record without a Points key gives 0, a number in Max is negated, and
    an empty Max gives no cap. *)
Lemma points_number_negated row p :
  dict_get "Points" row = Some (PyInt p) →
  py_neg (dict_get_default "Points" (PyInt 0) row) = Ok (PyInt (- p)).
Proof.
  intros Hp. unfold dict_get_default. rewrite Hp. by destruct p.
Qed.

Lemma points_absent_zero row :
  dict_get "Points" row = None →
  py_neg (dict_get_default "Points" (PyInt 0) row) = Ok (PyInt 0).
Proof. intros Hp. unfold dict_get_default. by rewrite Hp. Qed.

(** Text in Points, the empty text of a blank cell included, is
    "repeated" minus one times. *)
Lemma points_text_repeated row s :
  dict_get "Points" row = Some (PyStr s) →
  py_neg (dict_get_default "Points" (PyInt 0) row) = Ok (PyStr "").
Proof. intros Hp. unfold dict_get_default. by rewrite Hp. Qed.

Lemma max_number_negated row m :
  dict_get "Max" row = Some (PyInt m) → max_points_of row = Ok (Some (- m)%Z).
Proof.
  intros Hm. unfold max_points_of. change (header "max points") with "Max".
  unfold dict_get_default. rewrite Hm. by destruct m.
Qed.

Lemma max_blank_uncapped row :
  dict_get "Max" row = Some (PyStr "") → max_points_of row = Ok None.
Proof.
  intros Hm. unfold max_points_of. change (header "max points") with "Max".
  unfold dict_get_default. by rewrite Hm.
Qed.

Lemma max_garbage_raises row v :
  dict_get "Max" row = Some v → garbage v → max_points_of row = Raise ValueError.
Proof.
  intros Hm (s & -> & Hs & Hint). unfold max_points_of.
  change (header "max points") with "Max". unfold dict_get_default.
  rewrite Hm. simpl. rewrite decide_False by congruence. by rewrite Hint.
Qed.

Lemma process_row_max_raises rubric row c e :
  names_category row c →
  dict_get c rubric = None →
  max_points_of row = Raise e →
  process_row rubric row = Raise e.
Proof.
  intros Hcat Hfresh Hmax. pose proof Hcat as (_ & Hn & Hb).
  apply names_category_default in Hcat.
  unfold_process_row. rewrite !Hcat, Hmax.
  rewrite decide_False by (intros [?|?]; done).
  unfold dict_mem. by rewrite Hfresh.
Qed.

(** C6, at the input where the code leaves the convention: a record whose
    Points cell is blank.  [get_records] gives the empty text for a blank
    cell, [-1 * ''] is the empty text again, and the comment is stored
    with the text [''] as its point delta, not with 0.  The Max cell of
    the same record, 10, is stored as -10. *)
Theorem blank_points_cell_gives_empty_text :
  get_assignment_rubric
    {| A1 := PyStr "7";
       get_records := [record (PyStr "Style") (PyInt 10) "indent" (PyStr "")
                         (PyStr "Indent the body")] |} =
  Ok [(PyStr "Style",
       (Some (-10)%Z, [comment "indent" (PyStr "Indent the body") (PyStr "")]))].
Proof. reflexivity. Qed.

(** The rest of the convention holds: Points 5 gives -5, Max 10 gives
    -10, a blank Max gives no cap. *)
Example points_five_max_blank :
  get_assignment_rubric
    {| A1 := PyStr "7";
       get_records := [record (PyStr "Style") (PyStr "") "indent" (PyInt 5)
                         (PyStr "Indent the body")] |} =
  Ok [(PyStr "Style",
       (None, [comment "indent" (PyStr "Indent the body") (PyInt (-5))]))].
Proof. reflexivity. Qed.

(** A record with no Max key at all, on the row that introduces a
    category: [int(None)] raises [TypeError]. *)
Example max_key_absent :
  get_assignment_rubric
    {| A1 := PyStr "7";
       get_records := [[("Category", PyStr "Style"); ("Name", PyStr "indent");
                        ("Points", PyInt 5); ("Grader Caption", PyStr "a")]] |} =
  Raise TypeError.
Proof. reflexivity. Qed.


(** Garbage in Points does not raise either: [-1 * 'abc'] is the empty
    text, which is stored as the point delta. *)
Example garbage_in_points_cell :
  get_assignment_rubric
    {| A1 := PyStr "7";
       get_records := [record (PyStr "Style") (PyInt 10) "indent" (PyStr "abc")
                         (PyStr "a")] |} =
  Ok [(PyStr "Style", (Some (-10)%Z, [comment "indent" (PyStr "a") (PyStr "")]))].
Proof. reflexivity. Qed.






(** ** Scanning the worksheets *)

Lemma first_with_id_nil sheet a_id index : ¬ first_with_id sheet [] a_id index.
Proof. intros (before & after & Heq & _). by destruct before. Qed.

Lemma first_with_id_here sheet index indices a_id i :
  py_int (A1 (sheet index)) = Ok a_id →
  first_with_id sheet (index :: indices) a_id i ↔ i = index.
Proof.
  intros Hhere. split.
  - intros (before & after & Heq & Hi & Hbefore).
    destruct before as [|j before]; simpl in Heq.
    + by injection Heq as ->.
    + injection Heq as <- _. exfalso. apply (Hbefore index); [apply list_elem_of_here | done].
  - intros ->. exists [], indices. split_and!; [done | done |].
    intros j Hj. by apply elem_of_nil in Hj.
Qed.

Lemma first_with_id_later sheet index indices a_id i :
  py_int (A1 (sheet index)) ≠ Ok a_id →
  first_with_id sheet (index :: indices) a_id i ↔ first_with_id sheet indices a_id i.
Proof.
  intros Hne. split.
  - intros (before & after & Heq & Hi & Hbefore).
    destruct before as [|j before]; simpl in Heq.
    + injection Heq as <- _. done.
    + injection Heq as <- ->. exists before, after. split_and!; [done | done |].
      intros j' Hj'. apply Hbefore. by apply list_elem_of_further.
  - intros (before & after & -> & Hi & Hbefore).
    exists (index :: before), after. split_and!; [done | done |].
    intros j Hj. apply elem_of_cons in Hj as [->|Hj]; [done | by apply Hbefore].
Qed.

Lemma scan_worksheets_spec sheet indices :
  ∀ a_ids data data',
    NoDup (dict_keys data) →
    (∀ a, a ∈ a_ids → dict_get a data = None) →
    scan_worksheets sheet indices a_ids data = Ok data' →
    NoDup (dict_keys data') ∧
    ∀ a rubric,
      dict_get a data' = Some rubric ↔
      dict_get a data = Some rubric ∨
      (a ∈ a_ids ∧ ∃ i, first_with_id sheet indices a i ∧
                        get_assignment_rubric (sheet i) = Ok rubric).
Proof.
  induction indices as [|index indices IH]; intros a_ids data data' Hnd Hfresh; simpl.
  - intros [= <-]. split; [done |]. intros a rubric. split; [by left |].
    intros [?|(_ & i & Hi & _)]; [done |]. by apply first_with_id_nil in Hi.
  - destruct (py_int (A1 (sheet index))) as [a_id|e] eqn:Hint.
    + destruct (decide (a_id ∉ a_ids)) as [Hout|Hin].
      * intros Hscan. destruct (IH _ _ _ Hnd Hfresh Hscan) as [Hnd' Hspec].
        split; [done |]. intros a rubric. rewrite Hspec.
        split; (intros [?|(Ha & i & Hi & Hr)]; [by left | right]);
          (split; [done |]); exists i; (split; [| done]).
        -- apply first_with_id_later; [| done]. rewrite Hint. congruence.
        -- apply first_with_id_later in Hi; [done |]. rewrite Hint. congruence.
      * apply dec_stable in Hin.
        destruct (get_assignment_rubric (sheet index)) as [rubric0|e] eqn:Hrub;
          simpl; [| done].
        intros Hscan. apply IH in Hscan as [Hnd' Hspec].
        -- split; [done |]. intros a rubric. rewrite Hspec.
           destruct (decide (a = a_id)) as [->|Hne].
           ++ rewrite dict_get_set_eq, (Hfresh a_id Hin). split.
              ** intros [[= <-]|(Ha & _)].
                 --- right. split; [done |]. exists index. split; [| done].
                     by apply first_with_id_here.
                 --- apply list_elem_of_filter in Ha as [? _]. done.
              ** intros [?|(_ & i & Hi & Hr)]; [done |].
                 apply first_with_id_here in Hi as ->; [| done].
                 left. congruence.
           ++ rewrite dict_get_set_ne by done. rewrite list_elem_of_filter.
              split; (intros [?|(Ha & i & Hi & Hr)]; [by left | right]).
              ** split; [tauto |]. exists i. split; [| done].
                 apply first_with_id_later; [| done]. rewrite Hint. congruence.
              ** split; [tauto |]. exists i. split; [| done].
                 apply first_with_id_later in Hi; [done |]. rewrite Hint. congruence.
        -- by apply dict_set_NoDup.
        -- intros a Ha. apply list_elem_of_filter in Ha as [Hne Ha].
           rewrite dict_get_set_ne by done. by apply Hfresh.
    + destruct e; try done.
      intros Hscan. destruct (IH _ _ _ Hnd Hfresh Hscan) as [Hnd' Hspec].
      split; [done |]. intros a rubric. rewrite Hspec.
      split; (intros [?|(Ha & i & Hi & Hr)]; [by left | right]);
        (split; [done |]); exists i; (split; [| done]).
      * apply first_with_id_later; [| done]. by rewrite Hint.
      * apply first_with_id_later in Hi; [done |]. by rewrite Hint.
Qed.

(** C10: the assignment ids are distinct keys of the result, and the
    rubric kept for an assignment of the course is the one of the first
    worksheet in the range whose A1 cell reads as its id. *)
Theorem rubric_of_first_worksheet course_assignments sheet start_sheet end_sheet data :
  get_all_rubric_comments course_assignments sheet start_sheet end_sheet = Ok data →
  NoDup (dict_keys data) ∧
  ∀ a_id rubric,
    dict_get a_id data = Some rubric ↔
    a_id ∈ course_assignments ∧
    ∃ index,
      first_with_id sheet
        (seqZ start_sheet (default start_sheet end_sheet + 1 - start_sheet))
        a_id index ∧
      get_assignment_rubric (sheet index) = Ok rubric.
Proof.
  unfold get_all_rubric_comments. intros Hscan.
  apply scan_worksheets_spec in Hscan as [Hnd Hspec].
  - split; [done |]. intros a_id rubric. rewrite Hspec, elem_of_remove_dups.
    simpl. split; [intros [?|?]; [done | tauto] | tauto].
  - apply NoDup_nil_2.
  - done.
Qed.

Lemma rubric_of_first_worksheet_witness :
  NoDup (dict_keys
           [(7%Z, [(PyStr "Style", (Some (-10)%Z, [comment "indent" (PyStr "a") (PyInt (-1))]))]);
            (8%Z, [])]) ∧
  ∀ a_id rubric,
    dict_get a_id
      [(7%Z, [(PyStr "Style", (Some (-10)%Z, [comment "indent" (PyStr "a") (PyInt (-1))]))]);
       (8%Z, [])] = Some rubric ↔
    a_id ∈ [7%Z; 8%Z] ∧
    ∃ index,
      first_with_id demo_sheet (seqZ 1 (default 1%Z (Some 4%Z) + 1 - 1)) a_id index ∧
      get_assignment_rubric (demo_sheet index) = Ok rubric.
Proof.
  apply (rubric_of_first_worksheet [7%Z; 8%Z] demo_sheet 1 (Some 4%Z)).
  reflexivity.
Defined.

(** ** Computations *)

Lemma exec_all_app p1 p2 db : exec_all (p1 ++ p2) db = exec_all p2 (exec_all p1 db).
Proof. apply foldl_app. Qed.

Lemma runs_ret {A} (a : A) db : runs (mret a) db a [].
Proof. done. Qed.

Lemma runs_fetch db : runs fetch db db [].
Proof. done. Qed.

Lemma runs_lift {A} (r : res A) (a : A) db : r = Ok a → runs (lift r) db a [].
Proof. by intros ->. Qed.

Lemma runs_call o db : runs (call o) db (db_next_id db) [o].
Proof. done. Qed.

Lemma runs_bind {A B} (m : M A) (f : A → M B) db a b p1 p2 :
  runs m db a p1 → runs (f a) (exec_all p1 db) b p2 →
  runs (m ≫= f) db b (p1 ++ p2).
Proof.
  unfold runs, mbind, M_bind. intros -> ->. by rewrite exec_all_app.
Qed.

Lemma runs_plan_eq {A} (m : M A) db a p p' : runs m db a p → p = p' → runs m db a p'.
Proof. by intros ? <-. Qed.

(** A loop whose every turn makes one call. *)
Lemma runs_for_each {A} (R : A → op → Prop) (l : list A) (body : A → M unit) :
  (∀ x, x ∈ l → ∃ o, R x o ∧ ∀ db, runs (body x) db tt [o]) →
  ∀ db, ∃ plan, Forall2 R l plan ∧ runs (for_each l body) db tt plan.
Proof.
  induction l as [|x l IH]; intros Hbody db; simpl.
  - exists []. split; [constructor | apply runs_ret].
  - destruct (Hbody x) as (o & HR & Hrun); [apply list_elem_of_here |].
    destruct (IH (λ y Hy, Hbody y (list_elem_of_further _ _ _ Hy)) (exec o db))
      as (plan & HF & Hruns).
    exists (o :: plan). split; [by constructor |].
    apply (runs_bind _ _ _ tt tt [o] plan); [apply Hrun | apply Hruns].
Qed.

Lemma runs_call_unit o db : runs (_ ← call o; mret tt) db tt [o].
Proof. done. Qed.

Lemma runs_lookup_call {A} (r : res A) (a : A) (f : A → op) db :
  r = Ok a → runs (x ← lift r; _ ← call (f x); mret tt) db tt [f a].
Proof. by intros ->. Qed.

(** ** What the engine reads *)

Lemma existing_rubric_facts a_id db :
  NoDup (dict_keys (existing_rubric a_id db).1) ∧
  NoDup (dict_keys (existing_rubric a_id db).2) ∧
  (∀ n m, (n, m) ∈ (existing_rubric a_id db).1 →
          name (info m) = n ∧ m ∈ db_comments db) ∧
  (∀ n c, (n, c) ∈ (existing_rubric a_id db).2 →
          cat_name c = n ∧ c ∈ rubricCategories a_id db).
Proof.
  unfold existing_rubric.
  apply (foldl_invariant (λ acc : dict pyval RubricComment * dict pyval RubricCategory,
    NoDup (dict_keys acc.1) ∧ NoDup (dict_keys acc.2) ∧
    (∀ n m, (n, m) ∈ acc.1 → name (info m) = n ∧ m ∈ db_comments db) ∧
    (∀ n c, (n, c) ∈ acc.2 → cat_name c = n ∧ c ∈ rubricCategories a_id db))).
  - simpl. split_and!; [apply NoDup_nil_2 | apply NoDup_nil_2 | |];
      intros ? ? Hin; by apply elem_of_nil in Hin.
  - intros [old cats] c Hc (Hnd1 & Hnd2 & Hold & Hcats). simpl in *.
    split_and!.
    + apply (foldl_invariant (λ d : dict pyval RubricComment, NoDup (dict_keys d)));
        [done |]. intros d m _ Hd. by apply dict_set_NoDup.
    + by apply dict_set_NoDup.
    + apply (foldl_invariant (λ d : dict pyval RubricComment,
        ∀ n m, (n, m) ∈ d → name (info m) = n ∧ m ∈ db_comments db)); [done |].
      intros d m Hm Hd n m' Hin. apply dict_elem_set in Hin as [[-> ->]|Hin].
      * split; [done |]. apply list_elem_of_filter in Hm as [_ Hm]. done.
      * by apply Hd.
    + intros n c' Hin. apply dict_elem_set in Hin as [[-> ->]|Hin]; [| by apply Hcats].
      done.
Qed.

Lemma sheet_rubric_facts rubric :
  dict_keys (sheet_rubric rubric).1 = dict_keys (sheet_rubric rubric).2 ∧
  NoDup (dict_keys (sheet_rubric rubric).2) ∧
  (∀ n c, (n, c) ∈ (sheet_rubric rubric).1 → c ∈ dict_keys rubric) ∧
  (∀ n inf, (n, inf) ∈ (sheet_rubric rubric).2 → name inf = n).
Proof.
  unfold sheet_rubric.
  apply (foldl_invariant (λ acc : dict pyval pyval * dict pyval comment_t,
    dict_keys acc.1 = dict_keys acc.2 ∧ NoDup (dict_keys acc.2) ∧
    (∀ n c, (n, c) ∈ acc.1 → c ∈ dict_keys rubric) ∧
    (∀ n inf, (n, inf) ∈ acc.2 → name inf = n))).
  - simpl. split_and!; [done | apply NoDup_nil_2 | |];
      intros ? ? Hin; by apply elem_of_nil in Hin.
  - intros acc entry Hentry Hacc.
    apply (foldl_invariant (λ acc : dict pyval pyval * dict pyval comment_t,
      dict_keys acc.1 = dict_keys acc.2 ∧ NoDup (dict_keys acc.2) ∧
      (∀ n c, (n, c) ∈ acc.1 → c ∈ dict_keys rubric) ∧
      (∀ n inf, (n, inf) ∈ acc.2 → name inf = n))); [done |].
    intros [cc rc] inf _ (Hk & Hnd & Hcc & Hrc). simpl in *. split_and!.
    + rewrite !dict_keys_set_decide, Hk. done.
    + by apply dict_set_NoDup.
    + intros n c Hin. apply dict_elem_set in Hin as [[-> ->]|Hin]; [| by eapply Hcc].
      apply list_elem_of_fmap. by exists entry.
    + intros n inf' Hin. apply dict_elem_set in Hin as [[-> ->]|Hin]; [done |].
      by apply Hrc.
Qed.

(** ** The loops of the engine *)

Lemma rubricComments_same db db' c :
  db_comments db = db_comments db' → rubricComments db c = rubricComments db' c.
Proof. unfold rubricComments. by intros ->. Qed.

Lemma exec_category_delete_empty db c :
  rubricComments db c = [] →
  db_comments (exec (category_delete (cat_id c)) db) = db_comments db.
Proof.
  unfold rubricComments. simpl. intros Hempty.
  induction (db_comments db) as [|m ms IH]; [done |].
  destruct (decide (category m = cat_id c)) as [Heq|Hne].
  - rewrite filter_cons_True in Hempty by done. done.
  - rewrite filter_cons_False in Hempty by done.
    rewrite filter_cons_True by done. by rewrite IH.
Qed.

Lemma exec_all_comment_deletes_sub p db m :
  Forall (λ o, ∃ i, o = comment_delete i) p →
  m ∈ db_comments (exec_all p db) → m ∈ db_comments db.
Proof.
  revert db. induction p as [|o p IH]; intros db Hp; simpl; [done |].
  apply Forall_cons in Hp as [[i ->] Hp]. intros Hm.
  apply (IH _ Hp) in Hm. simpl in Hm. by apply list_elem_of_filter in Hm as [_ ?].
Qed.

Lemma categories_after_comment_deletes p db :
  Forall (λ o, ∃ i, o = comment_delete i) p →
  db_categories (exec_all p db) = db_categories db.
Proof.
  revert db. induction p as [|o p IH]; intros db Hp; [done |].
  apply Forall_cons in Hp as [[i ->] Hp].
  change (exec_all (?o :: ?p) db) with (exec_all p (exec o db)). by rewrite IH.
Qed.

Lemma category_survives_deletes p db c :
  Forall (λ o, ∃ i, o = category_delete i) p →
  category_delete (cat_id c) ∉ p →
  c ∈ db_categories db → c ∈ db_categories (exec_all p db).
Proof.
  revert db. induction p as [|o p IH]; intros db Hp Hout Hc; [done |].
  apply Forall_cons in Hp as [[i ->] Hp].
  apply not_elem_of_cons in Hout as [Hne Hout].
  apply (IH _ Hp Hout). simpl. apply list_elem_of_filter. split; [congruence | done].
Qed.

Lemma rubricComments_same_id db c c' :
  cat_id c = cat_id c' → rubricComments db c = rubricComments db c'.
Proof. unfold rubricComments. by intros ->. Qed.

Lemma Forall2_chain {A B C} (P : A → B → Prop) (Q : B → C → Prop) l k j :
  Forall2 P l k → Forall2 Q k j → Forall2 (λ x z, ∃ y, P x y ∧ Q y z) l j.
Proof.
  intros HP. revert j. induction HP as [|x y l k Hxy HP IH]; intros j HQ.
  - apply Forall2_nil_inv_l in HQ as ->. constructor.
  - apply Forall2_cons_inv_l in HQ as (z & j' & Hyz & HQ & ->).
    constructor; [by exists y | by apply IH].
Qed.

Lemma Forall2_Forall_r {A B} (P : A → B → Prop) (Q : B → Prop) l k :
  Forall2 P l k → (∀ x y, P x y → Q y) → Forall Q k.
Proof.
  intros HP HQ. induction HP; constructor; eauto.
Qed.

(** Lines 334-348. *)
Lemma runs_create_categories a_id (rubric : rubric_t) names :
  (∀ c, c ∈ names → is_Some (dict_get c rubric)) →
  ∀ (categories : dict pyval RubricCategory) db,
  ∃ categories' plan,
    Forall2 (λ c o, ∃ entry, dict_get c rubric = Some entry ∧
                             o = rubric_category_create c a_id entry.1 None)
      names plan ∧
    runs (fold_each names categories (λ categories c_name,
            entry ← lift (dict_index c_name rubric);
            let max_points := entry.1 in
            c_id ← call (rubric_category_create c_name a_id max_points None);
            mret (dict_set c_name
                    {| cat_id := c_id; cat_name := c_name; assignment := a_id;
                       pointLimit := max_points; sortKey := None |} categories)))
      db categories' plan ∧
    (∀ k, is_Some (dict_get k categories) ∨ k ∈ names → is_Some (dict_get k categories')) ∧
    ((∀ k c, dict_get k categories = Some c →
             cat_name c = k ∧ c ∈ rubricCategories a_id db) →
     ∀ k c, dict_get k categories' = Some c →
            cat_name c = k ∧ c ∈ rubricCategories a_id (exec_all plan db)).
Proof.
  induction names as [|c names IH]; intros Hin categories db.
  - exists categories, []. split_and!; [constructor | apply runs_ret | | done].
    intros k [?|Hk]; [done | by apply elem_of_nil in Hk].
  - destruct (Hin c) as [entry Hentry]; [apply list_elem_of_here |].
    set (category := {| cat_id := db_next_id db; cat_name := c; assignment := a_id;
                        pointLimit := entry.1; sortKey := None |}).
    destruct (IH (λ y Hy, Hin y (list_elem_of_further _ _ _ Hy))
                (dict_set c category categories)
                (exec (rubric_category_create c a_id entry.1 None) db))
      as (categories' & plan & HF & Hruns & Hkeys & Hfound).
    exists categories', (rubric_category_create c a_id entry.1 None :: plan).
    split_and!.
    4:{ intros Hinv. apply Hfound. intros k c' Hk.
        apply dict_get_set_inv in Hk as [[-> ->]|[Hne Hk]].
        - split; [done |]. apply list_elem_of_filter. split; [done |].
          simpl. apply elem_of_app. right. apply list_elem_of_here.
        - destruct (Hinv _ _ Hk) as [Hname Hc']. split; [done |].
          apply list_elem_of_filter in Hc' as [Ha Hc'].
          apply list_elem_of_filter. split; [done |].
          simpl. apply elem_of_app. by left. }
    + constructor; [by exists entry | done].
    + simpl fold_each.
      eapply (runs_bind _ _ _ _ _ [_] _); [| apply Hruns].
      unfold runs, mbind, M_bind, lift, call, dict_index. by rewrite Hentry.
    + intros k [Hk|Hk]; apply Hkeys.
      * left. destruct (decide (c = k)) as [->|Hne].
        -- rewrite dict_get_set_eq. by eexists.
        -- by rewrite dict_get_set_ne.
      * apply elem_of_cons in Hk as [->|Hk]; [| by right].
        left. rewrite dict_get_set_eq. by eexists.
Qed.

Section loops.
Variable set_iter : list pyval → list pyval.
Variable refetch : bool.
Hypothesis set_iter_perm : ∀ l, set_iter l ≡ₚ l.

(** Lines 322-328.  [dbs] is the server whose comments the test reads;
    deleting a category that shows no comment there removes no comment,
    so that the test reads the same comments at every turn. *)
Lemma runs_delete_empty_categories db0 dbs :
  ∀ (done_ rest : dict pyval RubricCategory) db,
    NoDup (dict_keys (done_ ++ rest)) →
    db_comments db = db_comments dbs →
    (if refetch then True else ∀ c, rubricComments db0 c = [] → rubricComments dbs c = []) →
    runs (fold_each (dict_keys rest) (done_ ++ rest) (λ categories c_name,
            category ← lift (dict_index c_name categories);
            db ← fetch;
            if decide (length (rubricComments (if refetch then db else db0) category) = 0)
            then _ ← call (category_delete (cat_id category));
                 mret (dict_pop c_name categories)
            else mret categories))
      db
      (done_ ++ filter (λ item, rubricComments (if refetch then dbs else db0) item.2 ≠ []) rest)
      ((λ c, category_delete (cat_id c)) <$>
         filter (λ c, rubricComments (if refetch then dbs else db0) c = []) (dict_values rest)).
Proof.
  intros done_ rest. revert done_.
  induction rest as [|[c_name category] rest IH]; intros done_ db Hnd Hsame Hsnap.
  - simpl. apply runs_ret.
  - assert (dict_get c_name (done_ ++ (c_name, category) :: rest) = Some category) as Hget.
    { apply dict_elem_get; [done |]. apply elem_of_app. right. apply list_elem_of_here. }
    assert (dict_pop c_name (done_ ++ (c_name, category) :: rest) = done_ ++ rest) as Hpop.
    { rewrite dict_pop_filter, filter_app.
      unfold dict_keys in Hnd. rewrite fmap_app in Hnd. simpl in Hnd.
      apply NoDup_app in Hnd as (Hnd1 & Hdisj & Hnd2).
      apply NoDup_cons in Hnd2 as [Hfresh Hnd2].
      rewrite filter_cons_False by (simpl; tauto). f_equal.
      - apply filter_all_elem. intros [k v] Hkv. simpl. intros ->.
        apply (Hdisj c_name); [| apply list_elem_of_here].
        apply list_elem_of_fmap. by exists (c_name, v).
      - apply filter_all_elem. intros [k v] Hkv. simpl. intros ->.
        apply Hfresh. apply list_elem_of_fmap. by exists (c_name, v). }
    assert (rubricComments (if refetch then db else db0) category =
            rubricComments (if refetch then dbs else db0) category) as Hview.
    { destruct refetch; [by apply rubricComments_same | done]. }
    simpl fold_each. simpl dict_values. simpl dict_keys.
    destruct (decide (rubricComments (if refetch then dbs else db0) category = []))
      as [Hempty|Hfull].
    + rewrite filter_cons_False by (simpl; tauto).
      rewrite filter_cons_True by done. rewrite fmap_cons.
      eapply (runs_bind _ _ _ _ _ [_] _).
      * unfold runs, mbind, M_bind, lift, fetch, dict_index. rewrite Hget. simpl.
        rewrite Hview, Hempty. simpl. rewrite Hpop. reflexivity.
      * apply IH.
        -- unfold dict_keys in *. rewrite fmap_app in *. simpl in Hnd.
           apply NoDup_app in Hnd as (Hnd1 & Hdisj & Hnd2).
           apply NoDup_cons in Hnd2 as [Hfresh Hnd2].
           apply NoDup_app. split_and!; [done | | done].
           intros x Hx Hx'. apply (Hdisj x Hx). by apply list_elem_of_further.
        -- simpl. rewrite <- Hsame. apply exec_category_delete_empty.
           destruct refetch.
           ++ by rewrite (rubricComments_same db dbs).
           ++ rewrite (rubricComments_same db dbs) by done. by apply Hsnap.
        -- done.
    + rewrite filter_cons_True by done.
      rewrite filter_cons_False by done.
      eapply (runs_plan_eq _ _ _ ([] ++ _)); [| done].
      eapply runs_bind.
      * unfold runs, mbind, M_bind, lift, fetch, dict_index. rewrite Hget. simpl.
        rewrite Hview. rewrite decide_False; [reflexivity |].
        intros Hlen. apply Hfull. by apply nil_length_inv.
      * simpl exec_all.
        replace (done_ ++ (c_name, category) :: rest)
          with ((done_ ++ [(c_name, category)]) ++ rest) by (by rewrite <- app_assoc).
        replace (done_ ++ (c_name, category) ::
                  filter (λ item, rubricComments (if refetch then dbs else db0) item.2 ≠ []) rest)
          with ((done_ ++ [(c_name, category)]) ++
                  filter (λ item, rubricComments (if refetch then dbs else db0) item.2 ≠ []) rest)
          by (by rewrite <- app_assoc).
        apply IH; [| done | done]. by rewrite <- app_assoc.
Qed.

Lemma guard_passes a_id override_rubric db :
  proceeds a_id override_rubric db →
  bool_decide (0 < length (list_submissions a_id db)) && negb override_rubric = false.
Proof.
  intros [Hlen| ->]; [| apply andb_false_r].
  rewrite bool_decide_eq_false_2; [done |]. lia.
Qed.

Lemma missing_names_facts a_id rubric db :
  NoDup (missing_names set_iter a_id rubric db) ∧
  ∀ n, n ∈ missing_names set_iter a_id rubric db ↔
       n ∈ dict_keys (existing_rubric a_id db).1 ∧
       n ∉ dict_keys (sheet_rubric rubric).2.
Proof.
  unfold missing_names. split.
  - rewrite set_iter_perm. apply NoDup_list_difference.
    apply existing_rubric_facts.
  - intros n. rewrite set_iter_perm. apply list_elem_of_difference.
Qed.

Lemma new_names_facts a_id rubric db :
  NoDup (new_names set_iter a_id rubric db) ∧
  ∀ n, n ∈ new_names set_iter a_id rubric db ↔
       n ∈ dict_keys (sheet_rubric rubric).2 ∧
       n ∉ dict_keys (existing_rubric a_id db).1.
Proof.
  unfold new_names. split.
  - rewrite set_iter_perm. apply NoDup_list_difference.
    apply sheet_rubric_facts.
  - intros n. rewrite set_iter_perm. apply list_elem_of_difference.
Qed.

Lemma create_assignment_rubric_runs a_id rubric override_rubric delete_missing db :
  proceeds a_id override_rubric db →
  ∃ ph, plan_shape set_iter refetch a_id rubric delete_missing db ph ∧
        runs (create_assignment_rubric set_iter refetch a_id rubric
                override_rubric delete_missing) db tt (plan_of ph).
Proof.
  intros Hgo.
  destruct (missing_names_facts a_id rubric db) as [Hmnd Hmin].
  destruct (new_names_facts a_id rubric db) as [Hnnd Hnin].
  destruct (existing_rubric_facts a_id db) as (Hold_nd & Hcats_nd & Hold & Hcats).
  destruct (sheet_rubric_facts rubric) as (Hkeys & Hrc_nd & Hcc & Hrc).
  unfold plan_shape, create_assignment_rubric, kept_categories, missing_categories,
    deleting, seen.
  unfold missing_names, new_names in *.
  destruct (existing_rubric a_id db) as [old cats] eqn:Hex.
  destruct (sheet_rubric rubric) as [cc rc] eqn:Hsh. simpl in *.
  set (mn := set_iter (list_difference (dict_keys old) (dict_keys rc))) in *.
  set (nn := set_iter (list_difference (dict_keys rc) (dict_keys old))) in *.
  (* the comments popped from [old_comments] *)
  destruct (pop_each_spec mn old Hmnd) as (mcs & Hpop & HFm).
  { intros n Hn. by apply Hmin in Hn as [? _]. }
  assert (filter (λ kv : pyval * RubricComment, kv.1 ∉ mn) old =
          filter (λ item : pyval * RubricComment, item.1 ∈ dict_keys rc) old) as Hold'.
  { apply filter_ext_elem. intros [n m] Hnm. simpl. rewrite Hmin.
    assert (n ∈ dict_keys old) by (apply list_elem_of_fmap; by exists (n, m)).
    destruct (decide (n ∈ dict_keys rc)); tauto. }
  rewrite Hold' in Hpop.
  (* lines 311-328 *)
  assert (∃ pdel,
    (if bool_decide (mn ≠ []) && delete_missing
     then Forall2 (λ n o, ∃ m, dict_get n old = Some m ∧ o = comment_delete (com_id m)) mn pdel
     else pdel = []) ∧
    runs (if decide (0 < length mcs) then
            if delete_missing then
              _ ← for_each mcs (λ comment, _ ← call (comment_delete (com_id comment)); mret tt);
              delete_empty_categories refetch db cats
            else mret cats
          else mret cats) db
      (if bool_decide (mn ≠ []) && delete_missing
       then filter (λ item, rubricComments (if refetch then exec_all pdel db else db) item.2 ≠ [])
              cats
       else cats)
      (pdel ++
       (if bool_decide (mn ≠ []) && delete_missing
        then (λ c, category_delete (cat_id c)) <$>
               filter (λ c, rubricComments (if refetch then exec_all pdel db else db) c = [])
                 (dict_values cats)
        else []))) as (pdel & Hpdel & Hrun12).
  { apply Forall2_length in HFm as Hlen.
    destruct (decide (mn = [])) as [Hmn|Hmn].
    - exists []. rewrite bool_decide_eq_false_2 by tauto. simpl. split; [done |].
      rewrite Hmn in Hlen. simpl in Hlen. rewrite decide_False by lia. apply runs_ret.
    - rewrite bool_decide_eq_true_2 by done. simpl.
      destruct delete_missing.
      2:{ exists []. split; [done |]. destruct (decide (0 < length mcs)); apply runs_ret. }
      rewrite decide_True by (destruct mn; [done | simpl in Hlen; lia]).
      destruct (runs_for_each (λ m o, o = comment_delete (com_id m)) mcs
                  (λ comment, _ ← call (comment_delete (com_id comment)); mret tt)) with (db := db)
        as (pdel & HFd & Hrund).
      { intros m _. eexists. split; [done |]. intros ?. apply runs_call_unit. }
      exists pdel. split.
      + eapply Forall2_impl; [apply (Forall2_chain _ _ _ _ _ HFm HFd) |].
        intros n o (m & Hm & ->). by exists m.
      + eapply runs_bind; [apply Hrund |].
        apply (runs_delete_empty_categories db (exec_all pdel db) [] cats); [done | done |].
        destruct refetch; [done |]. intros c Hc.
        apply elem_of_nil_inv. intros m Hm.
        apply list_elem_of_filter in Hm as [Hcat Hm].
        apply exec_all_comment_deletes_sub in Hm.
        * assert (m ∈ rubricComments db c) as Hin by (by apply list_elem_of_filter).
          rewrite Hc in Hin. by apply elem_of_nil in Hin.
        * eapply Forall2_Forall_r; [apply HFd |]. intros m' o ->. by eexists. }
  set (cats1 := if bool_decide (mn ≠ []) && delete_missing
       then filter (λ item : pyval * RubricCategory,
                      rubricComments (if refetch then exec_all pdel db else db) item.2 ≠ []) cats
       else cats) in *.
  set (pcat := if bool_decide (mn ≠ []) && delete_missing
        then (λ c, category_delete (cat_id c)) <$>
               filter (λ c, rubricComments (if refetch then exec_all pdel db else db) c = [])
                 (dict_values cats)
        else []) in *.
  (* lines 330-348 *)
  set (mc := set_iter (list_difference (dict_keys rubric) (dict_keys cats1))).
  destruct (runs_create_categories a_id rubric mc) with (categories := cats1)
    (db := exec_all (pdel ++ pcat) db) as (cats2 & pc & HFc & Hrunc & Hcats2 & Hfound).
  { intros c Hc. unfold mc in Hc. rewrite set_iter_perm in Hc.
    apply list_elem_of_difference in Hc as [Hc _]. by apply dict_get_is_Some. }
  assert (∀ k c, dict_get k cats2 = Some c →
                 cat_name c = k ∧
                 c ∈ rubricCategories a_id (exec_all (pdel ++ pcat ++ pc) db)) as Hcats2_db.
  { rewrite app_assoc, exec_all_app. apply Hfound. intros k c Hk.
    apply dict_get_elem in Hk.
    assert ((k, c) ∈ cats ∧
            category_delete (cat_id c) ∉ pcat) as [Hkc Hkept].
    { unfold cats1, pcat in *. destruct (bool_decide (mn ≠ []) && delete_missing).
      - apply list_elem_of_filter in Hk as [Hfull Hk]. split; [done |]. simpl in Hfull.
        intros Hin. apply list_elem_of_fmap in Hin as (c' & [= Hid] & Hc').
        apply list_elem_of_filter in Hc' as [Hempty _].
        by rewrite (rubricComments_same_id _ c c') in Hfull.
      - split; [done | apply not_elem_of_nil]. }
    destruct (Hcats _ _ Hkc) as [Hname Hc]. split; [done |].
    apply list_elem_of_filter in Hc as [Ha Hc]. apply list_elem_of_filter. split; [done |].
    rewrite exec_all_app. apply category_survives_deletes; [| done |].
    - unfold pcat. destruct (bool_decide (mn ≠ []) && delete_missing); [| constructor].
      apply Forall_fmap, Forall_forall. intros c' _. by eexists.
    - rewrite categories_after_comment_deletes; [done |].
      destruct (bool_decide (mn ≠ []) && delete_missing); [| rewrite Hpdel; constructor].
      eapply Forall2_Forall_r; [apply Hpdel |]. intros n o (m & _ & ->). by eexists. }
  (* lines 350-354 *)
  destruct (runs_for_each
              (λ (item : pyval * RubricComment) o,
                 ∃ inf, dict_get item.1 rc = Some inf ∧ o = comment_update (com_id item.2) inf)
              (filter (λ item : pyval * RubricComment, item.1 ∈ dict_keys rc) old)
              (λ item, comment_info ← lift (dict_index item.1 rc);
                       _ ← call (comment_update (com_id item.2) comment_info); mret tt))
    with (db := exec_all pc (exec_all (pdel ++ pcat) db)) as (pu & HFu & Hrunu).
  { intros [n m] Hnm. apply list_elem_of_filter in Hnm as [Hn _]. simpl in Hn.
    apply dict_get_is_Some in Hn as [inf Hinf].
    exists (comment_update (com_id m) inf). split; [by exists inf |].
    intros db'. apply (runs_lookup_call _ inf (λ x, comment_update (com_id m) x)).
    unfold dict_index. simpl. by rewrite Hinf. }
  (* lines 357-363 *)
  destruct (runs_for_each
              (λ (n : pyval) o,
                 ∃ c_name c inf,
                   dict_get n cc = Some c_name ∧ cat_name c = c_name ∧
                   c ∈ rubricCategories a_id (exec_all (pdel ++ pcat ++ pc) db) ∧
                   dict_get n rc = Some inf ∧ o = rubric_comment_create (cat_id c) inf)
              nn
              (λ name, c_name ← lift (dict_index name cc);
                       category ← lift (dict_index c_name cats2);
                       comment_info ← lift (dict_index name rc);
                       _ ← call (rubric_comment_create (cat_id category) comment_info);
                       mret tt))
    with (db := exec_all pu (exec_all pc (exec_all (pdel ++ pcat) db)))
    as (pn & HFn & Hrunn).
  { intros n Hn. apply Hnin in Hn as [Hn _].
    pose proof Hn as Hn'. rewrite <- Hkeys in Hn'.
    apply dict_get_is_Some in Hn as [inf Hinf].
    apply dict_get_is_Some in Hn' as [c_name Hc_name].
    assert (is_Some (dict_get c_name cats2)) as [category Hcategory].
    { apply Hcats2. apply dict_get_elem, Hcc in Hc_name.
      destruct (decide (c_name ∈ dict_keys cats1)) as [Hk|Hk].
      - left. by apply dict_get_is_Some.
      - right. unfold mc. rewrite set_iter_perm. by apply list_elem_of_difference. }
    exists (rubric_comment_create (cat_id category) inf). split.
    { exists c_name, category, inf. destruct (Hcats2_db _ _ Hcategory) as [? ?].
      by split_and!. }
    intros db'. unfold runs, mbind, M_bind, lift, call, dict_index.
    by rewrite Hc_name, Hcategory, Hinf. }
  exists {| deleted_comments := pdel; deleted_categories := pcat; created_categories := pc;
            updated_comments := pu; created_comments := pn |}.
  simpl. split.
  { split_and!; try done.
    unfold kept_categories, deleting, seen, missing_names. by rewrite Hex, Hsh. }
  unfold plan_of. simpl.
  eapply (runs_plan_eq _ _ _ ([] ++ [] ++ (pdel ++ pcat) ++ pc ++ pu ++ pn)).
  2:{ simpl. by rewrite <- !app_assoc. }
  eapply runs_bind; [apply runs_fetch |]. simpl exec_all.
  rewrite guard_passes by done.
  rewrite Hex. cbv beta iota.
  eapply runs_bind; [apply runs_lift, Hpop |]. simpl exec_all.
  eapply runs_bind; [apply Hrun12 |].
  eapply runs_bind; [apply Hrunc |].
  eapply runs_bind; [apply Hrunu |].
  apply Hrunn.
Qed.
End loops.

(** ** The guard *)

(** C4: with a submission handed in and no override, both
    [create_assignment_rubric] and [wipe_and_create_assignment_rubric]
    return without a call, and the server is as it was. *)
Theorem refused_run_changes_nothing set_iter refetch a_id rubric delete_missing db :
  0 < length (list_submissions a_id db) →
  create_assignment_rubric set_iter refetch a_id rubric false delete_missing db
    = (Ok tt, db, []) ∧
  wipe_and_create_assignment_rubric a_id rubric false db = (Ok tt, db, []).
Proof.
  intros Hsub.
  unfold create_assignment_rubric, wipe_and_create_assignment_rubric,
    mbind, M_bind, fetch.
  rewrite bool_decide_eq_true_2 by done. done.
Qed.

Lemma refused_run_changes_nothing_witness :
  create_assignment_rubric (λ l, l) true 7 demo_rubric false true demo_db_graded
    = (Ok tt, demo_db_graded, []) ∧
  wipe_and_create_assignment_rubric 7 demo_rubric false demo_db_graded
    = (Ok tt, demo_db_graded, []).
Proof.
  apply (refused_run_changes_nothing (λ l, l) true 7 demo_rubric true demo_db_graded).
  simpl. lia.
Defined.

(** ** Wiping *)

Lemma runs_wipe_creations a_id rubric :
  ∀ sort_key db,
    runs (for_each (imap (λ i entry, (sort_key + i, entry)) rubric) (λ item,
            let '(sort_key, (c_name, (max_points, comments))) := item in
            c_id ← call (rubric_category_create c_name a_id max_points (Some sort_key));
            for_each comments (λ comment,
              _ ← call (rubric_comment_create c_id comment); mret tt)))
      db tt (wipe_creations a_id (db_next_id db) sort_key rubric).
Proof.
  induction rubric as [|[c_name [max_points comments]] rubric IH]; intros sort_key db.
  - apply runs_ret.
  - simpl imap. simpl for_each. simpl wipe_creations.
    rewrite Nat.add_0_r.
    eapply (runs_plan_eq _ _ _ ((_ :: _) ++ _)); [| by rewrite <- app_comm_cons].
    eapply runs_bind.
    + eapply (runs_bind _ _ _ _ _ [_] _); [apply runs_call |].
      assert (∀ db', runs (for_each comments (λ comment,
                _ ← call (rubric_comment_create (db_next_id db) comment); mret tt))
                db' tt (rubric_comment_create (db_next_id db) <$> comments)) as Hcs.
      { clear. induction comments as [|c cs IHc]; intros db'; [apply runs_ret |].
        simpl for_each. rewrite fmap_cons.
        eapply (runs_bind _ _ _ _ _ [_] _); [apply runs_call_unit | apply IHc]. }
      apply Hcs.
    + assert (imap ((λ i entry, (sort_key + i, entry)) ∘ S) rubric =
              imap (λ i (entry : pyval * (option Z * list comment_t)), (S sort_key + i, entry)) rubric)
        as ->.
      { apply imap_ext. intros i x _. simpl. f_equal. lia. }
      eapply runs_plan_eq; [apply IH |]. f_equal.
      change (exec_all (?o :: ?p) db) with (exec_all p (exec o db)).
      assert (∀ (cs : list comment_t) c db', db_next_id (exec_all (rubric_comment_create c <$> cs) db')
                = (db_next_id db' + Z.of_nat (length cs))%Z) as Hnext.
      { clear. induction cs as [|x cs IHc]; intros c db'; simpl; [lia |].
        rewrite IHc. simpl. lia. }
      rewrite Hnext. simpl. lia.
Qed.

Lemma exec_all_category_deletes_next ids db :
  db_next_id (exec_all (category_delete <$> ids) db) = db_next_id db.
Proof.
  revert db. induction ids as [|i ids IH]; intros db; [done |].
  simpl. by rewrite IH.
Qed.

(** Called on its own, [wipe_and_create_assignment_rubric] deletes every
    category found on the assignment once, then creates the categories of
    the sheet in the order of the sheet, numbered from 0, each followed by
    its comments in their order. *)
Lemma wipe_and_create_runs a_id rubric override_rubric db :
  proceeds a_id override_rubric db →
  runs (wipe_and_create_assignment_rubric a_id rubric override_rubric) db tt
    ((category_delete <$> (cat_id <$> rubricCategories a_id db)) ++
     wipe_creations a_id (db_next_id db) 0 rubric).
Proof.
  intros Hgo. unfold wipe_and_create_assignment_rubric.
  eapply (runs_plan_eq _ _ _ ([] ++ _)); [| done].
  eapply runs_bind; [apply runs_fetch |]. simpl exec_all.
  rewrite guard_passes by done.
  eapply runs_bind.
  - assert (∀ (cs : list RubricCategory) db',
              runs (for_each cs (λ category,
                      _ ← call (category_delete (cat_id category)); mret tt))
                db' tt (category_delete <$> (cat_id <$> cs))) as Hdel.
    { induction cs as [|c cs IH]; intros db'; [apply runs_ret |].
      simpl for_each. rewrite !fmap_cons.
      eapply (runs_bind _ _ _ _ _ [_] _); [apply runs_call_unit | apply IH]. }
    apply Hdel.
  - rewrite <- (exec_all_category_deletes_next (cat_id <$> rubricCategories a_id db) db).
    apply (runs_wipe_creations a_id rubric 0).
Qed.

(** C3, at the inputs where the code departs from it: every call of
    [create_all_rubrics] with a rubric to import.  Line 385 passes
    [wipe_existing] as a fifth argument to [create_assignment_rubric],
    which has four parameters; the call raises [TypeError] before any
    category is deleted or created, whatever the flags, and
    [wipe_and_create_assignment_rubric] is never reached. *)
Theorem create_all_rubrics_raises set_iter refetch item rubrics
    override_rubric delete_missing wipe_existing db :
  create_all_rubrics set_iter refetch (item :: rubrics)
    override_rubric delete_missing wipe_existing db
  = (Raise TypeError, db, []).
Proof. reflexivity. Qed.

(** ** Running the engine again *)

Lemma Forall2_fmap_elem {A B} (R : A → B → Prop) (f : A → B) l k :
  Forall2 R l k → (∀ x y, x ∈ l → R x y → y = f x) → k = f <$> l.
Proof.
  intros HF. induction HF as [|x y l k Hxy HF IH]; intros Hf; [done |].
  rewrite fmap_cons. f_equal.
  - apply Hf; [apply list_elem_of_here | done].
  - apply IH. intros x' y' Hx'. apply Hf. by apply list_elem_of_further.
Qed.

Lemma NoDup_fmap_elem_inj {A B} (f : A → B) (l : list A) x y :
  NoDup (f <$> l) → x ∈ l → y ∈ l → f x = f y → x = y.
Proof.
  induction l as [|z l IH]; intros Hnd Hx Hy Hxy.
  - by apply elem_of_nil in Hx.
  - rewrite fmap_cons in Hnd. apply NoDup_cons in Hnd as [Hz Hnd].
    apply elem_of_cons in Hx as [->|Hx]; apply elem_of_cons in Hy as [->|Hy].
    + done.
    + exfalso. apply Hz. rewrite Hxy. by apply list_elem_of_fmap_2.
    + exfalso. apply Hz. rewrite <- Hxy. by apply list_elem_of_fmap_2.
    + by apply IH.
Qed.

(** Sending a comment the fields it has changes nothing. *)
Lemma exec_update_same db i inf :
  (∀ m, m ∈ db_comments db → com_id m = i → info m = inf) →
  exec (comment_update i inf) db = db.
Proof.
  destruct db as [cats cms subs next]. simpl. intros Hsame. f_equal.
  induction cms as [|m cms IH]; [done |].
  rewrite fmap_cons. f_equal.
  - destruct (decide (com_id m = i)) as [Hi|Hi]; [| done].
    rewrite <- (Hsame m); [by destruct m | apply list_elem_of_here | done].
  - apply IH. intros m' Hm'. apply Hsame. by apply list_elem_of_further.
Qed.

Lemma set_iter_nil (set_iter : list pyval → list pyval) l :
  (∀ l, set_iter l ≡ₚ l) → l = [] → set_iter l = [].
Proof. intros Hperm ->. apply Permutation_nil_r, Hperm. Qed.

Lemma list_difference_nil {A} `{EqDecision A} (l k : list A) :
  (∀ x, x ∈ l → x ∈ k) → list_difference l k = [].
Proof.
  intros Hsub. apply elem_of_nil_inv. intros x Hx.
  apply list_elem_of_difference in Hx as [Hl Hk]. by apply Hk, Hsub.
Qed.

(** C1, amended: on a rubric that is in place the engine deletes nothing
    and creates nothing; it updates every comment found on the server,
    sending it the fields it already has, and the server stays as it
    is. *)
Theorem rerun_only_updates set_iter refetch a_id rubric override_rubric delete_missing db :
  (∀ l, set_iter l ≡ₚ l) →
  proceeds a_id override_rubric db →
  rubric_in_place a_id rubric db →
  NoDup (com_id <$> db_comments db) →
  create_assignment_rubric set_iter refetch a_id rubric override_rubric delete_missing db
  = (Ok tt, db,
     (λ item, comment_update (com_id item.2) (info item.2)) <$> (existing_rubric a_id db).1).
Proof.
  intros Hperm Hgo (Hnames & Hcategories & Hfields) Hids.
  destruct (create_assignment_rubric_runs set_iter refetch Hperm a_id rubric
              override_rubric delete_missing db Hgo) as (ph & Hshape & Hrun).
  destruct (existing_rubric_facts a_id db) as (Hold_nd & _ & Hold & _).
  destruct Hshape as (Hdel & Hdelcat & Hnewcat & Hupd & Hnew).
  assert (missing_names set_iter a_id rubric db = []) as Hmissing.
  { apply set_iter_nil; [done |]. apply list_difference_nil. intros n. apply Hnames. }
  assert (deleting set_iter a_id rubric delete_missing db = false) as Hdeleting.
  { unfold deleting. rewrite Hmissing. by rewrite bool_decide_eq_false_2 by tauto. }
  rewrite Hdeleting in Hdel, Hdelcat.
  assert (created_categories ph = []) as Hnewcat'.
  { unfold missing_categories, kept_categories in Hnewcat. rewrite Hdeleting in Hnewcat.
    rewrite (set_iter_nil set_iter) in Hnewcat;
      [by apply Forall2_nil_inv_l in Hnewcat | done |].
    by apply list_difference_nil. }
  assert (created_comments ph = []) as Hnew'.
  { unfold new_names in Hnew. rewrite (set_iter_nil set_iter) in Hnew;
      [by apply Forall2_nil_inv_l in Hnew | done |].
    apply list_difference_nil. intros n. apply Hnames. }
  rewrite filter_all_elem in Hupd.
  2:{ intros [n m] Hnm. simpl. apply Hnames. apply list_elem_of_fmap. by exists (n, m). }
  apply (Forall2_fmap_elem _ (λ item, comment_update (com_id item.2) (info item.2))) in Hupd.
  2:{ intros [n m] o Hnm (inf & Hinf & ->). simpl in *.
      apply dict_elem_get in Hnm; [| done]. apply Hfields in Hnm. congruence. }
  unfold runs, plan_of in Hrun. rewrite Hdel, Hdelcat, Hnewcat', Hnew', Hupd in Hrun.
  simpl in Hrun. rewrite app_nil_r in Hrun. rewrite Hrun. do 2 f_equal.
  assert (∀ items : dict pyval RubricComment,
            (∀ item, item ∈ items → item ∈ (existing_rubric a_id db).1) →
            exec_all ((λ item, comment_update (com_id item.2) (info item.2)) <$> items) db = db)
    as Hsame.
  { induction items as [|[n m] items IH]; intros Hsub; [done |].
    rewrite fmap_cons. change (exec_all (?o :: ?p) db) with (exec_all p (exec o db)).
    rewrite exec_update_same.
    - apply IH. intros item Hitem. apply Hsub. by apply list_elem_of_further.
    - intros m' Hm' Hid. simpl in *.
      assert (m ∈ db_comments db) as Hm by (eapply Hold, Hsub, list_elem_of_here).
      by rewrite (NoDup_fmap_elem_inj com_id (db_comments db) m' m). }
  by apply Hsame.
Qed.

Lemma demo_rubric_in_place : rubric_in_place 7 demo_rubric demo_db_imported.
Proof.
  unfold rubric_in_place.
  remember (existing_rubric 7 demo_db_imported) as e eqn:He. vm_compute in He. subst e.
  remember (sheet_rubric demo_rubric) as s eqn:Hs. vm_compute in Hs. subst s.
  split_and!.
  - done.
  - done.
  - intros n m. simpl. repeat case_decide; intros [= <-]; subst n; reflexivity.
Qed.

(** C1 as stated fails: the first run on [demo_db] leaves the rubric in
    place, and the second run still calls [update] on each of the three
    comments. *)
Lemma rerun_updates_every_comment : ¬ rerun_makes_no_call.
Proof.
  intros Hclaim.
  specialize (Hclaim (λ l, l) true 7%Z demo_rubric false true demo_db_imported
                (λ l, reflexivity l) demo_rubric_in_place).
  vm_compute in Hclaim. discriminate Hclaim.
Qed.

Lemma rerun_only_updates_witness :
  create_assignment_rubric (λ l, l) true 7 demo_rubric false true demo_db_imported
  = (Ok tt, demo_db_imported,
     (λ item, comment_update (com_id item.2) (info item.2)) <$>
       (existing_rubric 7 demo_db_imported).1).
Proof.
  apply (rerun_only_updates (λ l, l) true 7 demo_rubric false true demo_db_imported).
  - intros l. reflexivity.
  - left. reflexivity.
  - apply demo_rubric_in_place.
  - apply (bool_decide_unpack _). vm_compute. reflexivity.
Defined.

(** ** Deleting categories *)

Lemma plan_shape_ops set_iter refetch a_id rubric delete_missing db ph :
  plan_shape set_iter refetch a_id rubric delete_missing db ph →
  Forall (λ o, ∃ i, o = comment_delete i) (deleted_comments ph) ∧
  Forall (λ o, ∃ i, o = category_delete i) (deleted_categories ph) ∧
  Forall (λ o, ∃ n a p s, o = rubric_category_create n a p s) (created_categories ph) ∧
  Forall (λ o, ∃ i inf, o = comment_update i inf) (updated_comments ph) ∧
  Forall (λ o, ∃ c inf, o = rubric_comment_create c inf) (created_comments ph).
Proof.
  intros (Hdel & Hdelcat & Hnewcat & Hupd & Hnew). split_and!.
  - destruct (deleting _ _ _ _ _); [| rewrite Hdel; constructor].
    eapply Forall2_Forall_r; [apply Hdel |]. intros n o (m & _ & ->). by eexists.
  - rewrite Hdelcat. destruct (deleting _ _ _ _ _); [| constructor].
    apply Forall_fmap, Forall_forall. intros c _. by eexists.
  - eapply Forall2_Forall_r; [apply Hnewcat |]. intros c o (e & _ & ->). by repeat eexists.
  - eapply Forall2_Forall_r; [apply Hupd |]. intros c o (e & _ & ->). by repeat eexists.
  - eapply Forall2_Forall_r; [apply Hnew |].
    intros n o (c_name & c & inf & _ & _ & _ & _ & ->). by repeat eexists.
Qed.

(** A category deletion of the plan is one of the second loop. *)
Lemma category_delete_in_plan set_iter refetch a_id rubric delete_missing db ph i :
  plan_shape set_iter refetch a_id rubric delete_missing db ph →
  category_delete i ∈ plan_of ph ↔ category_delete i ∈ deleted_categories ph.
Proof.
  intros Hshape. apply plan_shape_ops in Hshape as (H1 & _ & H3 & H4 & H5).
  unfold plan_of. rewrite !elem_of_app. split; [| tauto].
  rewrite Forall_forall in H1, H3, H4, H5.
  intros [Hin|[Hin|[Hin|[Hin|Hin]]]]; [| done | | |].
  - by apply H1 in Hin as [? ?].
  - by apply H3 in Hin as (? & ? & ? & ? & ?).
  - by apply H4 in Hin as (? & ? & ?).
  - by apply H5 in Hin as (? & ? & ?).
Qed.

Lemma rubricComments_after_deletes p db c :
  Forall (λ o, ∃ i, o = comment_delete i) p →
  rubricComments db c = [] → rubricComments (exec_all p db) c = [].
Proof.
  intros Hp Hempty. apply elem_of_nil_inv. intros m Hm.
  apply list_elem_of_filter in Hm as [Hcat Hm].
  apply exec_all_comment_deletes_sub in Hm; [| done].
  assert (m ∈ rubricComments db c) as Hin by (by apply list_elem_of_filter).
  rewrite Hempty in Hin. by apply elem_of_nil in Hin.
Qed.

(** C2, amended: with [delete_missing] set, a category is deleted
    exactly if some comment of the server is missing from the sheet and
    the category, found on the server, shows no comment at the test of
    line 325.  So a deleted category has no comment left once the missing
    comments are deleted, and a category that was empty before the run is
    deleted like one that the run emptied. *)
Theorem empty_categories_are_deleted set_iter refetch a_id rubric override_rubric db :
  (∀ l, set_iter l ≡ₚ l) →
  proceeds a_id override_rubric db →
  ∃ ph,
    runs (create_assignment_rubric set_iter refetch a_id rubric override_rubric true)
      db tt (plan_of ph) ∧
    Forall (λ o, ∃ i, o = comment_delete i) (deleted_comments ph) ∧
    (∀ i, category_delete i ∈ plan_of ph ↔
          missing_names set_iter a_id rubric db ≠ [] ∧
          ∃ c, dict_get (cat_name c) (existing_rubric a_id db).2 = Some c ∧
               cat_id c = i ∧
               rubricComments (seen refetch db (deleted_comments ph)) c = []) ∧
    (∀ i m, category_delete i ∈ plan_of ph →
            m ∈ db_comments (exec_all (deleted_comments ph) db) → category m ≠ i) ∧
    (∀ c, missing_names set_iter a_id rubric db ≠ [] →
          dict_get (cat_name c) (existing_rubric a_id db).2 = Some c →
          rubricComments db c = [] →
          category_delete (cat_id c) ∈ plan_of ph).
Proof.
  intros Hperm Hgo.
  destruct (create_assignment_rubric_runs set_iter refetch Hperm a_id rubric
              override_rubric true db Hgo) as (ph & Hshape & Hrun).
  exists ph. pose proof (plan_shape_ops _ _ _ _ _ _ _ Hshape) as (Hops & _).
  pose proof Hshape as (_ & Hdelcat & _).
  destruct (existing_rubric_facts a_id db) as (_ & Hcats_nd & _ & Hcats).
  assert (∀ i, category_delete i ∈ plan_of ph ↔
               missing_names set_iter a_id rubric db ≠ [] ∧
               ∃ c, dict_get (cat_name c) (existing_rubric a_id db).2 = Some c ∧
                    cat_id c = i ∧
                    rubricComments (seen refetch db (deleted_comments ph)) c = [])
    as Hiff.
  { intros i. rewrite (category_delete_in_plan _ _ _ _ _ _ _ _ Hshape), Hdelcat.
    unfold deleting.
    destruct (decide (missing_names set_iter a_id rubric db = [])) as [Hnil|Hmissing].
    { rewrite bool_decide_eq_false_2 by tauto. simpl. rewrite elem_of_nil. tauto. }
    rewrite bool_decide_eq_true_2 by done. simpl. rewrite list_elem_of_fmap. split.
    - intros (c & [= ->] & Hc). split; [done |]. exists c.
      apply list_elem_of_filter in Hc as [Hempty Hc].
      apply list_elem_of_fmap in Hc as ([n c'] & -> & Hc). simpl in *.
      destruct (Hcats _ _ Hc) as [<- _]. split_and!; [| done | done].
      by apply dict_elem_get.
    - intros (_ & c & Hc & <- & Hempty). exists c. split; [done |].
      apply list_elem_of_filter. split; [done |].
      apply dict_get_elem in Hc. apply list_elem_of_fmap. by exists (cat_name c, c). }
  split_and!; [done | done | done | |].
  - intros i m Hi Hm Hcat. apply Hiff in Hi as (_ & c & _ & <- & Hempty).
    assert (rubricComments (exec_all (deleted_comments ph) db) c = []) as Hempty'.
    { unfold seen in Hempty. destruct refetch; [done |].
      by apply rubricComments_after_deletes. }
    assert (m ∈ rubricComments (exec_all (deleted_comments ph) db) c) as Hin
      by (by apply list_elem_of_filter).
    rewrite Hempty' in Hin. by apply elem_of_nil in Hin.
  - intros c Hmissing Hc Hempty. apply Hiff. split; [done |]. exists c.
    split_and!; [done | done |].
    unfold seen. destruct refetch; [| done]. by apply rubricComments_after_deletes.
Qed.

(** C2 as stated fails, however the client reads the comments of a
    category: the category "Unused" of [demo_db] has no comment before the
    run, and the run deletes it. *)
Lemma deletes_category_empty_before :
  ¬ deletes_exactly_emptied true ∧ ¬ deletes_exactly_emptied false.
Proof.
  assert (proceeds 7 false demo_db) as Hgo by (left; reflexivity).
  assert (demo_category 3 "Unused" ∈ rubricCategories 7 demo_db) as Hc
    by (do 2 apply list_elem_of_further; apply list_elem_of_here).
  split; intros Hclaim.
  - destruct (Hclaim (λ l, l) 7%Z demo_rubric false demo_db (demo_category 3 "Unused")
                (λ l, reflexivity l) Hgo Hc) as [Hdeleted _].
    destruct Hdeleted as [Hbefore _]; [| done].
    vm_compute. do 2 apply list_elem_of_further. apply list_elem_of_here.
  - destruct (Hclaim (λ l, l) 7%Z demo_rubric false demo_db (demo_category 3 "Unused")
                (λ l, reflexivity l) Hgo Hc) as [Hdeleted _].
    destruct Hdeleted as [Hbefore _]; [| done].
    vm_compute. apply list_elem_of_further. apply list_elem_of_here.
Qed.

Lemma empty_categories_are_deleted_witness :
  ∃ ph,
    runs (create_assignment_rubric (λ l, l) true 7 demo_rubric false true)
      demo_db tt (plan_of ph) ∧
    Forall (λ o, ∃ i, o = comment_delete i) (deleted_comments ph) ∧
    (∀ i, category_delete i ∈ plan_of ph ↔
          missing_names (λ l, l) 7 demo_rubric demo_db ≠ [] ∧
          ∃ c, dict_get (cat_name c) (existing_rubric 7 demo_db).2 = Some c ∧
               cat_id c = i ∧
               rubricComments (seen true demo_db (deleted_comments ph)) c = []) ∧
    (∀ i m, category_delete i ∈ plan_of ph →
            m ∈ db_comments (exec_all (deleted_comments ph) demo_db) → category m ≠ i) ∧
    (∀ c, missing_names (λ l, l) 7 demo_rubric demo_db ≠ [] →
          dict_get (cat_name c) (existing_rubric 7 demo_db).2 = Some c →
          rubricComments demo_db c = [] →
          category_delete (cat_id c) ∈ plan_of ph).
Proof.
  apply (empty_categories_are_deleted (λ l, l) true 7 demo_rubric false demo_db).
  - intros l. reflexivity.
  - left. reflexivity.
Defined.

(** On [demo_db] the run deletes the comment A, then the category
    "Style", which A leaves empty, and the category "Unused", which was
    empty before; where the client keeps the comments as fetched, only
    "Unused" is deleted. *)
Example cascade_on_demo_db :
  filter (λ o, is_category_delete o = true)
    (create_assignment_rubric (λ l, l) true 7 demo_rubric false true demo_db).2
  = [category_delete 1; category_delete 3] ∧
  filter (λ o, is_category_delete o = true)
    (create_assignment_rubric (λ l, l) false 7 demo_rubric false true demo_db).2
  = [category_delete 3].
Proof. split; reflexivity. Qed.

(** ** The set difference *)

Lemma NoDup_singleton_eq {A} (l : list A) (a : A) :
  NoDup l → (∀ x, x ∈ l ↔ x = a) → l = [a].
Proof.
  intros Hnd Hin. apply Permutation_singleton_r.
  apply NoDup_Permutation; [done | apply NoDup_singleton |].
  intros x. rewrite Hin. by rewrite list_elem_of_singleton.
Qed.

Lemma Permutation_pair {A} (l : list A) (x y : A) :
  l ≡ₚ [x; y] → l = [x; y] ∨ l = [y; x].
Proof.
  intros Hperm. pose proof (Permutation_length Hperm) as Hlen.
  destruct l as [|a [|b [|c l]]]; simpl in Hlen; try lia.
  assert (a ∈ [x; y]) as Ha by (rewrite <- Hperm; apply list_elem_of_here).
  assert (b ∈ [x; y]) as Hb
    by (rewrite <- Hperm; apply list_elem_of_further, list_elem_of_here).
  rewrite !elem_of_cons, elem_of_nil in Ha, Hb.
  destruct Ha as [->|[->|[]]]; destruct Hb as [->|[->|[]]]; auto.
  - apply Permutation_cons_inv in Hperm.
    apply Permutation_singleton_inj in Hperm as ->. by left.
  - assert (x ∈ [y; y]) as Hx by (rewrite Hperm; apply list_elem_of_here).
    rewrite !elem_of_cons, elem_of_nil in Hx. destruct Hx as [->|[->|[]]]; by left.
Qed.



(** Where no category is left empty and none is missing, these four calls
    are the whole plan. *)
Example set_difference_four_calls :
  (create_assignment_rubric (λ l, l) true 7 demo_rubric false true one_category_db).2 =
  [comment_delete 10;
   comment_update 11 (comment "B" (PyStr "b") (PyInt (-1)));
   comment_update 12 (comment "C" (PyStr "c") (PyInt (-2)));
   rubric_comment_create 2 (comment "D" (PyStr "d") (PyInt 0))].
Proof. reflexivity. Qed.

(** ** Comments found on both sides *)

Lemma Forall2_elem_l {A B} (R : A → B → Prop) l k x :
  Forall2 R l k → x ∈ l → ∃ y, y ∈ k ∧ R x y.
Proof.
  intros HF. induction HF as [|x' y' l k Hxy HF IH]; intros Hx.
  - by apply elem_of_nil in Hx.
  - apply elem_of_cons in Hx as [->|Hx].
    + exists y'. split; [apply list_elem_of_here | done].
    + destruct (IH Hx) as (y & Hy & HR). exists y. split; [by apply list_elem_of_further | done].
Qed.

Lemma Forall2_elem_r {A B} (R : A → B → Prop) l k y :
  Forall2 R l k → y ∈ k → ∃ x, x ∈ l ∧ R x y.
Proof.
  intros HF. induction HF as [|x' y' l k Hxy HF IH]; intros Hy.
  - by apply elem_of_nil in Hy.
  - apply elem_of_cons in Hy as [->|Hy].
    + exists x'. split; [apply list_elem_of_here | done].
    + destruct (IH Hy) as (x & Hx & HR). exists x. split; [by apply list_elem_of_further | done].
Qed.

Lemma comment_survives_deletes p db m :
  Forall (λ o, ∃ i, o = comment_delete i ∧ i ≠ com_id m) p →
  m ∈ db_comments db → m ∈ db_comments (exec_all p db).
Proof.
  revert db. induction p as [|o p IH]; intros db Hp Hm; [done |].
  apply Forall_cons in Hp as [(i & -> & Hi) Hp].
  apply (IH _ Hp). simpl. apply list_elem_of_filter. split; [congruence | done].
Qed.

Lemma comments_after_empty_category_deletes cs db :
  (∀ c, c ∈ cs → rubricComments db c = []) →
  db_comments (exec_all ((λ c, category_delete (cat_id c)) <$> cs) db) = db_comments db.
Proof.
  revert db. induction cs as [|c cs IH]; intros db Hempty; [done |].
  rewrite fmap_cons. change (exec_all (?o :: ?p) db) with (exec_all p (exec o db)).
  assert (db_comments (exec (category_delete (cat_id c)) db) = db_comments db) as Hsame.
  { apply exec_category_delete_empty, Hempty, list_elem_of_here. }
  rewrite IH; [done |]. intros c' Hc'.
  rewrite (rubricComments_same _ db) by done. by apply Hempty, list_elem_of_further.
Qed.

Lemma comments_after_category_creates p db :
  Forall (λ o, ∃ n a pl sk, o = rubric_category_create n a pl sk) p →
  db_comments (exec_all p db) = db_comments db.
Proof.
  revert db. induction p as [|o p IH]; intros db Hp; [done |].
  apply Forall_cons in Hp as [(n & a & pl & sk & ->) Hp].
  change (exec_all (?o :: ?p) db) with (exec_all p (exec o db)). by rewrite IH.
Qed.

Lemma comment_survives_creates p db m :
  Forall (λ o, ∃ c inf, o = rubric_comment_create c inf) p →
  m ∈ db_comments db → m ∈ db_comments (exec_all p db).
Proof.
  revert db. induction p as [|o p IH]; intros db Hp Hm; [done |].
  apply Forall_cons in Hp as [(c & inf & ->) Hp].
  apply (IH _ Hp). simpl. apply elem_of_app. by left.
Qed.

(** Updates leave a comment in its category; the update addressed to it
    gives it its new fields. *)
Lemma comment_after_updates p m inf :
  Forall (λ o, ∃ i inf', o = comment_update i inf' ∧ (i = com_id m → inf' = inf)) p →
  ∀ db,
    (m ∈ db_comments db ∧ comment_update (com_id m) inf ∈ p) ∨
    with_fields m inf ∈ db_comments db →
    with_fields m inf ∈ db_comments (exec_all p db).
Proof.
  induction p as [|o p IH]; intros Hp db Hm.
  - destruct Hm as [[_ Hin]|Hm]; [by apply elem_of_nil in Hin | done].
  - apply Forall_cons in Hp as [(i & inf' & -> & Hi) Hp].
    change (exec_all (?o :: ?p) db) with (exec_all p (exec o db)).
    apply (IH Hp). simpl.
    destruct (decide (i = com_id m)) as [->|Hne].
    + rewrite (Hi eq_refl). right.
      destruct Hm as [[Hm _]|Hm].
      * apply list_elem_of_fmap. exists m. by rewrite decide_True.
      * apply list_elem_of_fmap.
        exists (with_fields m inf). by rewrite decide_True.
    + destruct Hm as [[Hm Hin]|Hm].
      * left. split.
        -- apply list_elem_of_fmap. exists m. by rewrite decide_False.
        -- apply elem_of_cons in Hin as [[= ? _]|Hin]; [done | done].
      * right. apply list_elem_of_fmap.
        exists (with_fields m inf). by rewrite decide_False.
Qed.

(** The comments of the server when the updates begin: those that were
    there and were not deleted. *)
Lemma comments_when_updates_begin set_iter refetch a_id rubric delete_missing db ph :
  plan_shape set_iter refetch a_id rubric delete_missing db ph →
  db_comments (exec_all (deleted_comments ph ++ deleted_categories ph ++
                         created_categories ph) db) =
  db_comments (exec_all (deleted_comments ph) db).
Proof.
  intros Hshape.
  pose proof (plan_shape_ops _ _ _ _ _ _ _ Hshape) as (Hops1 & Hops2 & Hops3 & _).
  destruct Hshape as (_ & Hdelcat & _).
  rewrite !exec_all_app. rewrite comments_after_category_creates by done.
  rewrite Hdelcat. destruct (deleting _ _ _ _ _); [| done].
  apply comments_after_empty_category_deletes. intros c Hc.
  apply list_elem_of_filter in Hc as [Hempty _]. unfold seen in Hempty.
  destruct refetch; [done |]. by apply rubricComments_after_deletes.
Qed.

(** What a run does to a comment named on both sides. *)
Lemma existing_comment_after_run set_iter refetch a_id rubric delete_missing db ph n m inf :
  (∀ l, set_iter l ≡ₚ l) →
  NoDup (com_id <$> db_comments db) →
  plan_shape set_iter refetch a_id rubric delete_missing db ph →
  dict_get n (existing_rubric a_id db).1 = Some m →
  dict_get n (sheet_rubric rubric).2 = Some inf →
  Forall (λ o, ∃ i, o = comment_delete i ∧ i ≠ com_id m) (deleted_comments ph) ∧
  Forall (λ o, ∃ i inf', o = comment_update i inf' ∧ (i = com_id m → inf' = inf))
    (updated_comments ph) ∧
  comment_update (com_id m) inf ∈ updated_comments ph ∧
  with_fields m inf ∈ db_comments (exec_all (plan_of ph) db).
Proof.
  intros Hperm Hids Hshape Hm Hinf.
  pose proof (plan_shape_ops _ _ _ _ _ _ _ Hshape) as (Hops1 & Hops2 & Hops3 & Hops4 & Hops5).
  pose proof (comments_when_updates_begin _ _ _ _ _ _ _ Hshape) as Hbegin.
  destruct Hshape as (Hdel & Hdelcat & Hnewcat & Hupd & Hnew).
  destruct (missing_names_facts set_iter Hperm a_id rubric db) as [_ Hmin].
  destruct (existing_rubric_facts a_id db) as (Hold_nd & _ & Hold & _).
  set (old := (existing_rubric a_id db).1) in *.
  set (rc := (sheet_rubric rubric).2) in *.
  assert (n ∈ dict_keys rc) as Hn_rc by (apply dict_get_is_Some; by eexists).
  assert (m ∈ db_comments db) as Hm_db by (by eapply Hold, dict_get_elem).
  (* a comment of the server with the id of [m] is [m] *)
  assert (∀ n' m', (n', m') ∈ old → com_id m' = com_id m → n' = n) as Hsame_id.
  { intros n' m' Hnm' Hid. destruct (Hold _ _ Hnm') as [<- Hm'_db].
    assert (m' = m) as -> by (by apply (NoDup_fmap_elem_inj com_id (db_comments db))).
    by eapply Hold, dict_get_elem. }
  assert (Forall (λ o, ∃ i, o = comment_delete i ∧ i ≠ com_id m) (deleted_comments ph))
    as Hdel_other.
  { destruct (deleting _ _ _ _ _); [| rewrite Hdel; constructor].
    apply Forall_forall. intros o Ho.
    destruct (Forall2_elem_r _ _ _ _ Hdel Ho) as (n' & Hn' & m' & Hm' & ->).
    eexists. split; [done |]. intros Hid.
    apply (Hsame_id n' m') in Hid as ->; [| by apply dict_get_elem].
    apply Hmin in Hn' as [_ Hn']. done. }
  assert (Forall (λ o, ∃ i inf', o = comment_update i inf' ∧ (i = com_id m → inf' = inf))
            (updated_comments ph)) as Hupd_same.
  { apply Forall_forall. intros o Ho.
    destruct (Forall2_elem_r _ _ _ _ Hupd Ho) as ([n' m'] & Hnm' & inf' & Hinf' & ->).
    simpl in *. do 2 eexists. split; [done |]. intros Hid.
    apply list_elem_of_filter in Hnm' as [_ Hnm'].
    apply (Hsame_id n' m') in Hid as ->; [| done]. congruence. }
  assert (comment_update (com_id m) inf ∈ updated_comments ph) as Hupd_in.
  { destruct (Forall2_elem_l _ _ _ (n, m) Hupd) as (o & Ho & inf' & Hinf' & ->).
    - apply list_elem_of_filter. split; [done | by apply dict_get_elem].
    - simpl in *. by replace inf with inf' by congruence. }
  split_and!; [done | done | done |].
  unfold plan_of. rewrite !app_assoc, exec_all_app, exec_all_app, <- !app_assoc.
  apply comment_survives_creates; [done |].
  apply comment_after_updates; [done |]. left. split; [| done].
  rewrite Hbegin. by apply comment_survives_deletes.
Qed.

(** C9: a comment named on both sides is updated under its own id with
    the fields of the sheet; it is neither deleted nor created anew, and
    after the run it is bound to the category it was bound to, whatever
    category the sheet lists it under. *)
Theorem existing_comment_updated_in_place set_iter refetch a_id rubric
    override_rubric delete_missing db n m inf :
  (∀ l, set_iter l ≡ₚ l) →
  proceeds a_id override_rubric db →
  NoDup (com_id <$> db_comments db) →
  dict_get n (existing_rubric a_id db).1 = Some m →
  dict_get n (sheet_rubric rubric).2 = Some inf →
  ∃ ph,
    runs (create_assignment_rubric set_iter refetch a_id rubric
            override_rubric delete_missing) db tt (plan_of ph) ∧
    comment_update (com_id m) inf ∈ plan_of ph ∧
    (comment_delete (com_id m) ∉ plan_of ph) ∧
    (∀ c inf', rubric_comment_create c inf' ∈ plan_of ph → name inf' ≠ n) ∧
    with_fields m inf ∈ db_comments (exec_all (plan_of ph) db).
Proof.
  intros Hperm Hgo Hids Hm Hinf.
  destruct (create_assignment_rubric_runs set_iter refetch Hperm a_id rubric
              override_rubric delete_missing db Hgo) as (ph & Hshape & Hrun).
  pose proof (plan_shape_ops _ _ _ _ _ _ _ Hshape) as (Hops1 & Hops2 & Hops3 & Hops4 & Hops5).
  destruct (existing_comment_after_run set_iter refetch a_id rubric delete_missing db ph
              n m inf Hperm Hids Hshape Hm Hinf) as (Hdel_other & _ & Hupd_in & Hafter).
  destruct Hshape as (_ & _ & _ & _ & Hnew).
  destruct (new_names_facts set_iter Hperm a_id rubric db) as [_ Hnin].
  destruct (sheet_rubric_facts rubric) as (_ & _ & _ & Hrc).
  assert (n ∈ dict_keys (existing_rubric a_id db).1) as Hn_old
    by (apply dict_get_is_Some; by eexists).
  exists ph. split_and!; [done | | | | done].
  - unfold plan_of. rewrite !elem_of_app. tauto.
  - unfold plan_of. rewrite !elem_of_app.
    rewrite Forall_forall in Hdel_other, Hops2, Hops3, Hops4, Hops5.
    intros [Hin|[Hin|[Hin|[Hin|Hin]]]].
    + apply Hdel_other in Hin as (i & [= <-] & Hi). done.
    + by apply Hops2 in Hin as [? ?].
    + by apply Hops3 in Hin as (? & ? & ? & ? & ?).
    + by apply Hops4 in Hin as (? & ? & ?).
    + by apply Hops5 in Hin as (? & ? & ?).
  - intros c inf'. unfold plan_of. rewrite !elem_of_app.
    rewrite Forall_forall in Hops1, Hops2, Hops3, Hops4.
    intros [Hin|[Hin|[Hin|[Hin|Hin]]]].
    + by apply Hops1 in Hin as [? ?].
    + by apply Hops2 in Hin as [? ?].
    + by apply Hops3 in Hin as (? & ? & ? & ? & ?).
    + by apply Hops4 in Hin as (? & ? & ?).
    + destruct (Forall2_elem_r _ _ _ _ Hnew Hin)
        as (n' & Hn' & c_name & c' & inf'' & _ & _ & _ & Hinf'' & [= -> ->]).
      apply dict_get_elem, Hrc in Hinf'' as ->.
      apply Hnin in Hn' as [_ Hn']. by intros ->.
Qed.

Lemma existing_comment_updated_in_place_witness :
  ∃ ph,
    runs (create_assignment_rubric (λ l, l) true 7 moved_rubric false true)
      demo_db tt (plan_of ph) ∧
    comment_update (com_id (demo_comment 11 2 "B")) (comment "B" (PyStr "b") (PyInt (-1)))
      ∈ plan_of ph ∧
    (comment_delete (com_id (demo_comment 11 2 "B")) ∉ plan_of ph) ∧
    (∀ c inf', rubric_comment_create c inf' ∈ plan_of ph → name inf' ≠ PyStr "B") ∧
    with_fields (demo_comment 11 2 "B") (comment "B" (PyStr "b") (PyInt (-1)))
      ∈ db_comments (exec_all (plan_of ph) demo_db).
Proof.
  apply (existing_comment_updated_in_place (λ l, l) true 7 moved_rubric false true demo_db
           (PyStr "B") (demo_comment 11 2 "B") (comment "B" (PyStr "b") (PyInt (-1)))).
  - intros l. reflexivity.
  - left. reflexivity.
  - apply (bool_decide_unpack _). vm_compute. reflexivity.
  - reflexivity.
  - reflexivity.
Defined.

(** On [demo_db] the comment B is under "Tests" (category 2); the sheet
    [moved_rubric] lists it under "Style".  After the run it is still
    under category 2. *)
Example moved_comment_stays :
  category <$> filter (λ m, com_id m = 11%Z)
    (db_comments (create_assignment_rubric (λ l, l) true 7 moved_rubric false true demo_db).1.2)
  = [2%Z].
Proof. reflexivity. Qed.

(** ** The server after a run *)

Lemma foldl_establish {A B} (Q : A → Prop) (f : A → B → A) (l : list B) (a : A) x :
  x ∈ l → (∀ a, Q (f a x)) → (∀ a y, Q a → Q (f a y)) → Q (foldl f a l).
Proof.
  intros Hx Hset Hkeep. revert a. induction l as [|y l IH]; intros a.
  - by apply elem_of_nil in Hx.
  - simpl. apply elem_of_cons in Hx as [->|Hx].
    + apply (foldl_invariant Q); [apply Hset |]. intros a' z _. apply Hkeep.
    + by apply IH.
Qed.

Lemma dict_keys_set_mono {K V} `{EqDecision K} (d : dict K V) k v k' :
  k' ∈ dict_keys d → k' ∈ dict_keys (dict_set k v d).
Proof.
  rewrite dict_keys_set_decide. case_decide; [done |].
  intros Hk. apply elem_of_app. by left.
Qed.

Lemma dict_keys_set_here {K V} `{EqDecision K} (d : dict K V) k v :
  k ∈ dict_keys (dict_set k v d).
Proof. apply dict_get_is_Some. rewrite dict_get_set_eq. by eexists. Qed.

(** What [existing_rubric] holds is what is found on the assignment. *)
Lemma existing_rubric_observed a_id db n m :
  (n, m) ∈ (existing_rubric a_id db).1 → observed a_id db m ∧ name (info m) = n.
Proof.
  unfold existing_rubric.
  apply (foldl_invariant (λ acc : dict pyval RubricComment * dict pyval RubricCategory,
    (n, m) ∈ acc.1 → observed a_id db m ∧ name (info m) = n)).
  - simpl. intros Hin. by apply elem_of_nil in Hin.
  - intros [old cats] c Hc Hacc. simpl in *.
    apply (foldl_invariant (λ d : dict pyval RubricComment,
      (n, m) ∈ d → observed a_id db m ∧ name (info m) = n)); [done |].
    intros d m' Hm' Hd Hin. apply dict_elem_set in Hin as [[-> ->]|Hin]; [| by apply Hd].
    apply list_elem_of_filter in Hm' as [Hcat Hm']. split; [| done].
    split; [done |]. by exists c.
Qed.

Lemma observed_in_existing_rubric a_id db m :
  observed a_id db m → name (info m) ∈ dict_keys (existing_rubric a_id db).1.
Proof.
  intros (Hm & c & Hc & Hcat). unfold existing_rubric.
  apply (foldl_establish
           (λ acc : dict pyval RubricComment * dict pyval RubricCategory,
              name (info m) ∈ dict_keys acc.1) _ _ _ c Hc).
  - intros [old cats]. simpl.
    apply (foldl_establish (λ d : dict pyval RubricComment, name (info m) ∈ dict_keys d)
             _ _ _ m).
    + by apply list_elem_of_filter.
    + intros d. apply dict_keys_set_here.
    + intros d m' Hd. by apply dict_keys_set_mono.
  - intros [old cats] c' Hacc. simpl in *.
    apply (foldl_invariant (λ d : dict pyval RubricComment, name (info m) ∈ dict_keys d));
      [done |].
    intros d m' _ Hd. by apply dict_keys_set_mono.
Qed.

Lemma category_in_existing_rubric a_id db c :
  c ∈ rubricCategories a_id db → cat_name c ∈ dict_keys (existing_rubric a_id db).2.
Proof.
  intros Hc. unfold existing_rubric.
  apply (foldl_establish
           (λ acc : dict pyval RubricComment * dict pyval RubricCategory,
              cat_name c ∈ dict_keys acc.2) _ _ _ c Hc).
  - intros [old cats]. simpl. apply dict_keys_set_here.
  - intros [old cats] c' Hacc. simpl in *. by apply dict_keys_set_mono.
Qed.

(** With distinct names, the comment kept under a name is the comment
    found with that name. *)
Lemma existing_rubric_get a_id db m :
  names_distinct a_id db → observed a_id db m →
  dict_get (name (info m)) (existing_rubric a_id db).1 = Some m.
Proof.
  intros Hdistinct Hm.
  pose proof (observed_in_existing_rubric _ _ _ Hm) as Hkey.
  apply dict_get_is_Some in Hkey as [m' Hm'].
  pose proof (dict_get_elem _ _ _ Hm') as Hin.
  apply existing_rubric_observed in Hin as [Hobs Hname].
  by pose proof (Hdistinct m m' Hm Hobs (eq_sym Hname)) as <-.
Qed.

(** *** The effect of each loop on the comments and categories *)

Lemma comments_after_comment_deletes p db :
  Forall (λ o, ∃ i, o = comment_delete i) p →
  db_comments (exec_all p db) =
  filter (λ m, comment_delete (com_id m) ∉ p) (db_comments db).
Proof.
  revert db. induction p as [|o p IH]; intros db Hp.
  - simpl. symmetry. apply filter_all_elem. intros m _. apply not_elem_of_nil.
  - apply Forall_cons in Hp as [[i ->] Hp].
    change (exec_all (?o :: ?p) db) with (exec_all p (exec o db)).
    rewrite (IH _ Hp). simpl. rewrite list_filter_filter.
    apply list_filter_iff. intros m. rewrite not_elem_of_cons. split.
    + intros [Hout Hne]. split; [congruence | done].
    + intros [Hne Hout]. split; [done | congruence].
Qed.

Lemma categories_after_comment_calls p db :
  Forall (λ o, (∃ i inf, o = comment_update i inf) ∨
               (∃ c inf, o = rubric_comment_create c inf)) p →
  db_categories (exec_all p db) = db_categories db.
Proof.
  revert db. induction p as [|o p IH]; intros db Hp; [done |].
  apply Forall_cons in Hp as [Ho Hp].
  change (exec_all (?o :: ?p) db) with (exec_all p (exec o db)).
  rewrite (IH _ Hp). by destruct Ho as [(? & ? & ->)|(? & ? & ->)].
Qed.

Lemma category_survives_creates p db c :
  Forall (λ o, ∃ n a pl sk, o = rubric_category_create n a pl sk) p →
  c ∈ db_categories db → c ∈ db_categories (exec_all p db).
Proof.
  revert db. induction p as [|o p IH]; intros db Hp Hc; [done |].
  apply Forall_cons in Hp as [(n & a & pl & sk & ->) Hp].
  apply (IH _ Hp). simpl. apply elem_of_app. by left.
Qed.

Lemma next_id_grows p db : (db_next_id db ≤ db_next_id (exec_all p db))%Z.
Proof.
  revert db. induction p as [|o p IH]; intros db; [done |].
  change (exec_all (?o :: ?p) db) with (exec_all p (exec o db)).
  etrans; [| apply IH]. destruct o; simpl; lia.
Qed.

(** A category of the server after a plan was there before, or bears an
    id handed out by the plan. *)
Lemma category_after_plan p db c :
  c ∈ db_categories (exec_all p db) →
  c ∈ db_categories db ∨ (db_next_id db ≤ cat_id c)%Z.
Proof.
  revert db. induction p as [|o p IH]; intros db Hc; [by left |].
  change (exec_all (?o :: ?p) db) with (exec_all p (exec o db)) in Hc.
  apply IH in Hc as [Hc|Hc].
  - destruct o; simpl in Hc; try by left.
    + apply list_elem_of_filter in Hc as [_ Hc]. by left.
    + apply elem_of_app in Hc as [Hc|Hc]; [by left |].
      apply list_elem_of_singleton in Hc as ->. right. simpl. lia.
  - right. etrans; [| apply Hc]. destruct o; simpl; lia.
Qed.

(** A comment of the server after the updates is a comment that was
    there, with the fields of an update addressed to it if there is
    one. *)
Lemma comment_after_update_calls p db m1 :
  Forall (λ o, ∃ i inf, o = comment_update i inf) p →
  m1 ∈ db_comments (exec_all p db) →
  ∃ m, m ∈ db_comments db ∧ com_id m1 = com_id m ∧ category m1 = category m ∧
       ((info m1 = info m ∧ ∀ inf, comment_update (com_id m) inf ∉ p) ∨
        (∃ inf, comment_update (com_id m) inf ∈ p ∧ info m1 = inf)).
Proof.
  revert db. induction p as [|o p IH]; intros db Hp Hm1.
  - exists m1. split_and!; [done | done | done |]. left. split; [done |].
    intros inf. apply not_elem_of_nil.
  - apply Forall_cons in Hp as [(i & inf0 & ->) Hp].
    change (exec_all (?o :: ?p) db) with (exec_all p (exec o db)) in Hm1.
    destruct (IH _ Hp Hm1) as (m' & Hm' & Hid & Hcat & Hinfo).
    simpl in Hm'. apply list_elem_of_fmap in Hm' as (m & -> & Hm).
    exists m. destruct (decide (com_id m = i)) as [<-|Hne]; simpl in *.
    + split_and!; [done | done | done |]. right.
      destruct Hinfo as [[Hsame _]|(inf & Hin & Hinf)].
      * exists inf0. split; [apply list_elem_of_here | done].
      * exists inf. split; [by apply list_elem_of_further | done].
    + split_and!; [done | done | done |].
      destruct Hinfo as [[Hsame Hnone]|(inf & Hin & Hinf)].
      * left. split; [done |]. intros inf. apply not_elem_of_cons. split; [congruence | done].
      * right. exists inf. split; [by apply list_elem_of_further | done].
Qed.

(** A comment of the server after the creations was there, or was created
    by one of them. *)
Lemma comment_after_create_calls p db m1 :
  Forall (λ o, ∃ c inf, o = rubric_comment_create c inf) p →
  m1 ∈ db_comments (exec_all p db) →
  m1 ∈ db_comments db ∨
  ∃ c inf, rubric_comment_create c inf ∈ p ∧ category m1 = c ∧ info m1 = inf.
Proof.
  revert db. induction p as [|o p IH]; intros db Hp Hm1; [by left |].
  apply Forall_cons in Hp as [(c & inf & ->) Hp].
  change (exec_all (?o :: ?p) db) with (exec_all p (exec o db)) in Hm1.
  destruct (IH _ Hp Hm1) as [Hm1'|(c' & inf' & Hin & Hcat & Hinf)].
  - simpl in Hm1'. apply elem_of_app in Hm1' as [?|Hnew]; [by left |].
    apply list_elem_of_singleton in Hnew as ->. right.
    exists c, inf. split; [apply list_elem_of_here | done].
  - right. exists c', inf'. split; [by apply list_elem_of_further | done].
Qed.

(** Each creation leaves its comment on the server. *)
Lemma created_comment_on_server p db c inf :
  Forall (λ o, ∃ c inf, o = rubric_comment_create c inf) p →
  rubric_comment_create c inf ∈ p →
  ∃ m1, m1 ∈ db_comments (exec_all p db) ∧ category m1 = c ∧ info m1 = inf.
Proof.
  revert db. induction p as [|o p IH]; intros db Hp Hin.
  - by apply elem_of_nil in Hin.
  - apply Forall_cons in Hp as [(c' & inf' & ->) Hp].
    change (exec_all (?o :: ?p) db) with (exec_all p (exec o db)).
    apply elem_of_cons in Hin as [[= -> ->]|Hin]; [| by apply IH].
    exists {| com_id := db_next_id db; category := c'; info := inf' |}.
    split; [| done]. apply comment_survives_creates; [done |].
    simpl. apply elem_of_app. right. apply list_elem_of_here.
Qed.

(** ** A first run puts the rubric in place *)

Lemma exec_plan_of ph db :
  exec_all (plan_of ph) db =
  exec_all (created_comments ph)
    (exec_all (updated_comments ph)
       (exec_all (deleted_comments ph ++ deleted_categories ph ++
                  created_categories ph) db)).
Proof. unfold plan_of. by rewrite !exec_all_app. Qed.

Lemma created_category_on_server p db n a pl sk :
  Forall (λ o, ∃ n a pl sk, o = rubric_category_create n a pl sk) p →
  rubric_category_create n a pl sk ∈ p →
  ∃ c, c ∈ rubricCategories a (exec_all p db) ∧ cat_name c = n.
Proof.
  revert db. induction p as [|o p IH]; intros db Hp Hin.
  - by apply elem_of_nil in Hin.
  - apply Forall_cons in Hp as [(n' & a' & pl' & sk' & ->) Hp].
    change (exec_all (?o :: ?p) db) with (exec_all p (exec o db)).
    apply elem_of_cons in Hin as [[= -> -> -> ->]|Hin]; [| by apply IH].
    exists {| cat_id := db_next_id db; cat_name := n'; assignment := a';
              pointLimit := pl'; sortKey := sk' |}.
    split; [| done]. apply list_elem_of_filter. split; [done |].
    apply category_survives_creates; [done |].
    simpl. apply elem_of_app. right. apply list_elem_of_here.
Qed.

(** No call of the engine touches the submissions, so a run that was
    let through is let through again. *)
Lemma submissions_after_plan p db :
  db_submissions (exec_all p db) = db_submissions db.
Proof.
  revert db. induction p as [|o p IH]; intros db; [done |].
  change (exec_all (?o :: ?p) db) with (exec_all p (exec o db)).
  rewrite IH. by destruct o.
Qed.

Lemma proceeds_after_plan a_id override_rubric p db :
  proceeds a_id override_rubric db → proceeds a_id override_rubric (exec_all p db).
Proof. unfold proceeds, list_submissions. by rewrite submissions_after_plan. Qed.

(** The ids of the comments stay distinct whatever calls are made. *)
Lemma comment_ids_after_plan p db :
  NoDup (com_id <$> db_comments db) →
  (∀ m, m ∈ db_comments db → (com_id m < db_next_id db)%Z) →
  NoDup (com_id <$> db_comments (exec_all p db)).
Proof.
  revert db. induction p as [|o p IH]; intros db Hnd Hlt; [done |].
  change (exec_all (?o :: ?p) db) with (exec_all p (exec o db)).
  apply IH.
  - destruct o; simpl; [| done | | |].
    + eapply sublist_NoDup; [apply Hnd |]. apply fmap_sublist, sublist_filter.
    + rewrite fmap_app. apply NoDup_app. split_and!; [done | | apply NoDup_singleton].
      intros i Hi Hnew. simpl in Hnew. apply list_elem_of_singleton in Hnew as ->.
      apply list_elem_of_fmap in Hi as (m & Hid & Hm). apply Hlt in Hm. lia.
    + rewrite <- list_fmap_compose.
      rewrite (list_fmap_ext _ com_id); [done |].
      intros j m _. simpl. by case_decide.
    + eapply sublist_NoDup; [apply Hnd |]. apply fmap_sublist, sublist_filter.
  - intros m Hm. destruct o; simpl in *.
    + apply list_elem_of_filter in Hm as [_ Hm]. by apply Hlt.
    + apply Hlt in Hm. lia.
    + apply elem_of_app in Hm as [Hm|Hm]; [apply Hlt in Hm; lia |].
      apply list_elem_of_singleton in Hm as ->. simpl. lia.
    + apply list_elem_of_fmap in Hm as (m' & -> & Hm'). apply Hlt in Hm'.
      by case_decide.
    + apply list_elem_of_filter in Hm as [_ Hm]. by apply Hlt.
Qed.

Section first_run.
Variable set_iter : list pyval → list pyval.
Variable refetch : bool.
Hypothesis set_iter_perm : ∀ l, set_iter l ≡ₚ l.
Variables (a_id : Z) (rubric : rubric_t) (delete_missing : bool).
Variables (db : codepost) (ph : phases).
Hypothesis db_ids : ids_in_order db.
Hypothesis db_names : names_distinct a_id db.
Hypothesis ph_shape : plan_shape set_iter refetch a_id rubric delete_missing db ph.

Lemma categories_after_run :
  db_categories (exec_all (plan_of ph) db) =
  db_categories (exec_all (deleted_comments ph ++ deleted_categories ph ++
                           created_categories ph) db).
Proof.
  pose proof (plan_shape_ops _ _ _ _ _ _ _ ph_shape) as (_ & _ & _ & Hops4 & Hops5).
  rewrite exec_plan_of, <- exec_all_app. apply categories_after_comment_calls.
  apply Forall_app. split.
  - eapply Forall_impl; [apply Hops4 |]. intros o Ho. by left.
  - eapply Forall_impl; [apply Hops5 |]. intros o Ho. by right.
Qed.

Lemma category_not_deleted_survives c :
  c ∈ rubricCategories a_id db →
  category_delete (cat_id c) ∉ deleted_categories ph →
  c ∈ rubricCategories a_id (exec_all (plan_of ph) db).
Proof.
  pose proof (plan_shape_ops _ _ _ _ _ _ _ ph_shape) as (Hops1 & Hops2 & Hops3 & _).
  intros Hc Hkept. apply list_elem_of_filter in Hc as [Ha Hc].
  apply list_elem_of_filter. split; [done |].
  rewrite categories_after_run, !exec_all_app.
  apply category_survives_creates; [done |].
  apply category_survives_deletes; [done | done |].
  by rewrite categories_after_comment_deletes.
Qed.

Lemma deleted_category_shows_no_comment c :
  category_delete (cat_id c) ∈ deleted_categories ph →
  rubricComments (seen refetch db (deleted_comments ph)) c = [].
Proof.
  destruct ph_shape as (_ & Hdelcat & _). rewrite Hdelcat.
  destruct (deleting _ _ _ _ _); [| by intros ?%elem_of_nil].
  intros Hin. apply list_elem_of_fmap in Hin as (c' & [= Hid] & Hc').
  apply list_elem_of_filter in Hc' as [Hempty _].
  by rewrite (rubricComments_same_id _ c c').
Qed.

(** A category that keeps one of its comments is kept. *)
Lemma comment_keeps_category m c :
  m ∈ db_comments db →
  Forall (λ o, ∃ i, o = comment_delete i ∧ i ≠ com_id m) (deleted_comments ph) →
  c ∈ rubricCategories a_id db →
  category m = cat_id c →
  c ∈ rubricCategories a_id (exec_all (plan_of ph) db).
Proof.
  intros Hm Hkept Hc Hcat. apply category_not_deleted_survives; [done |].
  intros Hdeleted. apply deleted_category_shows_no_comment in Hdeleted.
  assert (m ∈ rubricComments (seen refetch db (deleted_comments ph)) c) as Hin.
  { apply list_elem_of_filter. split; [done |]. unfold seen.
    destruct refetch; [by apply comment_survives_deletes | done]. }
  rewrite Hdeleted in Hin. by apply elem_of_nil in Hin.
Qed.

(** After the run, every comment found on the assignment is a comment of
    the sheet, with the fields the sheet gives it. *)
Lemma observed_after_run m1 :
  delete_missing = true →
  observed a_id (exec_all (plan_of ph) db) m1 →
  dict_get (name (info m1)) (sheet_rubric rubric).2 = Some (info m1).
Proof.
  intros Hflag (Hm1 & c1 & Hc1 & Hcat1).
  pose proof (plan_shape_ops _ _ _ _ _ _ _ ph_shape) as (Hops1 & Hops2 & Hops3 & Hops4 & Hops5).
  pose proof (comments_when_updates_begin _ _ _ _ _ _ _ ph_shape) as Hbegin.
  destruct (sheet_rubric_facts rubric) as (_ & _ & _ & Hrc).
  destruct db_ids as [Hids Hbound].
  rewrite exec_plan_of in Hm1.
  apply comment_after_create_calls in Hm1 as [Hm1|(c & inf & Hin & Hcat & Hinf)]; [| | done].
  - apply comment_after_update_calls in Hm1 as (m & Hm & Hid & Hcat & Hinfo); [| done].
    rewrite Hbegin, comments_after_comment_deletes in Hm by done.
    apply list_elem_of_filter in Hm as [Hkept Hm].
    assert (observed a_id db m) as Hobs.
    { split; [done |]. exists c1. split; [| congruence].
      apply list_elem_of_filter in Hc1 as [Ha Hc1]. apply list_elem_of_filter.
      split; [done |]. rewrite categories_after_run in Hc1.
      apply category_after_plan in Hc1 as [Hc1|Hnew]; [done |].
      apply Hbound in Hm as [_ Hm]. lia. }
    pose proof (existing_rubric_get _ _ _ db_names Hobs) as Hget.
    destruct (decide (name (info m) ∈ dict_keys (sheet_rubric rubric).2)) as [Hin|Hout].
    + apply dict_get_is_Some in Hin as [inf Hinf].
      destruct (existing_comment_after_run set_iter refetch a_id rubric delete_missing db ph
                  _ m inf set_iter_perm Hids ph_shape Hget Hinf)
        as (_ & Hupd_same & Hupd_in & _).
      destruct Hinfo as [[_ Hnone]|(inf' & Hin' & Hinf')]; [by apply Hnone in Hupd_in |].
      rewrite Forall_forall in Hupd_same.
      apply Hupd_same in Hin' as (i & inf'' & [= <- <-] & Hsame).
      rewrite (Hsame eq_refl) in Hinf'. rewrite Hinf'.
      pose proof (Hrc _ _ (dict_get_elem _ _ _ Hinf)) as Hname. by rewrite Hname.
    + destruct (missing_names_facts set_iter set_iter_perm a_id rubric db) as [_ Hmissing].
      assert (name (info m) ∈ missing_names set_iter a_id rubric db) as Hmiss.
      { apply Hmissing. split; [| done]. apply dict_get_is_Some. by eexists. }
      destruct ph_shape as (Hdel & _).
      assert (deleting set_iter a_id rubric delete_missing db = true) as Hdeleting.
      { unfold deleting. rewrite Hflag, andb_true_r. apply bool_decide_eq_true_2.
        intros Hnil. rewrite Hnil in Hmiss. by apply elem_of_nil in Hmiss. }
      rewrite Hdeleting in Hdel.
      destruct (Forall2_elem_l _ _ _ _ Hdel Hmiss) as (o & Ho & m' & Hm' & ->).
      rewrite Hget in Hm'. injection Hm' as <-. done.
  - destruct ph_shape as (_ & _ & _ & _ & Hnew).
    destruct (Forall2_elem_r _ _ _ _ Hnew Hin)
      as (n & Hn & c_name & c' & inf' & _ & _ & _ & Hget & [= -> ->]).
    rewrite Hinf. pose proof (Hrc _ _ (dict_get_elem _ _ _ Hget)) as Hname. by rewrite Hname.
Qed.

(** After the run, every comment of the sheet is found on the
    assignment, with the fields the sheet gives it. *)
Lemma named_after_run n inf :
  dict_get n (sheet_rubric rubric).2 = Some inf →
  ∃ m1, observed a_id (exec_all (plan_of ph) db) m1 ∧ info m1 = inf.
Proof.
  intros Hinf.
  pose proof (plan_shape_ops _ _ _ _ _ _ _ ph_shape) as (_ & _ & _ & _ & Hops5).
  destruct db_ids as [Hids _].
  destruct (decide (n ∈ dict_keys (existing_rubric a_id db).1)) as [Hin|Hout].
  - apply dict_get_is_Some in Hin as [m Hm].
    destruct (existing_comment_after_run set_iter refetch a_id rubric delete_missing db ph
                n m inf set_iter_perm Hids ph_shape Hm Hinf)
      as (Hdel_other & _ & _ & Hafter).
    exists (with_fields m inf). split; [| done].
    split; [done |].
    apply dict_get_elem, existing_rubric_observed in Hm as [(Hm_db & c & Hc & Hcat) _].
    exists c. split; [| done]. by apply (comment_keeps_category m).
  - destruct (new_names_facts set_iter set_iter_perm a_id rubric db) as [_ Hnew_names].
    assert (n ∈ new_names set_iter a_id rubric db) as Hnew_n.
    { apply Hnew_names. split; [| done]. apply dict_get_is_Some. by eexists. }
    destruct ph_shape as (_ & _ & _ & _ & Hnew).
    destruct (Forall2_elem_l _ _ _ _ Hnew Hnew_n)
      as (o & Ho & c_name & c & inf' & _ & _ & Hc & Hinf' & ->).
    destruct (created_comment_on_server (created_comments ph)
                (exec_all (updated_comments ph)
                   (exec_all (deleted_comments ph ++ deleted_categories ph ++
                              created_categories ph) db))
                (cat_id c) inf' Hops5 Ho) as (m1 & Hm1 & Hcat & Hinfo).
    exists m1. split; [| congruence].
    split; [by rewrite exec_plan_of |].
    exists c. split; [| done].
    apply list_elem_of_filter in Hc as [Ha Hc]. apply list_elem_of_filter.
    split; [done |]. by rewrite categories_after_run.
Qed.

(** After the run, every category of the sheet is on the assignment. *)
Lemma category_after_run c_name :
  c_name ∈ dict_keys rubric →
  ∃ c, c ∈ rubricCategories a_id (exec_all (plan_of ph) db) ∧ cat_name c = c_name.
Proof.
  intros Hc.
  pose proof (plan_shape_ops _ _ _ _ _ _ _ ph_shape) as (_ & _ & Hops3 & _).
  destruct (existing_rubric_facts a_id db) as (_ & _ & _ & Hcats).
  destruct (decide (c_name ∈ dict_keys (kept_categories set_iter refetch a_id rubric delete_missing db
                                          (deleted_comments ph)))) as [Hin|Hout].
  - apply dict_get_is_Some in Hin as [c Hget]. apply dict_get_elem in Hget.
    exists c. unfold kept_categories in Hget.
    destruct (deleting set_iter a_id rubric delete_missing db) eqn:Hdeleting.
    + apply list_elem_of_filter in Hget as [Hshows Hget]. simpl in Hshows.
      apply Hcats in Hget as [Hname Hc_db]. split; [| done].
      apply category_not_deleted_survives; [done |].
      intros Hdeleted. by apply deleted_category_shows_no_comment in Hdeleted.
    + apply Hcats in Hget as [Hname Hc_db]. split; [| done].
      apply category_not_deleted_survives; [done |].
      destruct ph_shape as (_ & Hdelcat & _). rewrite Hdelcat, Hdeleting.
      apply not_elem_of_nil.
  - assert (c_name ∈ missing_categories set_iter refetch a_id rubric delete_missing db
                       (deleted_comments ph)) as Hmissing.
    { unfold missing_categories. rewrite set_iter_perm.
      by apply list_elem_of_difference. }
    destruct ph_shape as (_ & _ & Hnewcat & _).
    destruct (Forall2_elem_l _ _ _ _ Hnewcat Hmissing) as (o & Ho & entry & _ & ->).
    destruct (created_category_on_server (created_categories ph)
                (exec_all (deleted_categories ph) (exec_all (deleted_comments ph) db))
                c_name a_id entry.1 None Hops3 Ho) as (c & Hc_new & Hname).
    exists c. split; [| done].
    apply list_elem_of_filter in Hc_new as [Ha Hc_new]. apply list_elem_of_filter.
    split; [done |]. by rewrite categories_after_run, !exec_all_app.
Qed.

(** On a server whose comments have distinct names and ids, a run that
    deletes the missing comments leaves the rubric of the sheet in
    place. *)
Lemma first_run_puts_rubric_in_place :
  delete_missing = true →
  rubric_in_place a_id rubric (exec_all (plan_of ph) db).
Proof.
  intros Hflag. destruct (sheet_rubric_facts rubric) as (_ & _ & _ & Hrc). split_and!.
  - intros n. split.
    + intros Hn. apply dict_get_is_Some in Hn as [m1 Hm1].
      apply dict_get_elem, existing_rubric_observed in Hm1 as [Hobs <-].
      apply dict_get_is_Some. eexists. by apply observed_after_run.
    + intros Hn. apply dict_get_is_Some in Hn as [inf Hinf].
      destruct (named_after_run n inf Hinf) as (m1 & Hobs & Hinfo).
      apply dict_get_elem, Hrc in Hinf. rewrite <- Hinf, <- Hinfo.
      by apply observed_in_existing_rubric.
  - intros c Hc. apply category_after_run in Hc as (cat & Hcat & <-).
    by apply category_in_existing_rubric.
  - intros n m1 Hm1.
    apply dict_get_elem, existing_rubric_observed in Hm1 as [Hobs <-].
    by apply observed_after_run.
Qed.

End first_run.


Lemma demo_db_ids_in_order : ids_in_order demo_db.
Proof.
  split; [apply (bool_decide_unpack _); by vm_compute |].
  intros m Hm. simpl in Hm.
  repeat (apply elem_of_cons in Hm as [->|Hm]; [simpl; lia |]).
  by apply elem_of_nil in Hm.
Qed.

Lemma demo_db_names_distinct : names_distinct 7 demo_db.
Proof.
  intros m m' [Hm _] [Hm' _]. simpl in Hm, Hm'.
  repeat (apply elem_of_cons in Hm as [->|Hm]);
    repeat (apply elem_of_cons in Hm' as [->|Hm']);
    try (by apply elem_of_nil in Hm); try (by apply elem_of_nil in Hm');
    by intros [=].
Qed.


(** * Further properties *)

(** ** The parser, record by record *)

Lemma has_category_names row :
  has_category row → names_category row (category_cell row).
Proof.
  unfold has_category, category_cell, names_category.
  change (header "category") with "Category". unfold dict_get_default.
  destruct (dict_get "Category" row) as [c|]; simpl; [| by intros [? _]].
  intros [? ?]. done.
Qed.

Lemma process_row_skips rubric row :
  ¬ has_category row → process_row rubric row = Ok rubric.
Proof.
  intros Hno. unfold process_row. fold (category_cell row).
  rewrite decide_True; [done |]. unfold has_category in Hno.
  destruct (decide (category_cell row = PyNone)); [by left |].
  destruct (decide (category_cell row = PyStr "")); [by right |]. tauto.
Qed.

(** What a record that names a category does to the rubric. *)
Lemma process_row_inv rubric row rubric' :
  has_category row →
  process_row rubric row = Ok rubric' →
  ∃ cap cs new,
    (dict_get (category_cell row) rubric = Some (cap, cs) ∨
     (dict_get (category_cell row) rubric = None ∧
      max_points_of row = Ok cap ∧ cs = [])) ∧
    ((caption_cell row = PyNone ∧ new = []) ∨
     (caption_cell row ≠ PyNone ∧ ∃ cm, new = [cm] ∧ comment_of row cm)) ∧
    dict_get (category_cell row) rubric' = Some (cap, cs ++ new) ∧
    (∀ c', c' ≠ category_cell row → dict_get c' rubric' = dict_get c' rubric) ∧
    dict_keys rubric' =
      (if decide (category_cell row ∈ dict_keys rubric) then dict_keys rubric
       else dict_keys rubric ++ [category_cell row]).
Proof.
  intros Hcat Hrow. pose proof (has_category_names row Hcat) as Hnames.
  destruct Hcat as [Hn Hb].
  assert (∃ cap cs rubric1,
            (dict_get (category_cell row) rubric = Some (cap, cs) ∧ rubric1 = rubric ∨
             dict_get (category_cell row) rubric = None ∧
             max_points_of row = Ok cap ∧ cs = [] ∧
             rubric1 = dict_set (category_cell row) (cap, []) rubric) ∧
            process_row rubric1 row = Ok rubric') as (cap & cs & rubric1 & Hreg & Hrow1).
  { destruct (dict_get (category_cell row) rubric) as [[cap cs]|] eqn:Hget.
    - exists cap, cs, rubric. split; [by left | done].
    - destruct (max_points_of row) as [cap|e] eqn:Hmax.
      + exists cap, [], (dict_set (category_cell row) (cap, []) rubric).
        split; [by right |].
        by rewrite <- (process_row_registers rubric row (category_cell row) cap).
      + by rewrite (process_row_max_raises rubric row (category_cell row) e) in Hrow. }
  assert (dict_get (category_cell row) rubric1 = Some (cap, cs)) as Hget1.
  { destruct Hreg as [[Hget ->]|(Hget & _ & -> & ->)]; [done |].
    apply dict_get_set_eq. }
  assert (∀ c', c' ≠ category_cell row → dict_get c' rubric1 = dict_get c' rubric) as Hother1.
  { intros c' Hc'. destruct Hreg as [[_ ->]|(_ & _ & _ & ->)]; [done |].
    by apply dict_get_set_ne. }
  assert (dict_keys rubric1 =
            (if decide (category_cell row ∈ dict_keys rubric) then dict_keys rubric
             else dict_keys rubric ++ [category_cell row])) as Hkeys1.
  { destruct Hreg as [[Hget ->]|(Hget & _ & _ & ->)].
    - rewrite decide_True; [done |]. apply dict_get_is_Some. by eexists.
    - apply dict_keys_set_decide. }
  assert (category_cell row ∈ dict_keys rubric1) as Hin1
    by (apply dict_get_is_Some; by eexists).
  exists cap, cs.
  destruct (py_neg (dict_get_default "Points" (PyInt 0) row)) as [pts|e] eqn:Hpts.
  2:{ exfalso. revert Hrow1. unfold_process_row.
      change (dict_get_default "Category" PyNone row) with (category_cell row). rewrite Hpts.
      rewrite decide_False by (intros [?|?]; done).
      unfold dict_mem. by rewrite Hget1. }
  destruct (decide (caption_cell row = PyNone)) as [Hnone|Hcap].
  - exists []. rewrite app_nil_r.
    assert (rubric' = rubric1) as ->.
    { revert Hrow1. unfold_process_row.
      change (dict_get_default "Category" PyNone row) with (category_cell row). rewrite Hpts.
      change (dict_get_default "Grader Caption" PyNone row) with (caption_cell row).
      rewrite Hnone.
      rewrite decide_False by (intros [?|?]; done).
      unfold dict_mem. rewrite Hget1. simpl. by intros [= ->]. }
    split_and!; [| by left | done | done | done].
    destruct Hreg as [[? _]|(? & ? & ? & _)]; [by left | by right].
  - assert (∃ txt, dict_get "Grader Caption" row = Some txt ∧ txt ≠ PyNone) as (txt & Htxt & Htn).
    { revert Hcap. unfold caption_cell. change (header "caption") with "Grader Caption".
      unfold dict_get_default.
      destruct (dict_get "Grader Caption" row) as [txt|]; simpl; [| done]. by exists txt. }
    destruct (py_lower (dict_get_default "Template?" (PyStr "") row)) as [low|e] eqn:Hlow.
    2:{ exfalso. revert Hrow1. unfold_process_row.
        change (dict_get_default "Category" PyNone row) with (category_cell row). rewrite Hpts, Hlow.
        change (dict_get_default "Grader Caption" PyNone row) with (caption_cell row).
        rewrite decide_False by (intros [?|?]; done).
        unfold dict_mem. rewrite Hget1. simpl. by rewrite decide_False. }
    rewrite (process_row_comment rubric1 row (category_cell row) cap cs pts txt low)
      in Hrow1 by done.
    injection Hrow1 as <-.
    eexists [_]. split_and!.
    + destruct Hreg as [[? _]|(? & ? & ? & _)]; [by left | by right].
    + right. split; [done |]. eexists. split; [done |].
      unfold comment_of.
      rewrite (process_row_comment _ row (category_cell row) None [] pts txt low);
        [| done | simpl; by rewrite decide_True | done ..].
      simpl. by rewrite decide_True.
    + apply dict_get_set_eq.
    + intros c' Hc'. rewrite dict_get_set_ne by done. by apply Hother1.
    + rewrite dict_keys_set_decide, decide_True by done. done.
Qed.

Lemma process_rows_skips rubric rows :
  process_rows rubric rows = process_rows rubric (filter has_category rows).
Proof.
  revert rubric. induction rows as [|row rows IH]; intros rubric; [done |].
  destruct (decide (has_category row)) as [Hcat|Hno].
  - rewrite filter_cons_True by done. simpl.
    destruct (process_row rubric row); simpl; [apply IH | done].
  - rewrite filter_cons_False by done. simpl.
    rewrite process_row_skips by done. apply IH.
Qed.

(** X1: records whose Category cell is blank or absent are passed over
    whatever else they hold: the parse gives the same rubric, or raises
    the same exception, as on the worksheet without those records. *)
Theorem records_without_category_are_skipped worksheet :
  get_assignment_rubric worksheet =
  get_assignment_rubric
    {| A1 := A1 worksheet;
       get_records := filter has_category (get_records worksheet) |}.
Proof. unfold get_assignment_rubric. simpl. apply process_rows_skips. Qed.

Lemma process_rows_keys rows :
  ∀ rubric rubric',
    process_rows rubric rows = Ok rubric' →
    dict_keys rubric' =
    foldl (λ acc x, if decide (x ∈ acc) then acc else acc ++ [x])
      (dict_keys rubric) (category_cell <$> filter has_category rows).
Proof.
  induction rows as [|row rows IH]; intros rubric rubric' Hrows.
  - by injection Hrows as <-.
  - simpl in Hrows. destruct (process_row rubric row) as [rubric1|e] eqn:Hrow; [| done].
    simpl in Hrows. destruct (decide (has_category row)) as [Hcat|Hno].
    + rewrite filter_cons_True by done. rewrite fmap_cons. simpl.
      destruct (process_row_inv _ _ _ Hcat Hrow) as (cap & cs & new & _ & _ & _ & _ & Hkeys).
      rewrite <- Hkeys. by apply IH.
    + rewrite filter_cons_False by done.
      rewrite process_row_skips in Hrow by done. injection Hrow as <-. by apply IH.
Qed.

Lemma first_appearances_NoDup {A} `{EqDecision A} (l acc : list A) :
  NoDup acc →
  NoDup (foldl (λ acc x, if decide (x ∈ acc) then acc else acc ++ [x]) acc l).
Proof.
  revert acc. induction l as [|x l IH]; intros acc Hacc; [done |].
  simpl. apply IH. case_decide; [done |].
  apply NoDup_app. split_and!; [done | | apply NoDup_singleton].
  intros y Hy Hyx. apply list_elem_of_singleton in Hyx as ->. done.
Qed.

(** X2: the categories of the rubric are the Category cells of the
    records, each once, in the order in which they first appear in the
    worksheet. *)
Theorem categories_in_order_of_first_appearance worksheet rubric :
  get_assignment_rubric worksheet = Ok rubric →
  NoDup (dict_keys rubric) ∧
  dict_keys rubric =
  first_appearances (category_cell <$> filter has_category (get_records worksheet)).
Proof.
  intros Hparse. apply process_rows_keys in Hparse.
  rewrite Hparse. split; [| done]. apply first_appearances_NoDup, NoDup_nil_2.
Qed.

Lemma categories_in_order_of_first_appearance_witness :
  NoDup (dict_keys mixed_rubric) ∧
  dict_keys mixed_rubric =
  first_appearances (category_cell <$> filter has_category (get_records mixed_worksheet)).
Proof.
  apply (categories_in_order_of_first_appearance mixed_worksheet mixed_rubric).
  reflexivity.
Defined.

(** Once a category is there, later records leave its point cap alone
    and add their comments after those it has. *)
Lemma process_rows_registered rows :
  ∀ rubric rubric' c cap cs,
    c ≠ PyNone → c ≠ PyStr "" →
    dict_get c rubric = Some (cap, cs) →
    process_rows rubric rows = Ok rubric' →
    ∃ cs', dict_get c rubric' = Some (cap, cs ++ cs') ∧
           Forall2 comment_of (filter (gives_comment_to c) rows) cs'.
Proof.
  induction rows as [|row rows IH]; intros rubric rubric' c cap cs Hn Hb Hget Hrows.
  - injection Hrows as <-. exists []. rewrite app_nil_r. split; [done | constructor].
  - simpl in Hrows. destruct (process_row rubric row) as [rubric1|e] eqn:Hrow; [| done].
    simpl in Hrows. destruct (decide (has_category row)) as [Hcat|Hno].
    + destruct (process_row_inv _ _ _ Hcat Hrow)
        as (cap1 & cs1 & new & Hreg & Hnew & Hget1 & Hother & _).
      destruct (decide (category_cell row = c)) as [Hc|Hc].
      * subst c. destruct Hreg as [Hreg|[Hreg _]]; [| congruence].
        rewrite Hget in Hreg. injection Hreg as <- <-.
        destruct (IH _ _ _ _ _ Hn Hb Hget1 Hrows) as (cs' & Hget' & Hcs').
        exists (new ++ cs'). rewrite app_assoc. split; [done |].
        destruct Hnew as [[Hcap ->]|(Hcap & cm & -> & Hcm)].
        -- rewrite filter_cons_False; [done |]. intros [_ ?]. done.
        -- rewrite filter_cons_True by done. by constructor.
      * rewrite filter_cons_False by (intros [? _]; done).
        apply (IH rubric1); [done | done | | done]. rewrite Hother by done. done.
    + rewrite process_row_skips in Hrow by done. injection Hrow as <-.
      rewrite filter_cons_False; [by eapply IH |].
      intros [Hc _]. apply Hno. unfold has_category. by rewrite Hc.
Qed.

(** A category that is not there yet is started by the first record that
    names it. *)
Lemma process_rows_fresh rows :
  ∀ rubric rubric' c cap cs,
    dict_get c rubric = None →
    process_rows rubric rows = Ok rubric' →
    dict_get c rubric' = Some (cap, cs) →
    ∃ before row after,
      rows = before ++ row :: after ∧
      Forall (λ r, category_cell r ≠ c) before ∧
      has_category row ∧
      category_cell row = c ∧
      max_points_of row = Ok cap ∧
      Forall2 comment_of (filter (gives_comment_to c) rows) cs.
Proof.
  induction rows as [|row rows IH]; intros rubric rubric' c cap cs Hfresh Hrows Hget.
  - injection Hrows as <-. congruence.
  - simpl in Hrows. destruct (process_row rubric row) as [rubric1|e] eqn:Hrow; [| done].
    simpl in Hrows.
    assert (category_cell row ≠ c →
            dict_get c rubric1 = None →
            ∃ before row0 after,
              row :: rows = before ++ row0 :: after ∧
              Forall (λ r, category_cell r ≠ c) before ∧
              has_category row0 ∧
              category_cell row0 = c ∧
              max_points_of row0 = Ok cap ∧
              Forall2 comment_of (filter (gives_comment_to c) (row :: rows)) cs) as Hlater.
    { intros Hc Hfresh1.
      destruct (IH _ _ _ _ _ Hfresh1 Hrows Hget)
        as (before & row0 & after & -> & Hbefore & Hcat0 & Hrow0 & Hmax & Hcs).
      exists (row :: before), row0, after.
      split_and!; [done | by constructor | done | done | done |].
      rewrite filter_cons_False; [done |]. intros [? _]. done. }
    destruct (decide (has_category row)) as [Hcat|Hno].
    + destruct (process_row_inv _ _ _ Hcat Hrow)
        as (cap1 & cs1 & new & Hreg & Hnew & Hget1 & Hother & _).
      destruct (decide (category_cell row = c)) as [Hc|Hc].
      * subst c. destruct Hreg as [Hreg|(_ & Hmax & ->)]; [congruence |].
        pose proof Hcat as [Hn Hb].
        destruct (process_rows_registered rows _ _ _ _ _ Hn Hb Hget1 Hrows)
          as (cs' & Hget' & Hcs').
        rewrite Hget in Hget'. injection Hget' as <- ->.
        exists [], row, rows. split_and!; [done | constructor | done | done | done |].
        destruct Hnew as [[Hcap ->]|(Hcap & cm & -> & Hcm)].
        -- rewrite filter_cons_False; [done |]. intros [_ ?]. done.
        -- rewrite filter_cons_True by done. by constructor.
      * apply Hlater; [done |]. by rewrite Hother.
    + rewrite process_row_skips in Hrow by done. injection Hrow as <-.
      destruct (decide (category_cell row = c)) as [Hc|Hc]; [| by apply Hlater].
      exfalso. destruct (IH _ _ _ _ _ Hfresh Hrows Hget)
        as (before & row0 & after & _ & _ & Hcat0 & Hrow0 & _).
      apply Hno. unfold has_category in *. by rewrite Hc, <- Hrow0.
Qed.

(** X3: in the rubric of a worksheet, the point cap of a category is the
    one read from the first record that names the category, and its
    comments are those of the records that name it and have a caption, in
    the order of the worksheet, each as the record gives it on its own. *)
Theorem category_of_the_rubric worksheet rubric c cap cs :
  get_assignment_rubric worksheet = Ok rubric →
  dict_get c rubric = Some (cap, cs) →
  (∃ before row after,
     get_records worksheet = before ++ row :: after ∧
     Forall (λ r, category_cell r ≠ c) before ∧
     category_cell row = c ∧
     max_points_of row = Ok cap) ∧
  Forall2 comment_of (filter (gives_comment_to c) (get_records worksheet)) cs.
Proof.
  intros Hparse Hget.
  destruct (process_rows_fresh (get_records worksheet) [] rubric c cap cs eq_refl Hparse Hget)
    as (before & row & after & Hrec & Hbefore & _ & Hrow & Hmax & Hcs).
  split; [| done]. by exists before, row, after.
Qed.

Lemma category_of_the_rubric_witness :
  (∃ before row after,
     get_records mixed_worksheet = before ++ row :: after ∧
     Forall (λ r, category_cell r ≠ PyStr "Style") before ∧
     category_cell row = PyStr "Style" ∧
     max_points_of row = Ok (Some (-10)%Z)) ∧
  Forall2 comment_of
    (filter (gives_comment_to (PyStr "Style")) (get_records mixed_worksheet))
    [comment "indent" (PyStr "a") (PyInt (-1)); comment "naming" (PyStr "d") (PyInt (-4))].
Proof.
  apply (category_of_the_rubric mixed_worksheet mixed_rubric); reflexivity.
Defined.

(** ** When the parser raises *)

Ltac settle_succeeds :=
  unfold succeeds;
  repeat match goal with
  | H : ∃ _, Raise _ = Ok _ |- _ => by destruct H
  | |- ∃ _, Ok _ = Ok _ => by eexists
  | |- _ ↔ _ => split
  | |- _ ∧ _ => split
  | |- _ → _ => intro
  | H : _ ∧ _ |- _ => destruct H
  | H : ?P → (∃ _, Raise _ = Ok _), H' : ?P |- _ => by destruct (H H')
  | H : None = None → _ |- _ => specialize (H eq_refl)
  | _ => done
  end.

Lemma process_row_succeeds rubric row :
  has_category row →
  succeeds (process_row rubric row) ↔
  cells_parse row ∧
  (dict_get (category_cell row) rubric = None → succeeds (max_points_of row)).
Proof.
  intros [Hn Hb]. unfold cells_parse, points_cell, caption_cell, template_cell.
  unfold_process_row.
  change (dict_get_default "Category" PyNone row) with (category_cell row).
  rewrite decide_False by (intros [?|?]; done).
  unfold dict_mem, dict_index.
  destruct (dict_get (category_cell row) rubric) as [entry|] eqn:Hget; simpl.
  - destruct (py_neg (dict_get_default "Points" (PyInt 0) row)) as [pts|e]; simpl;
      [| settle_succeeds].
    destruct (decide (dict_get_default "Grader Caption" PyNone row = PyNone)) as [Hcap|Hcap];
      [settle_succeeds |].
    destruct (py_lower (dict_get_default "Template?" (PyStr "") row)) as [low|e]; simpl;
      [| settle_succeeds].
    rewrite Hget. simpl. settle_succeeds.
  - destruct (max_points_of row) as [cap|e]; simpl; [| settle_succeeds].
    destruct (py_neg (dict_get_default "Points" (PyInt 0) row)) as [pts|e]; simpl;
      [| settle_succeeds].
    destruct (decide (dict_get_default "Grader Caption" PyNone row = PyNone)) as [Hcap|Hcap];
      [settle_succeeds |].
    destruct (py_lower (dict_get_default "Template?" (PyStr "") row)) as [low|e]; simpl;
      [| settle_succeeds].
    rewrite dict_get_set_eq. simpl. settle_succeeds.
Qed.

(** A record leaves a category that it does not name as it finds it. *)
Lemma process_row_other rubric row rubric' c :
  process_row rubric row = Ok rubric' →
  category_cell row ≠ c →
  dict_get c rubric' = dict_get c rubric.
Proof.
  intros Hrow Hc. destruct (decide (has_category row)) as [Hcat|Hno].
  - destruct (process_row_inv _ _ _ Hcat Hrow) as (? & ? & ? & _ & _ & _ & Hother & _).
    by apply Hother.
  - rewrite process_row_skips in Hrow by done. by injection Hrow as <-.
Qed.

Lemma process_rows_succeeds rows :
  ∀ rubric,
    succeeds (process_rows rubric rows) ↔
    ∀ before row after,
      rows = before ++ row :: after →
      has_category row →
      cells_parse row ∧
      (dict_get (category_cell row) rubric = None →
       Forall (λ r, category_cell r ≠ category_cell row) before →
       succeeds (max_points_of row)).
Proof.
  induction rows as [|row0 rows IH]; intros rubric.
  - split; [| by eexists]. intros _ before row after Heq. by destruct before.
  - simpl. split.
    + intros [rubric' Hrows].
      destruct (process_row rubric row0) as [rubric1|e] eqn:Hrow0; [| done].
      simpl in Hrows. intros before row after Heq Hcat.
      destruct before as [|r before]; simpl in Heq; injection Heq as <- Heq.
      * assert (succeeds (process_row rubric row0)) as Hok by (by eexists).
        apply process_row_succeeds in Hok as [Hcells Hmax]; [| done].
        split; [done |]. intros Hfresh _. by apply Hmax.
      * assert (succeeds (process_rows rubric1 rows)) as Hok by (by eexists).
        destruct (proj1 (IH rubric1) Hok before row after Heq Hcat) as [Hcells Hmax].
        split; [done |]. intros Hfresh Hbefore.
        apply Forall_cons in Hbefore as [Hrow0_c Hbefore].
        apply Hmax; [| done].
        by rewrite (process_row_other _ _ _ _ Hrow0).
    + intros Hall.
      assert (succeeds (process_row rubric row0)) as [rubric1 Hrow0].
      { destruct (decide (has_category row0)) as [Hcat|Hno].
        - apply process_row_succeeds; [done |].
          destruct (Hall [] row0 rows eq_refl Hcat) as [Hcells Hmax].
          split; [done |]. intros Hfresh. apply Hmax; [done | constructor].
        - rewrite process_row_skips by done. by eexists. }
      rewrite Hrow0. simpl. apply IH. intros before row after -> Hcat.
      destruct (Hall (row0 :: before) row after eq_refl Hcat) as [Hcells Hmax].
      split; [done |]. intros Hfresh Hbefore.
      assert (category_cell row0 ≠ category_cell row) as Hne.
      { intros Heq.
        assert (has_category row0) as Hcat0 by (unfold has_category in *; by rewrite Heq).
        destruct (process_row_inv _ _ _ Hcat0 Hrow0) as (? & ? & ? & _ & _ & Hget & _).
        rewrite Heq in Hget. congruence. }
      apply Hmax; [| by constructor].
      by rewrite <- (process_row_other _ _ _ _ Hrow0).
Qed.


Lemma process_row_template_raises rubric row c txt z :
  names_category row c → cells_are_values row →
  is_Some (dict_get c rubric) →
  dict_get "Grader Caption" row = Some txt →
  dict_get "Template?" row = Some (PyInt z) →
  process_row rubric row = Raise AttributeError.
Proof.
  intros Hcat Hcells [entry Hreg] Htxt Htemplate. pose proof Hcat as (_ & Hn & Hb).
  apply names_category_default in Hcat.
  assert (dict_get_default "Grader Caption" PyNone row = txt) as Hcap
    by (unfold dict_get_default; by rewrite Htxt).
  assert (txt ≠ PyNone) as Htn by (intros ->; by apply Hcells in Htxt).
  assert (dict_get_default "Template?" (PyStr "") row = PyInt z) as Htpl
    by (unfold dict_get_default; by rewrite Htemplate).
  destruct (points_cell_never_raises row Hcells) as [pts Hpts].
  unfold_process_row.
  rewrite !Hcat, Hpts, !Hcap, Htpl. rewrite decide_False by (intros [?|?]; done).
  unfold dict_mem. rewrite Hreg. simpl. by rewrite decide_False.
Qed.

(** X5: a record with a caption whose Template? cell holds a number makes
    the parse raise [AttributeError]: [get_records] hands a cell that
    reads as a whole number over as an [int], which has no [lower]. *)
Theorem numeric_template_cell_raises worksheet rows row rows' rubric c txt z :
  get_records worksheet = rows ++ row :: rows' →
  process_rows [] rows = Ok rubric →
  names_category row c → cells_are_values row →
  is_Some (dict_get c rubric) ∨ succeeds (max_points_of row) →
  dict_get "Grader Caption" row = Some txt →
  dict_get "Template?" row = Some (PyInt z) →
  get_assignment_rubric worksheet = Raise AttributeError.
Proof.
  intros Hrec Hrows Hcat Hcells Hreg Htxt Htemplate.
  unfold get_assignment_rubric. rewrite Hrec, process_rows_app, Hrows. simpl.
  assert (process_row rubric row = Raise AttributeError) as ->; [| done].
  destruct (dict_get c rubric) as [entry|] eqn:Hget.
  - eapply process_row_template_raises; [done | done | | done | done].
    rewrite Hget. by eexists.
  - destruct Hreg as [[? ?]|[cap Hmax]]; [done |].
    rewrite (process_row_registers rubric row c cap) by done.
    eapply process_row_template_raises; [done | done | | done | done].
    rewrite dict_get_set_eq. by eexists.
Qed.

Lemma numeric_template_cell_raises_witness :
  get_assignment_rubric
    {| A1 := PyStr "7";
       get_records := [[("Category", PyStr "Style"); ("Max", PyInt 10);
                        ("Name", PyStr "indent"); ("Points", PyInt 1);
                        ("Grader Caption", PyStr "a"); ("Template?", PyInt 1)]] |}
  = Raise AttributeError.
Proof.
  apply (numeric_template_cell_raises _ []
           [("Category", PyStr "Style"); ("Max", PyInt 10);
            ("Name", PyStr "indent"); ("Points", PyInt 1);
            ("Grader Caption", PyStr "a"); ("Template?", PyInt 1)] []
           [] (PyStr "Style") (PyStr "a") 1).
  - reflexivity.
  - reflexivity.
  - split_and!; [reflexivity | discriminate | discriminate].
  - intros h. simpl. repeat case_decide; discriminate.
  - right. by exists (Some (-10)%Z).
  - reflexivity.
  - reflexivity.
Defined.

(** X6: a record that is the first to name its category and has no Max
    key at all makes the parse raise [TypeError]: line 82 calls [int] on
    the default [None]. *)
Theorem missing_max_key_raises worksheet rows row rows' rubric c :
  get_records worksheet = rows ++ row :: rows' →
  process_rows [] rows = Ok rubric →
  names_category row c →
  dict_get c rubric = None →
  dict_get "Max" row = None →
  get_assignment_rubric worksheet = Raise TypeError.
Proof.
  intros Hrec Hrows Hcat Hfresh Hmax.
  unfold get_assignment_rubric. rewrite Hrec, process_rows_app, Hrows. simpl.
  rewrite (process_row_max_raises rubric row c TypeError); [done .. |].
  unfold max_points_of. change (header "max points") with "Max".
  unfold dict_get_default. by rewrite Hmax.
Qed.

Lemma missing_max_key_raises_witness :
  get_assignment_rubric
    {| A1 := PyStr "7";
       get_records := [[("Category", PyStr "Style"); ("Name", PyStr "indent");
                        ("Points", PyInt 5); ("Grader Caption", PyStr "a")]] |} =
  Raise TypeError.
Proof.
  apply (missing_max_key_raises _ []
           [("Category", PyStr "Style"); ("Name", PyStr "indent");
            ("Points", PyInt 5); ("Grader Caption", PyStr "a")] [] [] (PyStr "Style")).
  - reflexivity.
  - reflexivity.
  - split_and!; [reflexivity | discriminate | discriminate].
  - reflexivity.
  - reflexivity.
Defined.

(** ** The scan of the worksheets *)

Lemma get_assignment_rubric_records worksheet worksheet' :
  get_records worksheet' = get_records worksheet →
  get_assignment_rubric worksheet' = get_assignment_rubric worksheet.
Proof. unfold get_assignment_rubric. by intros ->. Qed.

Lemma scan_worksheets_ext sheet sheet' indices :
  ∀ a_ids data,
    (∀ i, i ∈ indices → A1 (sheet' i) = A1 (sheet i)) →
    (∀ i a, a ∈ a_ids → first_with_id sheet indices a i →
            get_records (sheet' i) = get_records (sheet i)) →
    scan_worksheets sheet' indices a_ids data = scan_worksheets sheet indices a_ids data.
Proof.
  induction indices as [|index indices IH]; intros a_ids data HA1 Hrec; [done |].
  simpl. rewrite (HA1 index) by apply list_elem_of_here.
  assert (∀ i, i ∈ indices → A1 (sheet' i) = A1 (sheet i)) as HA1'
    by (intros i Hi; by apply HA1, list_elem_of_further).
  destruct (py_int (A1 (sheet index))) as [a_id|e] eqn:Hint.
  - destruct (decide (a_id ∉ a_ids)) as [Hout|Hin].
    + apply IH; [done |]. intros i a Ha Hi. apply (Hrec i a Ha).
      apply first_with_id_later; [| done]. rewrite Hint. intros [= ->]. done.
    + apply dec_stable in Hin.
      rewrite (get_assignment_rubric_records (sheet index) (sheet' index)).
      2:{ apply (Hrec index a_id Hin). by apply first_with_id_here. }
      destruct (get_assignment_rubric (sheet index)) as [rubric|e]; simpl; [| done].
      apply IH; [done |]. intros i a Ha Hi.
      apply list_elem_of_filter in Ha as [Hne Ha]. apply (Hrec i a Ha).
      apply first_with_id_later; [| done]. rewrite Hint. intros [= ->]. done.
  - destruct e; try done. apply IH; [done |]. intros i a Ha Hi. apply (Hrec i a Ha).
    apply first_with_id_later; [| done]. by rewrite Hint.
Qed.

(** X7: only the worksheets from which a rubric is taken are parsed.  The
    records of a worksheet whose A1 cell is not the id of an assignment of
    the course, or repeats an id found on an earlier worksheet, are never
    read: whatever they hold, the result is the same. *)
Theorem other_worksheets_are_not_parsed course_assignments sheet sheet'
    start_sheet end_sheet :
  (∀ i, A1 (sheet' i) = A1 (sheet i)) →
  (∀ i a, a ∈ course_assignments →
          first_with_id sheet
            (seqZ start_sheet (default start_sheet end_sheet + 1 - start_sheet)) a i →
          get_records (sheet' i) = get_records (sheet i)) →
  get_all_rubric_comments course_assignments sheet' start_sheet end_sheet =
  get_all_rubric_comments course_assignments sheet start_sheet end_sheet.
Proof.
  intros HA1 Hrec. unfold get_all_rubric_comments. cbv zeta.
  apply scan_worksheets_ext; [intros i _; apply HA1 |].
  intros i a Ha. apply Hrec. by rewrite elem_of_remove_dups in Ha.
Qed.

Lemma demo_sheet_changed_A1 i : A1 (demo_sheet_changed i) = A1 (demo_sheet i).
Proof.
  unfold demo_sheet_changed. destruct (decide (i = 2%Z)) as [->|H2]; [done |].
  by destruct (decide (i = 3%Z)) as [->|H3].
Qed.

Lemma demo_sheet_changed_records i a :
  first_with_id demo_sheet (seqZ 1 4) a i →
  get_records (demo_sheet_changed i) = get_records (demo_sheet i).
Proof.
  intros (before & after & Heq & Hi & Hbefore).
  unfold demo_sheet_changed. destruct (decide (i = 2%Z)) as [->|H2]; [done |].
  destruct (decide (i = 3%Z)) as [->|H3]; [| done].
  exfalso. injection Hi as <-. apply (Hbefore 1%Z); [| reflexivity].
  change (seqZ 1 4) with [1%Z; 2%Z; 3%Z; 4%Z] in Heq.
  destruct before as [|j1 before]; [done |]. injection Heq as <- Heq.
  apply list_elem_of_here.
Qed.

Lemma other_worksheets_are_not_parsed_witness :
  get_all_rubric_comments [7%Z; 8%Z] demo_sheet_changed 1 (Some 4%Z) =
  get_all_rubric_comments [7%Z; 8%Z] demo_sheet 1 (Some 4%Z).
Proof.
  apply (other_worksheets_are_not_parsed [7%Z; 8%Z] demo_sheet demo_sheet_changed 1 (Some 4%Z)).
  - apply demo_sheet_changed_A1.
  - intros i a _. apply demo_sheet_changed_records.
Defined.

Lemma seqZ_one s : seqZ s (s + 1 - s) = [s].
Proof. replace (s + 1 - s)%Z with 1%Z by lia. unfold seqZ. simpl. f_equal; lia. Qed.

(** X8: when [end_sheet] is left out, the worksheet at [start_sheet] is
    the only one read, so that the result holds one assignment at most:
    the one whose id that worksheet bears in A1, if it is an assignment of
    the course. *)
Theorem default_end_sheet_reads_one_worksheet course_assignments sheet start_sheet :
  (∀ sheet', sheet' start_sheet = sheet start_sheet →
             get_all_rubric_comments course_assignments sheet' start_sheet None =
             get_all_rubric_comments course_assignments sheet start_sheet None) ∧
  (∀ data, get_all_rubric_comments course_assignments sheet start_sheet None = Ok data →
           data = [] ∨
           ∃ a_id rubric, py_int (A1 (sheet start_sheet)) = Ok a_id ∧
                          a_id ∈ course_assignments ∧
                          get_assignment_rubric (sheet start_sheet) = Ok rubric ∧
                          data = [(a_id, rubric)]).
Proof.
  unfold get_all_rubric_comments. simpl. rewrite seqZ_one. simpl. split.
  - by intros sheet' ->.
  - intros data.
    destruct (py_int (A1 (sheet start_sheet))) as [a_id|e];
      [| destruct e; intros Hd; [injection Hd as <-; by left | done ..]].
    destruct (decide (a_id ∉ remove_dups course_assignments)) as [Hout|Hin];
      [simpl; intros [= <-]; by left |].
    apply dec_stable in Hin. rewrite elem_of_remove_dups in Hin.
    destruct (get_assignment_rubric (sheet start_sheet)) as [rubric|e]; simpl; [| done].
    intros [= <-]. right. exists a_id, rubric. by split_and!.
Qed.

Lemma scan_worksheets_succeeds sheet indices :
  ∀ a_ids data,
    succeeds (scan_worksheets sheet indices a_ids data) ↔
    (∀ i, i ∈ indices → A1 (sheet i) ≠ PyNone) ∧
    (∀ a i, a ∈ a_ids → first_with_id sheet indices a i →
            succeeds (get_assignment_rubric (sheet i))).
Proof.
  induction indices as [|index indices IH]; intros a_ids data.
  - split; [| by eexists]. intros _. split.
    + intros i Hi. by apply elem_of_nil in Hi.
    + intros a i _ Hi. by apply first_with_id_nil in Hi.
  - simpl.
    assert (∀ a_ids' data',
              A1 (sheet index) ≠ PyNone →
              (∀ a, a ∈ a_ids' ↔ a ∈ a_ids ∧ py_int (A1 (sheet index)) ≠ Ok a) →
              (∀ a, a ∈ a_ids → py_int (A1 (sheet index)) = Ok a →
                    succeeds (get_assignment_rubric (sheet index))) →
              succeeds (scan_worksheets sheet indices a_ids' data') ↔
              (∀ i, i ∈ index :: indices → A1 (sheet i) ≠ PyNone) ∧
              (∀ a i, a ∈ a_ids → first_with_id sheet (index :: indices) a i →
                      succeeds (get_assignment_rubric (sheet i)))) as Hrest.
    { intros a_ids' data' Hnone Hids Hhere. rewrite IH. split.
      - intros [HA1 Hparse]. split.
        + intros i Hi. apply elem_of_cons in Hi as [->|Hi]; [done | by apply HA1].
        + intros a i Ha Hi.
          assert (py_int (A1 (sheet index)) = Ok a ∨ py_int (A1 (sheet index)) ≠ Ok a)
            as [Heq|Hne].
          { destruct (py_int (A1 (sheet index))) as [a0|e]; [| by right].
            destruct (decide (a0 = a)) as [->|?]; [by left | right; congruence]. }
          * apply first_with_id_here in Hi as ->; [| done]. by apply (Hhere a).
          * apply first_with_id_later in Hi; [| done]. apply (Hparse a); [| done].
            by apply Hids.
      - intros [HA1 Hparse]. split.
        + intros i Hi. by apply HA1, list_elem_of_further.
        + intros a i Ha Hi. apply Hids in Ha as [Ha Hne]. apply (Hparse a); [done |].
          by apply first_with_id_later. }
    assert (A1 (sheet index) = PyNone → py_int (A1 (sheet index)) = Raise TypeError)
      as Hnone by (by intros ->).
    destruct (py_int (A1 (sheet index))) as [a_id|e] eqn:Hint.
    + destruct (decide (a_id ∉ a_ids)) as [Hout|Hin].
      * apply Hrest; [by intros ?%Hnone | |].
        -- intros a. split; [| tauto]. intros Ha. split; [done |]. intros [= ->]. done.
        -- intros a Ha [= ->]. done.
      * apply dec_stable in Hin.
        destruct (get_assignment_rubric (sheet index)) as [rubric|e] eqn:Hparse; simpl.
        -- apply Hrest; [by intros ?%Hnone | |].
           ++ intros a. rewrite list_elem_of_filter. split.
              ** intros [Hne Ha]. split; [done |]. intros [= ->]. done.
              ** intros [Ha Hne]. split; [| done]. intros ->. done.
           ++ intros a _ _. by eexists.
        -- split; [by intros [? ?] |]. intros [_ Hall].
           destruct (Hall a_id index Hin) as [? ?]; [| congruence].
           by apply first_with_id_here.
    + destruct e.
      * apply Hrest; [by intros ?%Hnone | |].
        -- intros a. split; [| tauto]. intros Ha. split; done.
        -- intros a Ha [=].
      * split; [by intros [? ?] |]. intros [HA1 _]. exfalso.
        apply (HA1 index); [apply list_elem_of_here |].
        destruct (A1 (sheet index)) as [|s|z]; [done | |]; simpl in Hint; [| done].
        by destruct (int_of_string s).
      * exfalso. destruct (A1 (sheet index)) as [|s|z]; simpl in Hint; [done | | done].
        by destruct (int_of_string s).
      * exfalso. destruct (A1 (sheet index)) as [|s|z]; simpl in Hint; [done | | done].
        by destruct (int_of_string s).
Qed.


(** ** The engine: what a run does and what it leaves alone *)

Lemma guard_refuses set_iter refetch a_id rubric override_rubric delete_missing db :
  bool_decide (0 < length (list_submissions a_id db)) && negb override_rubric = true →
  create_assignment_rubric set_iter refetch a_id rubric override_rubric delete_missing db
  = (Ok tt, db, []).
Proof.
  intros Hguard. unfold create_assignment_rubric, mbind, M_bind, fetch.
  by rewrite Hguard.
Qed.

Lemma guard_lets_through a_id override_rubric db :
  bool_decide (0 < length (list_submissions a_id db)) && negb override_rubric = false →
  proceeds a_id override_rubric db.
Proof.
  intros Hguard. apply andb_false_iff in Hguard as [Hlen|Hflag].
  - left. apply bool_decide_eq_false in Hlen. lia.
  - right. by apply negb_false_iff.
Qed.

(** Every run is either refused, with no call, or goes through the five
    loops. *)
Lemma create_assignment_rubric_cases set_iter refetch a_id rubric
    override_rubric delete_missing db :
  (∀ l, set_iter l ≡ₚ l) →
  create_assignment_rubric set_iter refetch a_id rubric override_rubric delete_missing db
    = (Ok tt, db, []) ∨
  ∃ ph, plan_shape set_iter refetch a_id rubric delete_missing db ph ∧
        runs (create_assignment_rubric set_iter refetch a_id rubric
                override_rubric delete_missing) db tt (plan_of ph).
Proof.
  intros Hperm.
  destruct (bool_decide (0 < length (list_submissions a_id db)) && negb override_rubric)
    eqn:Hguard.
  - left. by apply guard_refuses.
  - right. apply create_assignment_rubric_runs; [done |]. by apply guard_lets_through.
Qed.

(** X10: [create_assignment_rubric] never raises.  The dictionary lookups
    of lines 307, 337, 353 and 360 always find their key, whatever the
    server holds and whatever the sheet lists. *)
Theorem create_assignment_rubric_never_raises set_iter refetch a_id rubric
    override_rubric delete_missing db :
  (∀ l, set_iter l ≡ₚ l) →
  (create_assignment_rubric set_iter refetch a_id rubric
     override_rubric delete_missing db).1.1 = Ok tt.
Proof.
  intros Hperm.
  destruct (create_assignment_rubric_cases set_iter refetch a_id rubric
              override_rubric delete_missing db Hperm) as [Hrun|(ph & _ & Hrun)].
  - by rewrite Hrun.
  - unfold runs in Hrun. by rewrite Hrun.
Qed.

Lemma create_assignment_rubric_never_raises_witness :
  (create_assignment_rubric (λ l, l) false 7 moved_rubric false true demo_db).1.1 = Ok tt.
Proof.
  apply (create_assignment_rubric_never_raises (λ l, l) false 7 moved_rubric false true demo_db).
  intros l. reflexivity.
Defined.

(** X11: without [delete_missing] the engine makes no deletion at all,
    neither of a comment nor of a category. *)
Theorem no_deletion_without_delete_missing set_iter refetch a_id rubric override_rubric db :
  (∀ l, set_iter l ≡ₚ l) →
  Forall (λ o, is_comment_delete o = false ∧ is_category_delete o = false)
    (create_assignment_rubric set_iter refetch a_id rubric override_rubric false db).2.
Proof.
  intros Hperm.
  destruct (create_assignment_rubric_cases set_iter refetch a_id rubric
              override_rubric false db Hperm) as [Hrun|(ph & Hshape & Hrun)].
  - rewrite Hrun. constructor.
  - unfold runs in Hrun. rewrite Hrun. simpl.
    pose proof (plan_shape_ops _ _ _ _ _ _ _ Hshape) as (_ & _ & Hops3 & Hops4 & Hops5).
    destruct Hshape as (Hdel & Hdelcat & _).
    unfold deleting in Hdel, Hdelcat. rewrite andb_false_r in Hdel, Hdelcat.
    unfold plan_of. rewrite Hdel, Hdelcat. simpl. rewrite !Forall_app. split_and!.
    + eapply Forall_impl; [apply Hops3 |]. by intros o (? & ? & ? & ? & ->).
    + eapply Forall_impl; [apply Hops4 |]. by intros o (? & ? & ->).
    + eapply Forall_impl; [apply Hops5 |]. by intros o (? & ? & ->).
Qed.

Lemma no_deletion_without_delete_missing_witness :
  Forall (λ o, is_comment_delete o = false ∧ is_category_delete o = false)
    (create_assignment_rubric (λ l, l) true 7 demo_rubric false false demo_db).2.
Proof.
  apply (no_deletion_without_delete_missing (λ l, l) true 7 demo_rubric false demo_db).
  intros l. reflexivity.
Defined.

(** The categories the engine keeps under their names after line 328 are
    those it found and did not delete. *)
Lemma kept_category_iff set_iter refetch a_id rubric delete_missing db ph c :
  plan_shape set_iter refetch a_id rubric delete_missing db ph →
  c ∈ dict_keys (kept_categories set_iter refetch a_id rubric delete_missing db
                   (deleted_comments ph)) ↔
  ∃ cat, dict_get c (existing_rubric a_id db).2 = Some cat ∧
         category_delete (cat_id cat) ∉ deleted_categories ph.
Proof.
  intros Hshape. destruct (existing_rubric_facts a_id db) as (_ & Hnd & _ & _).
  destruct Hshape as (_ & Hdelcat & _). rewrite Hdelcat. unfold kept_categories.
  destruct (deleting set_iter a_id rubric delete_missing db).
  - split.
    + intros Hc. apply list_elem_of_fmap in Hc as ([c0 cat] & -> & Hin).
      apply list_elem_of_filter in Hin as [Hshows Hin]. simpl in *.
      exists cat. split; [by apply dict_elem_get |].
      intros Hdeleted. apply list_elem_of_fmap in Hdeleted as (cat' & [= Hid] & Hcat').
      apply list_elem_of_filter in Hcat' as [Hempty _].
      by rewrite (rubricComments_same_id _ cat cat') in Hshows.
    + intros (cat & Hget & Hkept). apply list_elem_of_fmap. exists (c, cat).
      split; [done |]. apply list_elem_of_filter. split; [| by apply dict_get_elem].
      simpl. intros Hempty. apply Hkept. apply list_elem_of_fmap. exists cat.
      split; [done |]. apply list_elem_of_filter. split; [done |].
      apply list_elem_of_fmap. exists (c, cat). split; [done | by apply dict_get_elem].
  - rewrite <- dict_get_is_Some. split.
    + intros [cat Hget]. exists cat. split; [done | apply not_elem_of_nil].
    + intros (cat & Hget & _). by exists cat.
Qed.

(** X12: a category of the sheet is created exactly if the assignment has
    no category of that name, or the one the engine holds under that name
    is deleted in this run; it is created for this assignment, with the
    point cap of the sheet and without a sort key. *)
Theorem category_created_iff set_iter refetch a_id rubric override_rubric
    delete_missing db c a' pl sk :
  (∀ l, set_iter l ≡ₚ l) →
  proceeds a_id override_rubric db →
  rubric_category_create c a' pl sk ∈
    (create_assignment_rubric set_iter refetch a_id rubric
       override_rubric delete_missing db).2 ↔
  a' = a_id ∧ sk = None ∧
  (∃ cs, dict_get c rubric = Some (pl, cs)) ∧
  (∀ cat, dict_get c (existing_rubric a_id db).2 = Some cat →
          category_delete (cat_id cat) ∈
            (create_assignment_rubric set_iter refetch a_id rubric
               override_rubric delete_missing db).2).
Proof.
  intros Hperm Hgo.
  destruct (create_assignment_rubric_runs set_iter refetch Hperm a_id rubric
              override_rubric delete_missing db Hgo) as (ph & Hshape & Hrun).
  unfold runs in Hrun. rewrite Hrun. simpl.
  pose proof (plan_shape_ops _ _ _ _ _ _ _ Hshape) as (Hops1 & Hops2 & Hops3 & Hops4 & Hops5).
  pose proof (kept_category_iff _ _ _ _ _ _ _ c Hshape) as Hkept.
  assert (rubric_category_create c a' pl sk ∈ plan_of ph ↔
          rubric_category_create c a' pl sk ∈ created_categories ph) as ->.
  { unfold plan_of. rewrite !elem_of_app. split; [| tauto].
    rewrite Forall_forall in Hops1, Hops2, Hops4, Hops5.
    intros [Hin|[Hin|[Hin|[Hin|Hin]]]]; [| | done | |].
    - by apply Hops1 in Hin as [? ?].
    - by apply Hops2 in Hin as [? ?].
    - by apply Hops4 in Hin as (? & ? & ?).
    - by apply Hops5 in Hin as (? & ? & ?). }
  assert (∀ cat, category_delete (cat_id cat) ∈ plan_of ph ↔
                 category_delete (cat_id cat) ∈ deleted_categories ph) as Hdeleted
    by (intros cat; by eapply category_delete_in_plan).
  assert (c ∈ missing_categories set_iter refetch a_id rubric delete_missing db
                (deleted_comments ph) ↔
          c ∈ dict_keys rubric ∧
          ∀ cat, dict_get c (existing_rubric a_id db).2 = Some cat →
                 category_delete (cat_id cat) ∈ plan_of ph) as Hmissing.
  { unfold missing_categories. rewrite Hperm, list_elem_of_difference, Hkept.
    split; intros [Hc Hno]; (split; [done |]).
    - intros cat Hget. apply Hdeleted.
      destruct (decide (category_delete (cat_id cat) ∈ deleted_categories ph)); [done |].
      exfalso. apply Hno. by exists cat.
    - intros (cat & Hget & Hout). by apply Hout, Hdeleted, Hno. }
  destruct Hshape as (_ & _ & Hnewcat & _). split.
  - intros Hin.
    destruct (Forall2_elem_r _ _ _ _ Hnewcat Hin) as (c0 & Hc0 & [pl0 cs] & Hentry & [= -> -> -> ->]).
    apply Hmissing in Hc0 as [_ Hno]. split_and!; [done | done | by exists cs | done].
  - intros (-> & -> & (cs & Hentry) & Hno).
    destruct (Forall2_elem_l _ _ _ c Hnewcat) as (o & Ho & entry & Hentry' & ->).
    + apply Hmissing. split; [| done]. apply dict_get_is_Some. by eexists.
    + rewrite Hentry in Hentry'. by injection Hentry' as <-.
Qed.

Lemma category_created_iff_witness :
  rubric_category_create (PyStr "Style") 7 None None ∈
    (create_assignment_rubric (λ l, l) true 7 moved_rubric false true one_category_db).2 ↔
  7%Z = 7%Z ∧ None = (None : option nat) ∧
  (∃ cs, dict_get (PyStr "Style") moved_rubric = Some (None, cs)) ∧
  (∀ cat, dict_get (PyStr "Style") (existing_rubric 7 one_category_db).2 = Some cat →
          category_delete (cat_id cat) ∈
            (create_assignment_rubric (λ l, l) true 7 moved_rubric false true
               one_category_db).2).
Proof.
  apply (category_created_iff (λ l, l) true 7 moved_rubric false true one_category_db).
  - intros l. reflexivity.
  - left. reflexivity.
Defined.

(** ** Comments of the sheet that share a name *)

Lemma sheet_rubric_fold rubric :
  (sheet_rubric rubric).2 =
  foldl (λ d cm, dict_set (name cm) cm d) [] (all_comments rubric).
Proof.
  unfold sheet_rubric, all_comments.
  assert (∀ (cs : list comment_t) (c : pyval) (acc : dict pyval pyval * dict pyval comment_t),
            (foldl (λ acc comment, (dict_set (name comment) c acc.1,
                                    dict_set (name comment) comment acc.2)) acc cs).2 =
            foldl (λ d cm, dict_set (name cm) cm d) acc.2 cs) as Hinner.
  { induction cs as [|cm cs IH]; intros c acc; [done |]. simpl. by rewrite IH. }
  assert (∀ acc : dict pyval pyval * dict pyval comment_t,
            (foldl (λ acc entry,
                      foldl (λ acc comment, (dict_set (name comment) entry.1 acc.1,
                                             dict_set (name comment) comment acc.2))
                            acc entry.2.2) acc rubric).2 =
            foldl (λ d cm, dict_set (name cm) cm d) acc.2
              (mjoin ((λ entry, entry.2.2) <$> rubric))) as Houter.
  { induction rubric as [|entry rubric IH]; intros acc; [done |].
    simpl. rewrite foldl_app, IH. f_equal. apply Hinner. }
  apply (Houter ([], [])).
Qed.

Lemma dict_get_fold_last (l : list comment_t) (d : dict pyval comment_t) n :
  dict_get n (foldl (λ d cm, dict_set (name cm) cm d) d l) =
  match last (filter (λ cm, name cm = n) l) with
  | Some cm => Some cm
  | None => dict_get n d
  end.
Proof.
  revert d. induction l as [|cm l IH]; intros d; [done |].
  simpl. rewrite IH. destruct (decide (name cm = n)) as [Hn|Hn].
  - rewrite filter_cons_True by done. rewrite last_cons.
    destruct (last (filter (λ cm, name cm = n) l)); [done |].
    rewrite <- Hn. apply dict_get_set_eq.
  - rewrite filter_cons_False by done.
    destruct (last (filter (λ cm, name cm = n) l)); [done |].
    by apply dict_get_set_ne.
Qed.

Lemma sheet_rubric_last rubric n :
  dict_get n (sheet_rubric rubric).2 =
  last (filter (λ cm, name cm = n) (all_comments rubric)).
Proof.
  rewrite sheet_rubric_fold, dict_get_fold_last.
  by destruct (last (filter (λ cm, name cm = n) (all_comments rubric))).
Qed.

(** X13: when several comments of the sheet bear the same name, only the
    last of them reaches the server: the fields an update or a creation
    carries are those of the last comment of the sheet with that name. *)
Theorem last_comment_of_a_name_is_sent set_iter refetch a_id rubric
    override_rubric delete_missing db i inf :
  (∀ l, set_iter l ≡ₚ l) →
  comment_update i inf ∈
    (create_assignment_rubric set_iter refetch a_id rubric
       override_rubric delete_missing db).2 ∨
  rubric_comment_create i inf ∈
    (create_assignment_rubric set_iter refetch a_id rubric
       override_rubric delete_missing db).2 →
  last (filter (λ cm, name cm = name inf) (all_comments rubric)) = Some inf.
Proof.
  intros Hperm Hin.
  destruct (create_assignment_rubric_cases set_iter refetch a_id rubric
              override_rubric delete_missing db Hperm) as [Hrun|(ph & Hshape & Hrun)].
  - rewrite Hrun in Hin. simpl in Hin. destruct Hin as [Hin|Hin]; by apply elem_of_nil in Hin.
  - unfold runs in Hrun. rewrite Hrun in Hin. simpl in Hin.
    pose proof (plan_shape_ops _ _ _ _ _ _ _ Hshape) as (Hops1 & Hops2 & Hops3 & Hops4 & Hops5).
    destruct (sheet_rubric_facts rubric) as (_ & _ & _ & Hrc).
    rewrite <- sheet_rubric_last.
    destruct Hshape as (_ & _ & _ & Hupd & Hnew).
    rewrite Forall_forall in Hops1, Hops2, Hops3, Hops4, Hops5.
    unfold plan_of in Hin. rewrite !elem_of_app in Hin.
    destruct Hin as [[Hin|[Hin|[Hin|[Hin|Hin]]]]|[Hin|[Hin|[Hin|[Hin|Hin]]]]].
    + by apply Hops1 in Hin as [? ?].
    + by apply Hops2 in Hin as [? ?].
    + by apply Hops3 in Hin as (? & ? & ? & ? & ?).
    + destruct (Forall2_elem_r _ _ _ _ Hupd Hin) as (item & _ & inf' & Hget & [= -> ->]).
      pose proof (Hrc _ _ (dict_get_elem _ _ _ Hget)) as Hname. by rewrite Hname.
    + by apply Hops5 in Hin as (? & ? & ?).
    + by apply Hops1 in Hin as [? ?].
    + by apply Hops2 in Hin as [? ?].
    + by apply Hops3 in Hin as (? & ? & ? & ? & ?).
    + by apply Hops4 in Hin as (? & ? & ?).
    + destruct (Forall2_elem_r _ _ _ _ Hnew Hin)
        as (n & _ & c_name & c & inf' & _ & _ & _ & Hget & [= -> ->]).
      pose proof (Hrc _ _ (dict_get_elem _ _ _ Hget)) as Hname. by rewrite Hname.
Qed.

Lemma last_comment_of_a_name_is_sent_witness :
  last (filter (λ cm, name cm = name (comment "B" (PyStr "second") (PyInt (-1))))
          (all_comments doubled_rubric))
  = Some (comment "B" (PyStr "second") (PyInt (-1))).
Proof.
  apply (last_comment_of_a_name_is_sent (λ l, l) true 7 doubled_rubric false false demo_db 11).
  - intros l. reflexivity.
  - left. apply (bool_decide_unpack _). vm_compute. reflexivity.
Defined.



(** ** The other assignments *)

Lemma filter_fmap_fixed {A} (P : A → Prop) `{∀ x, Decision (P x)} (f : A → A) (l : list A) :
  (∀ x, x ∈ l → (P x → f x = x) ∧ (¬ P x → ¬ P (f x))) →
  filter P (f <$> l) = filter P l.
Proof.
  induction l as [|x l IH]; intros Hf; [done |].
  rewrite fmap_cons.
  destruct (Hf x (list_elem_of_here _ _)) as [Hfix Hout].
  assert (filter P (f <$> l) = filter P l) as Hl.
  { apply IH. intros y Hy. apply Hf. by apply list_elem_of_further. }
  destruct (decide (P x)) as [HP|HP].
  - rewrite (Hfix HP). rewrite !filter_cons_True by done. by rewrite Hl.
  - rewrite !filter_cons_False; [done | done | by apply Hout].
Qed.

(** A plan that deletes none of the categories of an assignment and
    creates none for it leaves the categories of that assignment as they
    are. *)
Lemma other_categories_after_plan a' (ids : list Z) p :
  ∀ db,
    (∀ c, c ∈ rubricCategories a' db → cat_id c ∈ ids) →
    Forall (λ o, match o with
                 | category_delete i => i ∉ ids
                 | rubric_category_create _ a0 _ _ => a0 ≠ a'
                 | _ => True
                 end) p →
    rubricCategories a' (exec_all p db) = rubricCategories a' db.
Proof.
  induction p as [|o p IH]; intros db Hids Hp; [done |].
  apply Forall_cons in Hp as [Ho Hp].
  change (exec_all (?o :: ?p) db) with (exec_all p (exec o db)).
  assert (rubricCategories a' (exec o db) = rubricCategories a' db) as Hstep.
  { unfold rubricCategories. destruct o as [i|n a0 pl sk|c inf|i inf|i]; simpl; [| | done ..].
    - rewrite list_filter_filter. apply filter_ext_elem. intros c Hc. split; [tauto |].
      intros Ha. split; [done |]. intros <-. apply Ho, Hids.
      by apply list_elem_of_filter.
    - rewrite filter_app, filter_cons_False by done. by rewrite filter_nil, app_nil_r. }
  rewrite IH; [done | | done]. by rewrite Hstep.
Qed.

(** A plan whose calls address neither a category nor any of its comments
    leaves the comments of that category as they are.  [ids] are the ids
    of the comments the plan updates or deletes. *)
Lemma other_comments_after_plan c' (ids : list Z) p :
  ∀ db,
    (∀ m, m ∈ db_comments db → category m = cat_id c' → com_id m ∉ ids) →
    Forall (λ o, match o with
                 | category_delete i => i ≠ cat_id c'
                 | rubric_category_create _ _ _ _ => True
                 | rubric_comment_create c _ => c ≠ cat_id c'
                 | comment_update i _ => i ∈ ids
                 | comment_delete i => i ∈ ids
                 end) p →
    rubricComments (exec_all p db) c' = rubricComments db c'.
Proof.
  induction p as [|o p IH]; intros db Hids Hp; [done |].
  apply Forall_cons in Hp as [Ho Hp].
  change (exec_all (?o :: ?p) db) with (exec_all p (exec o db)).
  assert (rubricComments (exec o db) c' = rubricComments db c' ∧
          ∀ m, m ∈ db_comments (exec o db) → category m = cat_id c' → com_id m ∉ ids)
    as [Hstep Hids'].
  { unfold rubricComments. destruct o as [i|n a0 pl sk|c inf|i inf|i]; simpl.
    - split.
      + rewrite list_filter_filter. apply filter_ext_elem. intros m Hm. split; [tauto |].
        intros Hcat. split; [done | congruence].
      + intros m Hm. apply list_elem_of_filter in Hm as [_ Hm]. by apply Hids.
    - done.
    - split.
      + rewrite filter_app, filter_cons_False by (simpl; congruence).
        by rewrite filter_nil, app_nil_r.
      + intros m Hm. apply elem_of_app in Hm as [Hm|Hm]; [by apply Hids |].
        apply list_elem_of_singleton in Hm as ->. simpl. congruence.
    - split.
      + apply filter_fmap_fixed. intros m Hm. split.
        * intros Hcat. rewrite decide_False; [done |]. intros <-. by apply (Hids m).
        * intros Hcat. by case_decide.
      + intros m Hm. apply list_elem_of_fmap in Hm as (m0 & -> & Hm0).
        case_decide; simpl; by apply Hids.
    - split.
      + rewrite list_filter_filter. apply filter_ext_elem. intros m Hm. split; [tauto |].
        intros Hcat. split; [done |]. intros <-. by apply (Hids m).
      + intros m Hm. apply list_elem_of_filter in Hm as [_ Hm]. by apply Hids. }
  rewrite IH; [done | done | done].
Qed.

(** X14: a run on one assignment leaves the rubric of every other
    assignment alone: on a server whose ids are distinct, the categories
    of another assignment and the comments of each of them are after the
    run what they were before. *)
Theorem other_assignments_are_left_alone set_iter refetch a_id rubric
    override_rubric delete_missing db a' :
  (∀ l, set_iter l ≡ₚ l) →
  NoDup (cat_id <$> db_categories db) →
  NoDup (com_id <$> db_comments db) →
  (∀ c, c ∈ db_categories db → (cat_id c < db_next_id db)%Z) →
  a' ≠ a_id →
  rubricCategories a'
    (create_assignment_rubric set_iter refetch a_id rubric
       override_rubric delete_missing db).1.2 = rubricCategories a' db ∧
  ∀ c', c' ∈ rubricCategories a' db →
        rubricComments
          (create_assignment_rubric set_iter refetch a_id rubric
             override_rubric delete_missing db).1.2 c' = rubricComments db c'.
Proof.
  intros Hperm Hcats Hcoms Hbound Ha'.
  destruct (create_assignment_rubric_cases set_iter refetch a_id rubric
              override_rubric delete_missing db Hperm) as [Hrun|(ph & Hshape & Hrun)].
  { by rewrite Hrun. }
  unfold runs in Hrun. rewrite Hrun. simpl.
  pose proof (plan_shape_ops _ _ _ _ _ _ _ Hshape) as (Hops1 & Hops2 & Hops3 & Hops4 & Hops5).
  destruct (existing_rubric_facts a_id db) as (_ & _ & Hold & Hcategories).
  (* a category of the assignment shares its id with no category of another one *)
  assert (∀ c c', c ∈ rubricCategories a_id db → c' ∈ rubricCategories a' db →
                  cat_id c ≠ cat_id c') as Hapart.
  { intros c c' Hc Hc' Hid.
    apply list_elem_of_filter in Hc as [Hc_a Hc]. apply list_elem_of_filter in Hc' as [Hc'_a Hc'].
    assert (c = c') as -> by (by apply (NoDup_fmap_elem_inj cat_id (db_categories db))).
    congruence. }
  assert (Forall (λ o, ∃ c, c ∈ rubricCategories a_id db ∧ o = category_delete (cat_id c))
            (deleted_categories ph)) as Hdeleted.
  { destruct Hshape as (_ & -> & _). destruct (deleting _ _ _ _ _); [| constructor].
    apply Forall_fmap, Forall_forall. intros c Hc. simpl.
    apply list_elem_of_filter in Hc as [_ Hc].
    apply list_elem_of_fmap in Hc as ([n c0] & -> & Hc). exists c0. split; [| done].
    by eapply Hcategories. }
  assert (Forall (λ o, ∃ n pl sk, o = rubric_category_create n a_id pl sk)
            (created_categories ph)) as Hcreated.
  { destruct Hshape as (_ & _ & Hnewcat & _).
    eapply Forall2_Forall_r; [apply Hnewcat |]. intros c o (entry & _ & ->). by repeat eexists. }
  split.
  - apply (other_categories_after_plan a' (cat_id <$> rubricCategories a' db)).
    { intros c Hc. by apply list_elem_of_fmap_2. }
    unfold plan_of. rewrite !Forall_app. split_and!.
    + eapply Forall_impl; [apply Hops1 |]. by intros o [? ->].
    + eapply Forall_impl; [apply Hdeleted |]. intros o (c & Hc & ->). simpl.
      intros Hin. apply list_elem_of_fmap in Hin as (c' & Hid & Hc').
      by apply (Hapart c c').
    + eapply Forall_impl; [apply Hcreated |]. intros o (? & ? & ? & ->). simpl. congruence.
    + eapply Forall_impl; [apply Hops4 |]. by intros o (? & ? & ->).
    + eapply Forall_impl; [apply Hops5 |]. by intros o (? & ? & ->).
  - intros c' Hc'.
    apply (other_comments_after_plan c' (com_id <$> dict_values (existing_rubric a_id db).1)).
    { intros m Hm Hcat Hin.
      apply list_elem_of_fmap in Hin as (m0 & Hid & Hm0).
      apply list_elem_of_fmap in Hm0 as ([n m0'] & -> & Hm0). simpl in Hid.
      pose proof (existing_rubric_observed _ _ _ _ Hm0) as [(Hm0_db & c & Hc & Hcat0) _].
      assert (m = m0') as -> by (by apply (NoDup_fmap_elem_inj com_id (db_comments db))).
      apply (Hapart c c'); [done | done | congruence]. }
    unfold plan_of. rewrite !Forall_app. split_and!.
    + destruct Hshape as (Hdel & _).
      destruct (deleting _ _ _ _ _); [| rewrite Hdel; constructor].
      eapply Forall2_Forall_r; [apply Hdel |]. intros n o (m & Hm & ->). simpl.
      apply list_elem_of_fmap. exists m. split; [done |].
      apply list_elem_of_fmap. exists (n, m). split; [done | by apply dict_get_elem].
    + eapply Forall_impl; [apply Hdeleted |]. intros o (c & Hc & ->). simpl.
      by apply Hapart.
    + eapply Forall_impl; [apply Hops3 |]. by intros o (? & ? & ? & ? & ->).
    + destruct Hshape as (_ & _ & _ & Hupd & _).
      apply Forall_forall. intros o Ho.
      destruct (Forall2_elem_r _ _ _ _ Hupd Ho) as ([n m] & Hnm & inf & _ & ->). simpl.
      apply list_elem_of_filter in Hnm as [_ Hnm].
      apply list_elem_of_fmap. exists m. split; [done |].
      apply list_elem_of_fmap. by exists (n, m).
    + destruct Hshape as (_ & _ & _ & _ & Hnew).
      eapply Forall2_Forall_r; [apply Hnew |].
      intros n o (c_name & c & inf & _ & _ & Hc & _ & ->). simpl.
      apply list_elem_of_filter in Hc as [Hc_a Hc].
      apply category_after_plan in Hc as [Hc|Hnew_id].
      * apply Hapart; [by apply list_elem_of_filter | done].
      * apply list_elem_of_filter in Hc' as [_ Hc']. apply Hbound in Hc'. lia.
Qed.

Lemma two_assignments_db_bound c :
  c ∈ db_categories two_assignments_db → (cat_id c < db_next_id two_assignments_db)%Z.
Proof.
  simpl. intros Hc.
  repeat (apply elem_of_cons in Hc as [->|Hc]; [simpl; lia |]).
  by apply elem_of_nil in Hc.
Qed.

Lemma other_assignments_are_left_alone_witness :
  rubricCategories 8
    (create_assignment_rubric (λ l, l) true 7 demo_rubric false true
       two_assignments_db).1.2 = rubricCategories 8 two_assignments_db ∧
  ∀ c', c' ∈ rubricCategories 8 two_assignments_db →
        rubricComments
          (create_assignment_rubric (λ l, l) true 7 demo_rubric false true
             two_assignments_db).1.2 c' = rubricComments two_assignments_db c'.
Proof.
  apply (other_assignments_are_left_alone (λ l, l) true 7 demo_rubric false true
           two_assignments_db 8).
  - intros l. reflexivity.
  - apply (bool_decide_unpack _). vm_compute. reflexivity.
  - apply (bool_decide_unpack _). vm_compute. reflexivity.
  - apply two_assignments_db_bound.
  - discriminate.
Defined.

(** ** Wiping and creating anew *)

(** X17: [wipe_and_create_assignment_rubric], when it is let through,
    returns after these calls, in this order: one deletion for every
    category found on the assignment, then, for each category of the
    sheet in the order of the sheet, its creation with its position as
    sort key, followed by the creation of each of its comments under the
    id the server gave the category. *)
Theorem wipe_deletes_then_creates a_id rubric override_rubric db :
  proceeds a_id override_rubric db →
  (wipe_and_create_assignment_rubric a_id rubric override_rubric db).1.1 = Ok tt ∧
  (wipe_and_create_assignment_rubric a_id rubric override_rubric db).2 =
    (category_delete <$> (cat_id <$> rubricCategories a_id db)) ++
    wipe_creations a_id (db_next_id db) 0 rubric.
Proof.
  intros Hgo. pose proof (wipe_and_create_runs a_id rubric override_rubric db Hgo) as Hrun.
  unfold runs in Hrun. by rewrite Hrun.
Qed.

Lemma wipe_deletes_then_creates_witness :
  (wipe_and_create_assignment_rubric 7 demo_rubric false demo_db).1.1 = Ok tt ∧
  (wipe_and_create_assignment_rubric 7 demo_rubric false demo_db).2 =
    (category_delete <$> (cat_id <$> rubricCategories 7 demo_db)) ++
    wipe_creations 7 (db_next_id demo_db) 0 demo_rubric.
Proof.
  apply (wipe_deletes_then_creates 7 demo_rubric false demo_db).
  left. reflexivity.
Defined.

Lemma categories_after_category_deletes ids db :
  db_categories (exec_all (category_delete <$> ids) db) =
  filter (λ c, cat_id c ∉ ids) (db_categories db).
Proof.
  revert db. induction ids as [|i ids IH]; intros db.
  - simpl. symmetry. apply filter_all_elem. intros c _. apply not_elem_of_nil.
  - rewrite fmap_cons. change (exec_all (?o :: ?p) db) with (exec_all p (exec o db)).
    rewrite IH. simpl. rewrite list_filter_filter. apply filter_ext_elem.
    intros c _. rewrite not_elem_of_cons. tauto.
Qed.

Lemma comments_after_category_deletes ids db m :
  m ∈ db_comments (exec_all (category_delete <$> ids) db) → m ∈ db_comments db.
Proof.
  revert db. induction ids as [|i ids IH]; intros db; [done |].
  rewrite fmap_cons. change (exec_all (?o :: ?p) db) with (exec_all p (exec o db)).
  intros Hm. apply IH in Hm. simpl in Hm. by apply list_elem_of_filter in Hm as [_ ?].
Qed.

Lemma exec_comment_creates c cs :
  ∀ db,
    db_categories (exec_all (rubric_comment_create c <$> cs) db) = db_categories db ∧
    db_next_id (exec_all (rubric_comment_create c <$> cs) db) =
      (db_next_id db + Z.of_nat (length cs))%Z ∧
    (∀ m, m ∈ db_comments (exec_all (rubric_comment_create c <$> cs) db) →
          m ∈ db_comments db ∨ category m = c) ∧
    (∀ c', cat_id c' ≠ c →
           rubricComments (exec_all (rubric_comment_create c <$> cs) db) c' =
           rubricComments db c') ∧
    (∀ c', cat_id c' = c →
           info <$> rubricComments (exec_all (rubric_comment_create c <$> cs) db) c' =
           (info <$> rubricComments db c') ++ cs).
Proof.
  induction cs as [|cm cs IH]; intros db.
  - simpl. split_and!; [done | lia | by left | done |]. intros c' _. by rewrite app_nil_r.
  - rewrite fmap_cons. change (exec_all (?o :: ?p) db) with (exec_all p (exec o db)).
    destruct (IH (exec (rubric_comment_create c cm) db))
      as (Hcats & Hnext & Hcoms & Hother & Hown).
    split_and!.
    + by rewrite Hcats.
    + rewrite Hnext. simpl. lia.
    + intros m Hm. apply Hcoms in Hm as [Hm|Hm]; [| by right].
      simpl in Hm. apply elem_of_app in Hm as [Hm|Hm]; [by left |].
      apply list_elem_of_singleton in Hm as ->. by right.
    + intros c' Hc'. rewrite Hother by done. unfold rubricComments. simpl.
      rewrite filter_app, filter_cons_False by (simpl; congruence).
      by rewrite filter_nil, app_nil_r.
    + intros c' Hc'. rewrite Hown by done. unfold rubricComments. simpl.
      rewrite filter_app, filter_cons_True by (simpl; congruence).
      rewrite filter_nil, fmap_app. simpl. by rewrite <- app_assoc.
Qed.

(** The comments of a category that was there before are not touched by
    the creations. *)
Lemma wipe_creations_other_comments a_id rubric :
  ∀ sort_key db c,
    (cat_id c < db_next_id db)%Z →
    rubricComments (exec_all (wipe_creations a_id (db_next_id db) sort_key rubric) db) c =
    rubricComments db c.
Proof.
  induction rubric as [|[c_name [max_points comments]] rubric IH]; intros sort_key db c Hc;
    [done |].
  simpl wipe_creations.
  change (exec_all (?o :: ?p) db) with (exec_all p (exec o db)).
  rewrite exec_all_app.
  set (db1 := exec (rubric_category_create c_name a_id max_points (Some sort_key)) db).
  destruct (exec_comment_creates (db_next_id db) comments db1)
    as (_ & Hnext & _ & Hother & _).
  set (db2 := exec_all (rubric_comment_create (db_next_id db) <$> comments) db1) in *.
  replace (db_next_id db + 1 + Z.of_nat (length comments))%Z with (db_next_id db2)
    by (rewrite Hnext; simpl; lia).
  rewrite IH by (rewrite Hnext; simpl; lia).
  rewrite Hother by lia. done.
Qed.

Lemma wipe_creations_state a_id rubric :
  ∀ sort_key db,
    (∀ m, m ∈ db_comments db → (category m < db_next_id db)%Z) →
    ∃ new,
      rubricCategories a_id
        (exec_all (wipe_creations a_id (db_next_id db) sort_key rubric) db) =
        rubricCategories a_id db ++ new ∧
      Forall2 (λ entry c,
                 cat_name c = entry.1 ∧ pointLimit c = entry.2.1 ∧
                 (db_next_id db ≤ cat_id c)%Z ∧
                 info <$> rubricComments
                            (exec_all (wipe_creations a_id (db_next_id db) sort_key rubric) db)
                            c = entry.2.2)
        rubric new ∧
      sortKey <$> new = Some <$> seq sort_key (length rubric).
Proof.
  induction rubric as [|[c_name [max_points comments]] rubric IH]; intros sort_key db Hbound.
  - exists []. simpl. rewrite app_nil_r. split_and!; [done | constructor | done].
  - simpl wipe_creations.
    change (exec_all (?o :: ?p) db) with (exec_all p (exec o db)).
    rewrite exec_all_app.
    set (c0 := {| cat_id := db_next_id db; cat_name := c_name; assignment := a_id;
                  pointLimit := max_points; sortKey := Some sort_key |}).
    set (db1 := exec (rubric_category_create c_name a_id max_points (Some sort_key)) db).
    destruct (exec_comment_creates (db_next_id db) comments db1)
      as (Hcats & Hnext & Hcoms & Hother & Hown).
    set (db2 := exec_all (rubric_comment_create (db_next_id db) <$> comments) db1) in *.
    assert (db_next_id db2 = (db_next_id db + 1 + Z.of_nat (length comments))%Z) as Hnext2
      by (rewrite Hnext; simpl; lia).
    rewrite <- Hnext2.
    destruct (IH (S sort_key) db2) as (new & Hnew & Hentries & Hkeys).
    { intros m Hm. apply Hcoms in Hm as [Hm|Hm].
      - apply Hbound in Hm. lia.
      - lia. }
    exists (c0 :: new). split_and!.
    + rewrite Hnew. unfold rubricCategories at 1. rewrite Hcats. simpl.
      rewrite filter_app, filter_cons_True by done. rewrite filter_nil.
      by rewrite <- app_assoc.
    + constructor.
      * split_and!; [done | done | simpl; lia |].
        rewrite wipe_creations_other_comments by (simpl; lia).
        rewrite (Hown c0) by done. simpl.
        assert (rubricComments db1 c0 = []) as ->; [| done].
        apply elem_of_nil_inv. intros m Hm. apply list_elem_of_filter in Hm as [Hcat Hm].
        simpl in Hcat, Hm. apply Hbound in Hm. lia.
      * eapply Forall2_impl; [apply Hentries |].
        intros entry c (? & ? & ? & ?). split_and!; [done | done | lia | done].
    + rewrite fmap_cons, Hkeys. reflexivity.
Qed.

(** X18: after [wipe_and_create_assignment_rubric] the rubric of the
    assignment is the rubric of the sheet and nothing else: its categories
    are those of the sheet, in the order of the sheet and numbered from 0,
    each with the point cap of the sheet and with exactly the comments of
    the sheet, in their order.  The server is taken to hold no comment
    bound to an id it has not handed out yet. *)
Theorem wipe_puts_the_sheet_in_place a_id rubric override_rubric db :
  proceeds a_id override_rubric db →
  (∀ m, m ∈ db_comments db → (category m < db_next_id db)%Z) →
  Forall2 (λ entry c,
             cat_name c = entry.1 ∧ pointLimit c = entry.2.1 ∧
             info <$> rubricComments
                        (wipe_and_create_assignment_rubric a_id rubric override_rubric db).1.2
                        c = entry.2.2)
    rubric
    (rubricCategories a_id
       (wipe_and_create_assignment_rubric a_id rubric override_rubric db).1.2) ∧
  sortKey <$> rubricCategories a_id
                (wipe_and_create_assignment_rubric a_id rubric override_rubric db).1.2
  = Some <$> seq 0 (length rubric).
Proof.
  intros Hgo Hbound.
  pose proof (wipe_and_create_runs a_id rubric override_rubric db Hgo) as Hrun.
  unfold runs in Hrun. rewrite Hrun. simpl. rewrite exec_all_app.
  set (db_d := exec_all (category_delete <$> (cat_id <$> rubricCategories a_id db)) db).
  assert (db_next_id db_d = db_next_id db) as Hnext
    by apply exec_all_category_deletes_next.
  assert (rubricCategories a_id db_d = []) as Hnone.
  { apply elem_of_nil_inv. intros c Hc. apply list_elem_of_filter in Hc as [Ha Hc].
    unfold db_d in Hc. rewrite categories_after_category_deletes in Hc.
    apply list_elem_of_filter in Hc as [Hout Hc]. apply Hout.
    apply list_elem_of_fmap_2. by apply list_elem_of_filter. }
  rewrite <- Hnext.
  destruct (wipe_creations_state a_id rubric 0 db_d) as (new & Hnew & Hentries & Hkeys).
  { intros m Hm. rewrite Hnext.
    by apply Hbound, (comments_after_category_deletes (cat_id <$> rubricCategories a_id db) db). }
  rewrite Hnew, Hnone. simpl. split; [| done].
  eapply Forall2_impl; [apply Hentries |]. by intros entry c (? & ? & _ & ?).
Qed.

Lemma wipe_puts_the_sheet_in_place_witness :
  Forall2 (λ entry c,
             cat_name c = entry.1 ∧ pointLimit c = entry.2.1 ∧
             info <$> rubricComments
                        (wipe_and_create_assignment_rubric 7 moved_rubric false demo_db).1.2
                        c = entry.2.2)
    moved_rubric
    (rubricCategories 7 (wipe_and_create_assignment_rubric 7 moved_rubric false demo_db).1.2) ∧
  sortKey <$> rubricCategories 7
                (wipe_and_create_assignment_rubric 7 moved_rubric false demo_db).1.2
  = Some <$> seq 0 (length moved_rubric).
Proof.
  apply (wipe_puts_the_sheet_in_place 7 moved_rubric false demo_db).
  - left. reflexivity.
  - apply demo_db_ids_in_order.
Defined.

(** ** Importing all the rubrics *)

(** X19: [main] imports nothing.  Whatever the sheet and the flags, it
    makes no call that changes the rubric of the server; and as soon as
    the worksheets give one rubric to import, it ends with the
    [TypeError] raised at line 385. *)
Theorem main_imports_nothing set_iter refetch course_assignments sheet
    start_sheet end_sheet testing override delete wipe db :
  ((main set_iter refetch course_assignments sheet start_sheet end_sheet
      testing override delete wipe db).2 = [] ∧
   (main set_iter refetch course_assignments sheet start_sheet end_sheet
      testing override delete wipe db).1.2 = db) ∧
  (∀ first item data,
     start_sheet = Some first →
     get_all_rubric_comments course_assignments sheet first end_sheet = Ok (item :: data) →
     (main set_iter refetch course_assignments sheet start_sheet end_sheet
        testing override delete wipe db).1.1 = Raise TypeError).
Proof.
  split.
  - unfold main.
    destruct (if testing && bool_decide (start_sheet = None) && bool_decide (end_sheet = None)
              then Some 1%Z else start_sheet) as [first|]; [| done].
    unfold mbind, M_bind, lift.
    destruct (get_all_rubric_comments course_assignments sheet first end_sheet)
      as [[|item data]|e]; done.
  - intros first item data -> Hdata. unfold main.
    rewrite bool_decide_eq_false_2 by done. rewrite andb_false_r. cbn [andb].
    unfold mbind, M_bind, lift. by rewrite Hdata.
Qed.

(** ** The order of the calls *)

(** X20: the calls of a run come in five groups, in this order: the
    deletions of comments, the deletions of categories, the creations of
    categories, the updates of comments, the creations of comments.  So a
    category is there before a comment is created under it, and no
    comment is updated or created before the deletions are over. *)
Theorem calls_come_in_five_groups set_iter refetch a_id rubric
    override_rubric delete_missing db :
  (∀ l, set_iter l ≡ₚ l) →
  ∃ p1 p2 p3 p4 p5,
    (create_assignment_rubric set_iter refetch a_id rubric
       override_rubric delete_missing db).2 = p1 ++ p2 ++ p3 ++ p4 ++ p5 ∧
    Forall (λ o, is_comment_delete o = true) p1 ∧
    Forall (λ o, is_category_delete o = true) p2 ∧
    Forall (λ o, is_category_create o = true) p3 ∧
    Forall (λ o, is_comment_update o = true) p4 ∧
    Forall (λ o, is_comment_create o = true) p5.
Proof.
  intros Hperm.
  destruct (create_assignment_rubric_cases set_iter refetch a_id rubric
              override_rubric delete_missing db Hperm) as [Hrun|(ph & Hshape & Hrun)].
  - exists [], [], [], [], []. rewrite Hrun. by repeat split.
  - unfold runs in Hrun. rewrite Hrun. simpl.
    pose proof (plan_shape_ops _ _ _ _ _ _ _ Hshape) as (Hops1 & Hops2 & Hops3 & Hops4 & Hops5).
    exists (deleted_comments ph), (deleted_categories ph), (created_categories ph),
      (updated_comments ph), (created_comments ph).
    split_and!; [done | ..].
    + eapply Forall_impl; [apply Hops1 |]. by intros o [? ->].
    + eapply Forall_impl; [apply Hops2 |]. by intros o [? ->].
    + eapply Forall_impl; [apply Hops3 |]. by intros o (? & ? & ? & ? & ->).
    + eapply Forall_impl; [apply Hops4 |]. by intros o (? & ? & ->).
    + eapply Forall_impl; [apply Hops5 |]. by intros o (? & ? & ->).
Qed.

Lemma calls_come_in_five_groups_witness :
  ∃ p1 p2 p3 p4 p5,
    (create_assignment_rubric (λ l, l) true 7 moved_rubric false true demo_db).2
      = p1 ++ p2 ++ p3 ++ p4 ++ p5 ∧
    Forall (λ o, is_comment_delete o = true) p1 ∧
    Forall (λ o, is_category_delete o = true) p2 ∧
    Forall (λ o, is_category_create o = true) p3 ∧
    Forall (λ o, is_comment_update o = true) p4 ∧
    Forall (λ o, is_comment_create o = true) p5.
Proof.
  apply (calls_come_in_five_groups (λ l, l) true 7 moved_rubric false true demo_db).
  intros l. reflexivity.
Defined.

(** ** Where a new comment goes *)

Lemma sheet_rubric_listed rubric :
  sheet_rubric rubric =
  foldl (λ acc item, (dict_set (name item.2) item.1 acc.1,
                      dict_set (name item.2) item.2 acc.2))
    ([], []) (listed rubric).
Proof.
  unfold sheet_rubric, listed.
  assert (∀ (cs : list comment_t) (c : pyval) (acc : dict pyval pyval * dict pyval comment_t),
            foldl (λ acc comment, (dict_set (name comment) c acc.1,
                                   dict_set (name comment) comment acc.2)) acc cs =
            foldl (λ acc (item : pyval * comment_t),
                     (dict_set (name item.2) item.1 acc.1,
                      dict_set (name item.2) item.2 acc.2))
              acc ((λ cm, (c, cm)) <$> cs)) as Hinner.
  { induction cs as [|cm cs IH]; intros c acc; [done |]. simpl. by rewrite IH. }
  assert (∀ acc : dict pyval pyval * dict pyval comment_t,
            foldl (λ acc entry,
                     foldl (λ acc comment, (dict_set (name comment) entry.1 acc.1,
                                            dict_set (name comment) comment acc.2))
                           acc entry.2.2) acc rubric =
            foldl (λ acc (item : pyval * comment_t),
                     (dict_set (name item.2) item.1 acc.1,
                      dict_set (name item.2) item.2 acc.2))
              acc (entry ← rubric; (λ cm, (entry.1, cm)) <$> entry.2.2)) as Houter.
  { induction rubric as [|entry rubric IH]; intros acc; [done |].
    simpl. rewrite foldl_app, IH. f_equal. apply Hinner. }
  apply (Houter ([], [])).
Qed.

Lemma sheet_rubric_category_last rubric n :
  dict_get n (sheet_rubric rubric).1 =
  fst <$> last (filter (λ item, name item.2 = n) (listed rubric)).
Proof.
  rewrite sheet_rubric_listed.
  assert (∀ (l : list (pyval * comment_t)) (acc : dict pyval pyval * dict pyval comment_t),
            dict_get n (foldl (λ acc item, (dict_set (name item.2) item.1 acc.1,
                                            dict_set (name item.2) item.2 acc.2))
                          acc l).1 =
            match last (filter (λ item, name item.2 = n) l) with
            | Some item => Some item.1
            | None => dict_get n acc.1
            end) as Hlast.
  { induction l as [|item l IH]; intros acc; [done |].
    simpl. rewrite IH. simpl. destruct (decide (name item.2 = n)) as [Hn|Hn].
    - rewrite filter_cons_True by done. rewrite last_cons.
      destruct (last (filter (λ item, name item.2 = n) l)); [done |].
      rewrite <- Hn. apply dict_get_set_eq.
    - rewrite filter_cons_False by done.
      destruct (last (filter (λ item, name item.2 = n) l)); [done |].
      by apply dict_get_set_ne. }
  rewrite Hlast. by destruct (last (filter (λ item, name item.2 = n) (listed rubric))).
Qed.

(** X21: a comment that is new to the assignment is created under a
    category of the assignment that bears the name of the sheet category
    listing it; if the sheet lists the name more than once, the last
    listing decides. *)
Theorem new_comment_goes_to_its_category set_iter refetch a_id rubric
    override_rubric delete_missing db i inf :
  (∀ l, set_iter l ≡ₚ l) →
  rubric_comment_create i inf ∈
    (create_assignment_rubric set_iter refetch a_id rubric
       override_rubric delete_missing db).2 →
  ∃ c,
    c ∈ rubricCategories a_id
          (create_assignment_rubric set_iter refetch a_id rubric
             override_rubric delete_missing db).1.2 ∧
    cat_id c = i ∧
    fst <$> last (filter (λ item, name item.2 = name inf) (listed rubric))
      = Some (cat_name c).
Proof.
  intros Hperm Hin.
  destruct (create_assignment_rubric_cases set_iter refetch a_id rubric
              override_rubric delete_missing db Hperm) as [Hrun|(ph & Hshape & Hrun)].
  - rewrite Hrun in Hin. by apply elem_of_nil in Hin.
  - unfold runs in Hrun. rewrite Hrun in Hin |- *. simpl in *.
    pose proof (plan_shape_ops _ _ _ _ _ _ _ Hshape) as (Hops1 & Hops2 & Hops3 & Hops4 & _).
    pose proof (categories_after_run set_iter refetch a_id rubric delete_missing db ph Hshape)
      as Hcats.
    destruct (sheet_rubric_facts rubric) as (_ & _ & _ & Hrc).
    destruct Hshape as (_ & _ & _ & _ & Hnew).
    rewrite Forall_forall in Hops1, Hops2, Hops3, Hops4.
    unfold plan_of in Hin. rewrite !elem_of_app in Hin.
    destruct Hin as [Hin|[Hin|[Hin|[Hin|Hin]]]].
    + by apply Hops1 in Hin as [? ?].
    + by apply Hops2 in Hin as [? ?].
    + by apply Hops3 in Hin as (? & ? & ? & ? & ?).
    + by apply Hops4 in Hin as (? & ? & ?).
    + destruct (Forall2_elem_r _ _ _ _ Hnew Hin)
        as (n & _ & c_name & c & inf' & Hcat & Hname & Hc & Hget & [= -> ->]).
      exists c. split_and!; [| done |].
      * apply list_elem_of_filter in Hc as [Ha Hc]. apply list_elem_of_filter.
        split; [done |]. by rewrite Hcats.
      * pose proof (Hrc _ _ (dict_get_elem _ _ _ Hget)) as Hn.
        rewrite <- sheet_rubric_category_last, Hn, Hname. done.
Qed.

Lemma new_comment_goes_to_its_category_witness :
  ∃ c,
    c ∈ rubricCategories 7
          (create_assignment_rubric (λ l, l) true 7 demo_rubric false true demo_db).1.2 ∧
    cat_id c = 2%Z ∧
    fst <$> last (filter (λ item, name item.2 = name (comment "D" (PyStr "d") (PyInt 0)))
                    (listed demo_rubric))
      = Some (cat_name c).
Proof.
  apply (new_comment_goes_to_its_category (λ l, l) true 7 demo_rubric false true demo_db).
  - intros l. reflexivity.
  - apply (bool_decide_unpack _). vm_compute. reflexivity.
Defined.

(** ** Comments of the server that share a name *)

(** X22: when several comments found on the assignment bear the same
    name, the engine holds one of them under that name and deals with
    that one only: the others are neither updated nor deleted, whatever
    the sheet says. *)
Theorem shadowed_comment_is_not_addressed set_iter refetch a_id rubric
    override_rubric delete_missing db m :
  (∀ l, set_iter l ≡ₚ l) →
  NoDup (com_id <$> db_comments db) →
  m ∈ db_comments db →
  dict_get (name (info m)) (existing_rubric a_id db).1 ≠ Some m →
  Forall (λ o, o ≠ comment_delete (com_id m) ∧ ∀ inf, o ≠ comment_update (com_id m) inf)
    (create_assignment_rubric set_iter refetch a_id rubric
       override_rubric delete_missing db).2.
Proof.
  intros Hperm Hids Hm Hshadowed.
  destruct (create_assignment_rubric_cases set_iter refetch a_id rubric
              override_rubric delete_missing db Hperm) as [Hrun|(ph & Hshape & Hrun)].
  - rewrite Hrun. constructor.
  - unfold runs in Hrun. rewrite Hrun. simpl.
    pose proof (plan_shape_ops _ _ _ _ _ _ _ Hshape) as (_ & Hops2 & Hops3 & _ & Hops5).
    destruct (existing_rubric_facts a_id db) as (Hold_nd & _ & Hold & _).
    (* the comment held under a name is the only one addressed by its id *)
    assert (∀ n m', (n, m') ∈ (existing_rubric a_id db).1 → com_id m' ≠ com_id m) as Hother.
    { intros n m' Hnm' Hid. destruct (Hold _ _ Hnm') as [Hname Hm'].
      assert (m' = m) as -> by (by apply (NoDup_fmap_elem_inj com_id (db_comments db))).
      apply Hshadowed. rewrite Hname. by apply dict_elem_get. }
    destruct Hshape as (Hdel & _ & _ & Hupd & _).
    unfold plan_of. rewrite !Forall_app. split_and!.
    + destruct (deleting _ _ _ _ _); [| rewrite Hdel; constructor].
      eapply Forall2_Forall_r; [apply Hdel |]. intros n o (m' & Hm' & ->).
      split; [| done]. intros [= Hid]. apply (Hother n m'); [by apply dict_get_elem | done].
    + eapply Forall_impl; [apply Hops2 |]. by intros o [? ->].
    + eapply Forall_impl; [apply Hops3 |]. by intros o (? & ? & ? & ? & ->).
    + apply Forall_forall. intros o Ho.
      destruct (Forall2_elem_r _ _ _ _ Hupd Ho) as ([n m'] & Hnm' & inf & _ & ->).
      apply list_elem_of_filter in Hnm' as [_ Hnm']. simpl.
      split; [done |]. intros inf' [= Hid _]. by apply (Hother n m') in Hid.
    + eapply Forall_impl; [apply Hops5 |]. by intros o (? & ? & ->).
Qed.

Lemma shadowed_comment_is_not_addressed_witness :
  Forall (λ o, o ≠ comment_delete (com_id (demo_comment 10 1 "B")) ∧
               ∀ inf, o ≠ comment_update (com_id (demo_comment 10 1 "B")) inf)
    (create_assignment_rubric (λ l, l) true 7 demo_rubric false true shadowed_db).2.
Proof.
  apply (shadowed_comment_is_not_addressed (λ l, l) true 7 demo_rubric false true
           shadowed_db (demo_comment 10 1 "B")).
  - intros l. reflexivity.
  - apply (bool_decide_unpack _). vm_compute. reflexivity.
  - apply list_elem_of_here.
  - vm_compute. discriminate.
Defined.

(** ** What stays on the server *)

Lemma sheet_name_listed rubric n :
  n ∈ dict_keys (sheet_rubric rubric).2 → ∃ cm, cm ∈ all_comments rubric ∧ name cm = n.
Proof.
  intros Hn. apply dict_get_is_Some in Hn as [inf Hinf].
  rewrite sheet_rubric_last in Hinf. apply last_Some in Hinf as [l Hl].
  assert (inf ∈ filter (λ cm, name cm = n) (all_comments rubric)) as Hin.
  { rewrite Hl. apply elem_of_app. right. apply list_elem_of_here. }
  apply list_elem_of_filter in Hin as [Hname Hin]. by exists inf.
Qed.

(** X23: without [delete_missing], a comment of the server whose name the
    sheet does not list stays on the server as it is, with its id, its
    category and its fields. *)
Theorem comment_missing_from_sheet_is_kept set_iter refetch a_id rubric
    override_rubric db m :
  (∀ l, set_iter l ≡ₚ l) →
  NoDup (com_id <$> db_comments db) →
  m ∈ db_comments db →
  (∀ cm, cm ∈ all_comments rubric → name cm ≠ name (info m)) →
  m ∈ db_comments
        (create_assignment_rubric set_iter refetch a_id rubric
           override_rubric false db).1.2.
Proof.
  intros Hperm Hids Hm Hunlisted.
  destruct (create_assignment_rubric_cases set_iter refetch a_id rubric
              override_rubric false db Hperm) as [Hrun|(ph & Hshape & Hrun)].
  { by rewrite Hrun. }
  unfold runs in Hrun. rewrite Hrun. simpl.
  pose proof (plan_shape_ops _ _ _ _ _ _ _ Hshape) as (_ & _ & Hops3 & _ & Hops5).
  destruct (existing_rubric_facts a_id db) as (_ & _ & Hold & _).
  destruct Hshape as (Hdel & Hdelcat & _ & Hupd & _).
  unfold deleting in Hdel, Hdelcat. rewrite andb_false_r in Hdel, Hdelcat.
  unfold plan_of. rewrite Hdel, Hdelcat. simpl. rewrite !exec_all_app.
  apply comment_survives_creates; [done |].
  replace m with (with_fields m (info m)) by (by destruct m).
  apply comment_after_updates.
  - apply Forall_forall. intros o Ho.
    destruct (Forall2_elem_r _ _ _ _ Hupd Ho) as ([n m'] & Hnm' & inf & _ & ->).
    apply list_elem_of_filter in Hnm' as [Hlisted Hnm']. simpl in *.
    do 2 eexists. split; [done |]. intros Hid. exfalso.
    destruct (Hold _ _ Hnm') as [Hname Hm'].
    assert (m' = m) as -> by (by apply (NoDup_fmap_elem_inj com_id (db_comments db))).
    apply sheet_name_listed in Hlisted as (cm & Hcm & Hcm_name).
    apply (Hunlisted cm Hcm). congruence.
  - right. rewrite comments_after_category_creates by done. by destruct m.
Qed.

Lemma comment_missing_from_sheet_is_kept_witness :
  demo_comment 10 1 "A" ∈
    db_comments
      (create_assignment_rubric (λ l, l) true 7 demo_rubric false false demo_db).1.2.
Proof.
  apply (comment_missing_from_sheet_is_kept (λ l, l) true 7 demo_rubric false demo_db).
  - intros l. reflexivity.
  - apply (bool_decide_unpack _). vm_compute. reflexivity.
  - apply list_elem_of_here.
  - intros cm Hcm. simpl in Hcm.
    repeat (apply elem_of_cons in Hcm as [->|Hcm]; [discriminate |]).
    by apply elem_of_nil in Hcm.
Defined.

Lemma wipe_creations_ops a_id rubric :
  ∀ next sort_key,
    Forall (λ o, match o with
                 | rubric_category_create _ a0 _ _ => a0 = a_id
                 | rubric_comment_create c _ => (next ≤ c)%Z
                 | _ => False
                 end) (wipe_creations a_id next sort_key rubric).
Proof.
  induction rubric as [|[c_name [max_points comments]] rubric IH]; intros next sort_key;
    [constructor |].
  simpl. constructor; [done |]. apply Forall_app. split.
  - apply Forall_fmap, Forall_forall. intros cm _. simpl. lia.
  - eapply Forall_impl; [apply IH |]. intros [] Ho; try done. lia.
Qed.

Lemma wipe_guard_refuses a_id rubric override_rubric db :
  bool_decide (0 < length (list_submissions a_id db)) && negb override_rubric = true →
  wipe_and_create_assignment_rubric a_id rubric override_rubric db = (Ok tt, db, []).
Proof.
  intros Hguard. unfold wipe_and_create_assignment_rubric, mbind, M_bind, fetch.
  by rewrite Hguard.
Qed.

(** X24: [wipe_and_create_assignment_rubric] on one assignment leaves
    every other assignment alone: on a server whose category ids are
    distinct and were handed out before, the categories of another
    assignment and the comments of each of them are after the call what
    they were before. *)
Theorem wipe_leaves_other_assignments_alone a_id rubric override_rubric db a' :
  NoDup (cat_id <$> db_categories db) →
  (∀ c, c ∈ db_categories db → (cat_id c < db_next_id db)%Z) →
  a' ≠ a_id →
  rubricCategories a'
    (wipe_and_create_assignment_rubric a_id rubric override_rubric db).1.2
    = rubricCategories a' db ∧
  ∀ c', c' ∈ rubricCategories a' db →
        rubricComments
          (wipe_and_create_assignment_rubric a_id rubric override_rubric db).1.2 c'
        = rubricComments db c'.
Proof.
  intros Hcats Hbound Ha'.
  destruct (bool_decide (0 < length (list_submissions a_id db)) && negb override_rubric)
    eqn:Hguard.
  { by rewrite wipe_guard_refuses. }
  pose proof (wipe_and_create_runs a_id rubric override_rubric db
                (guard_lets_through _ _ _ Hguard)) as Hrun.
  unfold runs in Hrun. rewrite Hrun. simpl.
  assert (∀ c c', c ∈ rubricCategories a_id db → c' ∈ rubricCategories a' db →
                  cat_id c ≠ cat_id c') as Hapart.
  { intros c c' Hc Hc' Hid.
    apply list_elem_of_filter in Hc as [Hc_a Hc]. apply list_elem_of_filter in Hc' as [Hc'_a Hc'].
    assert (c = c') as -> by (by apply (NoDup_fmap_elem_inj cat_id (db_categories db))).
    congruence. }
  pose proof (wipe_creations_ops a_id rubric (db_next_id db) 0) as Hcreations.
  split.
  - apply (other_categories_after_plan a' (cat_id <$> rubricCategories a' db)).
    { intros c Hc. by apply list_elem_of_fmap_2. }
    apply Forall_app. split.
    + apply Forall_fmap, Forall_fmap, Forall_forall. intros c Hc. simpl.
      intros Hin. apply list_elem_of_fmap in Hin as (c' & Hid & Hc').
      by apply (Hapart c c').
    + eapply Forall_impl; [apply Hcreations |]. intros [] Ho; try done. congruence.
  - intros c' Hc'. apply (other_comments_after_plan c' []).
    { intros m _ _. apply not_elem_of_nil. }
    apply Forall_app. split.
    + apply Forall_fmap, Forall_fmap, Forall_forall. intros c Hc. simpl. by apply Hapart.
    + eapply Forall_impl; [apply Hcreations |]. intros [] Ho; try done.
      apply list_elem_of_filter in Hc' as [_ Hc']. apply Hbound in Hc'. lia.
Qed.

Lemma wipe_leaves_other_assignments_alone_witness :
  rubricCategories 8
    (wipe_and_create_assignment_rubric 7 demo_rubric false two_assignments_db).1.2
    = rubricCategories 8 two_assignments_db ∧
  ∀ c', c' ∈ rubricCategories 8 two_assignments_db →
        rubricComments
          (wipe_and_create_assignment_rubric 7 demo_rubric false two_assignments_db).1.2 c'
        = rubricComments two_assignments_db c'.
Proof.
  apply (wipe_leaves_other_assignments_alone 7 demo_rubric false two_assignments_db 8).
  - apply (bool_decide_unpack _). vm_compute. reflexivity.
  - apply two_assignments_db_bound.
  - discriminate.
Defined.

(** ** An empty sheet *)

(** X25: a sheet with no category at all.  Without [delete_missing] the
    run makes no call.  With [delete_missing] it makes deletions only, and
    every comment the engine holds under a name is deleted. *)
Theorem empty_sheet_run set_iter refetch a_id override_rubric db :
  (∀ l, set_iter l ≡ₚ l) →
  proceeds a_id override_rubric db →
  (create_assignment_rubric set_iter refetch a_id [] override_rubric false db).2 = [] ∧
  Forall (λ o, is_comment_delete o = true ∨ is_category_delete o = true)
    (create_assignment_rubric set_iter refetch a_id [] override_rubric true db).2 ∧
  (∀ n m, dict_get n (existing_rubric a_id db).1 = Some m →
          comment_delete (com_id m) ∈
            (create_assignment_rubric set_iter refetch a_id [] override_rubric true db).2).
Proof.
  intros Hperm Hgo.
  assert (∀ delete_missing ph,
            plan_shape set_iter refetch a_id [] delete_missing db ph →
            created_categories ph = [] ∧ updated_comments ph = [] ∧ created_comments ph = [])
    as Hnone.
  { intros delete_missing ph (_ & _ & Hnewcat & Hupd & Hnew). split_and!.
    - unfold missing_categories in Hnewcat. simpl in Hnewcat.
      rewrite (set_iter_nil set_iter) in Hnewcat by done.
      by apply Forall2_nil_inv_l in Hnewcat.
    - destruct (updated_comments ph) as [|o p]; [done |]. exfalso.
      destruct (Forall2_elem_r _ _ _ o Hupd) as (item & Hitem & _);
        [apply list_elem_of_here |].
      apply list_elem_of_filter in Hitem as [Hin _]. by apply elem_of_nil in Hin.
    - unfold new_names in Hnew. simpl in Hnew.
      rewrite (set_iter_nil set_iter) in Hnew by done.
      by apply Forall2_nil_inv_l in Hnew. }
  split_and!.
  - destruct (create_assignment_rubric_runs set_iter refetch Hperm a_id []
                override_rubric false db Hgo) as (ph & Hshape & Hrun).
    unfold runs in Hrun. rewrite Hrun. simpl.
    destruct (Hnone _ _ Hshape) as (H3 & H4 & H5).
    destruct Hshape as (Hdel & Hdelcat & _).
    unfold deleting in Hdel, Hdelcat. rewrite andb_false_r in Hdel, Hdelcat.
    unfold plan_of. by rewrite Hdel, Hdelcat, H3, H4, H5.
  - destruct (create_assignment_rubric_runs set_iter refetch Hperm a_id []
                override_rubric true db Hgo) as (ph & Hshape & Hrun).
    unfold runs in Hrun. rewrite Hrun. simpl.
    destruct (Hnone _ _ Hshape) as (H3 & H4 & H5).
    pose proof (plan_shape_ops _ _ _ _ _ _ _ Hshape) as (Hops1 & Hops2 & _).
    unfold plan_of. rewrite H3, H4, H5, !app_nil_r. apply Forall_app. split.
    + eapply Forall_impl; [apply Hops1 |]. intros o [? ->]. by left.
    + eapply Forall_impl; [apply Hops2 |]. intros o [? ->]. by right.
  - intros n m Hm.
    destruct (create_assignment_rubric_runs set_iter refetch Hperm a_id []
                override_rubric true db Hgo) as (ph & Hshape & Hrun).
    unfold runs in Hrun. rewrite Hrun. simpl.
    destruct (missing_names_facts set_iter Hperm a_id [] db) as [_ Hmissing].
    assert (n ∈ missing_names set_iter a_id [] db) as Hn.
    { apply Hmissing. split; [| apply not_elem_of_nil]. apply dict_get_is_Some. by eexists. }
    destruct Hshape as (Hdel & _).
    assert (deleting set_iter a_id [] true db = true) as Hdeleting.
    { unfold deleting. rewrite andb_true_r. apply bool_decide_eq_true_2.
      intros Hnil. rewrite Hnil in Hn. by apply elem_of_nil in Hn. }
    rewrite Hdeleting in Hdel.
    destruct (Forall2_elem_l _ _ _ _ Hdel Hn) as (o & Ho & m' & Hm' & ->).
    rewrite Hm in Hm'. injection Hm' as <-.
    unfold plan_of. apply elem_of_app. by left.
Qed.

Lemma empty_sheet_run_witness :
  (create_assignment_rubric (λ l, l) true 7 [] false false demo_db).2 = [] ∧
  Forall (λ o, is_comment_delete o = true ∨ is_category_delete o = true)
    (create_assignment_rubric (λ l, l) true 7 [] false true demo_db).2 ∧
  (∀ n m, dict_get n (existing_rubric 7 demo_db).1 = Some m →
          comment_delete (com_id m) ∈
            (create_assignment_rubric (λ l, l) true 7 [] false true demo_db).2).
Proof.
  apply (empty_sheet_run (λ l, l) true 7 false demo_db).
  - intros l. reflexivity.
  - left. reflexivity.
Defined.
